(** * Restort-Admin: satisfaction analytics and chef recommendations

    A shallow embedding of [src/routes/orderRoutes.js]: the satisfaction
    scorer, the sentiment classifier adapter, the analytics routes, the trend
    aggregation, the chef recommendation synthesizer and the order status
    route, followed by the properties of them that the specification states.

    Conventions.
    - JavaScript numbers that the code divides or rounds are exact rationals
      ([Q]); counts, ratings and timestamps (milliseconds since the epoch,
      UTC) are integers. The scorer is given a second time in IEEE 754
      binary64, the arithmetic the engine evaluates it in
      ([calculateSatisfactionScore64]).
    - Strings are sequences of characters with code points below 256.
    - An [async] function is a computation in the monad [M]: it reads and
      updates the [World] (the backing store and the log of calls issued to
      the hosted models) and either returns or throws.
    - A plain JS object used as a counter table is a [gmap string nat]. *)

From Stdlib Require Import ZArith QArith Qround Lia Lqa List Ascii String.
From Stdlib Require Import Sorting.Sorted Sorting.Permutation.
From Stdlib Require Import Floats.SpecFloat.
From stdpp Require Import base option list sorting gmap strings.

Local Open Scope Z_scope.

(** ** Rational helpers *)

(** [Number.prototype.toFixed(2)] followed by [parseFloat]: the nearest
    multiple of 1/100, ties away from zero (the sign is handled apart, as
    in the language definition). *)
Definition toFixed2_nonneg (x : Q) : Q :=
  (inject_Z (Qfloor (x * 100 + (1 # 2))) / 100)%Q.

Definition toFixed2 (x : Q) : Q :=
  if Qle_bool 0 x then toFixed2_nonneg x else (- toFixed2_nonneg (- x))%Q.

(** [toFixed(1)] followed by [parseFloat], used for the displayed average. *)
Definition toFixed1 (x : Q) : Q :=
  if Qle_bool 0 x then (inject_Z (Qfloor (x * 10 + (1 # 2))) / 10)%Q
  else (- (inject_Z (Qfloor (- x * 10 + (1 # 2))) / 10))%Q.

(** ** Sentiment distribution: a JS object keyed by label *)

Definition or0 (o : option nat) : nat := default 0%nat o.

(** The accumulator the three profile routes and the trend route start from:
    [{ positive: 0, neutral: 0, negative: 0 }]. *)
Definition emptyDistribution : gmap string nat :=
  <["positive" := 0%nat]> (<["neutral" := 0%nat]> (<["negative" := 0%nat]> ∅)).

(** [acc[label] = (acc[label] || 0) + 1; return acc] *)
Definition countLabel (acc : gmap string nat) (label : string) : gmap string nat :=
  <[label := (or0 (acc !! label) + 1)%nat]> acc.

(** [labels.reduce(countLabel, { positive: 0, neutral: 0, negative: 0 })] *)
Definition sentimentDistributionOf (labels : list string) : gmap string nat :=
  fold_left countLabel labels emptyDistribution.

(** ** The satisfaction scorer *)

Definition ratingWeight : Q := (6 # 10)%Q.
Definition sentimentWeight : Q := (4 # 10)%Q.

Definition nat_to_Q (n : nat) : Q := inject_Z (Z.of_nat n).

(** [calculateSatisfactionScore(averageRating, sentimentDistribution)],
    every operation exact. *)
Definition calculateSatisfactionScore
    (averageRating : Q) (sentimentDistribution : gmap string nat) : Q :=
  let positive := or0 (sentimentDistribution !! "positive") in
  let neutral := or0 (sentimentDistribution !! "neutral") in
  let negative := or0 (sentimentDistribution !! "negative") in
  let maxSentiment := Nat.max (Nat.max positive neutral) negative in
  let sentimentRatio :=
    if (0 <? maxSentiment)%nat
    then (nat_to_Q positive / nat_to_Q maxSentiment)%Q
    else (1 # 2)%Q in
  (toFixed2 (averageRating / 5 * ratingWeight + sentimentRatio * sentimentWeight) * 100)%Q.

(** [ratings.reduce((sum, r) => sum + r, 0)] *)
Definition sumRatings (ratings : list Z) : Z := fold_left Z.add ratings 0.

(** [sumRatings(ratings) / ratings.length], also the pipeline's [$avg]. No
    caller divides for an empty list (JavaScript would give NaN); here the
    quotient by zero is 0. *)
Definition averageOf (ratings : list Z) : Q :=
  (inject_Z (sumRatings ratings) / inject_Z (Z.of_nat (length ratings)))%Q.

(** ** The scorer in binary64

    The numbers of the engine are IEEE 754 doubles. Their operations are
    those of the Standard Library's executable specification ([SpecFloat]):
    53 bits of precision, round to nearest, ties to even. *)

Module Binary64.

Definition prec : Z := 53.
Definition emax : Z := 1024.

Definition double : Set := spec_float.

Definition add : double -> double -> double := SFadd prec emax.
Definition mul : double -> double -> double := SFmul prec emax.
Definition div : double -> double -> double := SFdiv prec emax.

(** The double nearest to the rational [num / den]: the value of a decimal
    literal, and of [parseFloat] on a decimal string. *)
Definition nearest (num : Z) (den : positive) : double :=
  match num with
  | 0 => S754_zero false
  | Z.pos n =>
      let '(m, e, l) := SFdiv_core_binary prec emax (Z.pos n) 0 (Z.pos den) 0 in
      binary_round_aux prec emax false m e l
  | Z.neg n =>
      let '(m, e, l) := SFdiv_core_binary prec emax (Z.pos n) 0 (Z.pos den) 0 in
      binary_round_aux prec emax true m e l
  end.

Definition ofZ (n : Z) : double := nearest n 1.
Definition ofNat (n : nat) : double := ofZ (Z.of_nat n).

(** The magnitude of a finite double, exactly. *)
Definition magnitude (m : positive) (e : Z) : Q := (inject_Z (Z.pos m) * 2 ^ e)%Q.

(** [x.toFixed(digits)] followed by [parseFloat]. [toFixed] writes the sign
    apart and the integer [n] for which [n / 10^digits] is nearest to the
    exact magnitude of [x], the larger one of two; [parseFloat] reads the
    decimal back. *)
Definition toFixed (digits : nat) (x : double) : double :=
  match x with
  | S754_finite s m e =>
      let n := Qfloor (magnitude m e * inject_Z (10 ^ Z.of_nat digits) + (1 # 2)) in
      let r := nearest n (Z.to_pos (10 ^ Z.of_nat digits)) in
      if s then SFopp r else r
  | S754_zero _ => S754_zero false
  | _ => x
  end.

End Binary64.

Definition ratingWeight64 : Binary64.double := Binary64.nearest 6 10.
Definition sentimentWeight64 : Binary64.double := Binary64.nearest 4 10.

(** [calculateSatisfactionScore(averageRating, sentimentDistribution)] as
    the engine evaluates it. *)
Definition calculateSatisfactionScore64
    (averageRating : Binary64.double) (sentimentDistribution : gmap string nat)
  : Binary64.double :=
  let positive := or0 (sentimentDistribution !! "positive") in
  let neutral := or0 (sentimentDistribution !! "neutral") in
  let negative := or0 (sentimentDistribution !! "negative") in
  let maxSentiment := Nat.max (Nat.max positive neutral) negative in
  let sentimentRatio :=
    if (0 <? maxSentiment)%nat
    then Binary64.div (Binary64.ofNat positive) (Binary64.ofNat maxSentiment)
    else Binary64.nearest 1 2 in
  Binary64.mul
    (Binary64.toFixed 2
       (Binary64.add
          (Binary64.mul (Binary64.div averageRating (Binary64.ofZ 5)) ratingWeight64)
          (Binary64.mul sentimentRatio sentimentWeight64)))
    (Binary64.ofZ 100).

(** [sumRatings(ratings) / ratings.length] as the engine evaluates it; the
    sum of integer ratings is exact. *)
Definition averageOf64 (ratings : list Z) : Binary64.double :=
  Binary64.div (Binary64.ofZ (sumRatings ratings))
    (Binary64.ofNat (length ratings)).

(** ** Dates

    A [Date] is its time value: milliseconds since 1970-01-01T00:00:00Z.
    The server runs in UTC, so the local-time accessors of [Date] and the
    date operators of the aggregation pipeline read the same calendar. *)

Module DateModel.

Definition msPerDay : Z := 86400000.

Definition Day (t : Z) : Z := t / msPerDay.
Definition TimeWithinDay (t : Z) : Z := t mod msPerDay.

(** Day number of the civil date [y]-[m]-[d], months counted from 1. *)
Definition days_from_civil (y m d : Z) : Z :=
  let y' := if m <=? 2 then y - 1 else y in
  let era := y' / 400 in
  let yoe := y' - era * 400 in
  let mp := if 2 <? m then m - 3 else m + 9 in
  let doy := (153 * mp + 2) / 5 + d - 1 in
  let doe := yoe * 365 + yoe / 4 - yoe / 100 + doy in
  era * 146097 + doe - 719468.

(** Civil date (year, month from 1, day of month) of a day number. *)
Definition civil_from_days (z : Z) : Z * Z * Z :=
  let z' := z + 719468 in
  let era := z' / 146097 in
  let doe := z' - era * 146097 in
  let yoe := (doe - doe / 1460 + doe / 36524 - doe / 146096) / 365 in
  let doy := doe - (365 * yoe + yoe / 4 - yoe / 100) in
  let mp := (5 * doy + 2) / 153 in
  let d := doy - (153 * mp + 2) / 5 + 1 in
  let m := if mp <? 10 then mp + 3 else mp - 9 in
  let y := yoe + era * 400 in
  ((if m <=? 2 then y + 1 else y), m, d).

Definition getFullYear (t : Z) : Z := fst (fst (civil_from_days (Day t))).
(** [getMonth] counts months from 0. *)
Definition getMonth (t : Z) : Z := snd (fst (civil_from_days (Day t))) - 1.
Definition getDate (t : Z) : Z := snd (civil_from_days (Day t)).
(** 0 is Sunday; 1970-01-01 was a Thursday. *)
Definition getDay (t : Z) : Z := (Day t + 4) mod 7.

(** [MakeDay(year, month, date)] of the language definition: the month
    (counted from 0) may lie outside 0..11 and the date outside the month;
    both carry over. *)
Definition MakeDay (year month date : Z) : Z :=
  let ym := year + month / 12 in
  let mn := month mod 12 in
  days_from_civil ym (mn + 1) 1 + date - 1.

Definition MakeDate (day time : Z) : Z := day * msPerDay + time.

Definition setDate (t date : Z) : Z :=
  MakeDate (MakeDay (getFullYear t) (getMonth t) date) (TimeWithinDay t).
Definition setMonth (t month : Z) : Z :=
  MakeDate (MakeDay (getFullYear t) month (getDate t)) (TimeWithinDay t).
Definition setFullYear (t year : Z) : Z :=
  MakeDate (MakeDay year (getMonth t) (getDate t)) (TimeWithinDay t).

(** The aggregation pipeline's date operators. *)
Definition op_year (t : Z) : Z := getFullYear t.
Definition op_month (t : Z) : Z := getMonth t + 1.
Definition op_dayOfYear (t : Z) : Z :=
  Day t - days_from_civil (getFullYear t) 1 1 + 1.
(** Weeks begin on Sundays; the days before the year's first Sunday are in
    week 0. *)
Definition op_week (t : Z) : Z := (op_dayOfYear t - 1 + 7 - getDay t) / 7.

(** The time value of [y]-[m]-[d]T[hh]:00:00Z, to write dates in examples. *)
Definition utc (y m d hh : Z) : Z :=
  MakeDate (days_from_civil y m d) (hh * 3600000).

End DateModel.

Import DateModel.

(** ** Data model *)

(** Modelled from the spec: the user documents ([models/userModel] is not
    among the sources), with the fields [populate] selects. *)
Record User := {
  user_id : string;
  firstName : string;
  lastName : string }.

(** Modelled from the spec: a FeedbackRecord, one entry of a food item's
    [feedback] array ([models/foodItem] is not among the sources), with the
    fields the routes read or write. [fb_userId] is the reference after
    [populate]: the author's user document, absent for anonymous feedback
    and for an author who no longer exists. [reply] and [repliedAt] are
    absent until the feedback is replied to. *)
Record Feedback := {
  fb_id : string;
  fb_userId : option User;
  rating : Z;
  comment : string;
  createdAt : Z;
  reply : option string;
  repliedAt : option Z;
  resolved : bool }.

(** Modelled from the spec: a food item, the owner of its feedback. *)
Record FoodItem := {
  item_id : string;
  item_name : string;
  feedback : list Feedback }.

(** An order line. [oi_foodItemId] is the reference [foodItemId] as the
    order stores it, and [oi_foodItemName] the name of the item it is
    populated with when the item exists. *)
Record OrderedItem := {
  oi_foodItemId : option string;
  oi_quantity : Z;
  oi_foodItemName : option string;
  oi_name : option string }.

(** Modelled from the spec: an Order ([models/orderModel] is not among the
    sources), with [updatedAt], which the status route writes. [order_id]
    is the order's ObjectId in hexadecimal. *)
Record Order := {
  order_id : string;
  order_user : option string;
  order_items : list OrderedItem;
  order_status : string;
  order_createdAt : Z;
  order_updatedAt : Z;
  totalAmount : Z }.

(** The backing store. When [reachable] is false every query rejects. *)
Record Store := {
  reachable : bool;
  foodItems : list FoodItem;
  orders : list Order;
  users : list User }.

(** What the sentiment model answers for one label. *)
Record SentimentItem := {
  label : string;
  score : Q }.

(** ** Effects *)

(** Calls issued to the hosted models, in the order they are issued. *)
Inductive HfCall :=
| TextClassification (inputs : string)
| Summarization (inputs : string)
| TextGeneration (inputs : string).

Record World := {
  store : Store;
  clock : Z;
  hfCalls : list HfCall }.

Inductive Err := StoreError | HfError | TypeError | CastError.

Inductive Res (A : Type) :=
| Ok (a : A)
| Throw (e : Err).
Arguments Ok {A} a.
Arguments Throw {A} e.

Definition M (A : Type) : Type := World -> Res A * World.

#[export] Instance M_ret : MRet M := fun A a w => (Ok a, w).
#[export] Instance M_bind : MBind M := fun A B f m w =>
  match m w with
  | (Ok a, w') => f a w'
  | (Throw e, w') => (Throw e, w')
  end.

Definition throw {A} (e : Err) : M A := fun w => (Throw e, w).

(** [try { m } catch (error) { h error }] *)
Definition try_catch {A} (m : M A) (h : Err -> M A) : M A := fun w =>
  match m w with
  | (Ok a, w') => (Ok a, w')
  | (Throw e, w') => h e w'
  end.

(** [await Promise.all(l.map(async x => f x))]: the bodies start in list
    order and a rejection rejects the whole. The bodies after a rejected
    one are not run here; no route can tell, since the bodies it maps
    catch their own failures. *)
Fixpoint promiseAll {A B} (f : A -> M B) (l : list A) : M (list B) :=
  match l with
  | [] => mret []
  | x :: l' => y ← f x; ys ← promiseAll f l'; mret (y :: ys)
  end.

(** A read of the store. *)
Definition storeQuery {A} (q : Store -> A) : M A := fun w =>
  if reachable (store w) then (Ok (q (store w)), w) else (Throw StoreError, w).

(** [new Date()] *)
Definition newDate : M Z := fun w => (Ok (clock w), w).

Definition logCall (c : HfCall) (w : World) : World :=
  {| store := store w; clock := clock w; hfCalls := hfCalls w ++ [c] |}.

(** ** Strings *)

Definition nl : string := String "010"%char EmptyString.
Definition dq : string := String "034"%char EmptyString.

(** White space that [String.prototype.trim] strips, among the characters
    below 256: tab, line feed, vertical tab, form feed, carriage return,
    space and no-break space. *)
Definition isWhiteSpace (c : ascii) : bool :=
  let n := nat_of_ascii c in
  ((9 <=? n) && (n <=? 13) || (n =? 32) || (n =? 160))%nat.

Fixpoint trimStart (s : string) : string :=
  match s with
  | EmptyString => EmptyString
  | String c s' => if isWhiteSpace c then trimStart s' else s
  end.

Fixpoint trimEnd (s : string) : string :=
  match s with
  | EmptyString => EmptyString
  | String c s' =>
      match trimEnd s' with
      | EmptyString => if isWhiteSpace c then EmptyString else String c EmptyString
      | t => String c t
      end
  end.

Definition trim (s : string) : string := trimEnd (trimStart s).

Fixpoint join (sep : string) (l : list string) : string :=
  match l with
  | [] => EmptyString
  | [x] => x
  | x :: l' => x +:+ sep +:+ join sep l'
  end.

(** ** Responses *)

Record Metrics := {
  totalFeedback : nat;
  averageRating : Q;
  sentimentDistribution : gmap string nat;
  satisfactionScore : Q }.

Record TrendBucket := {
  bucket_id : Z;
  bucket_averageRating : Q;
  bucket_count : nat;
  bucket_sentiment : gmap string nat }.

(** The JSON bodies of the routes below. Fields that only the store
    determines (retention counts, trending items, reported issues, recent
    feedback, order history) are left out. *)
Inductive Body :=
| Failure (message : string)
| NoFeedback (message : string) (id : string)
| Profile (id : string) (metrics : Metrics)
| Dashboard (totalCustomers : nat) (metrics : Metrics)
| Trend (period : string) (data : list TrendBucket)
| OrderDoc (order : Order).

Record Response := {
  status : Z;
  body : Body }.

Definition json (code : Z) (b : Body) : M Response :=
  mret {| status := code; body := b |}.


Definition metricsOf (r : Response) : option Metrics :=
  match body r with
  | Profile _ m | Dashboard _ m => Some m
  | _ => None
  end.

(** ** Recommendations *)

Record UserFeedback := {
  uf_foodItem : string;
  uf_comment : string;
  uf_rating : Z;
  uf_createdAt : Z;
  uf_foodItemId : string;
  uf_sentiment : string;
  uf_sentimentScore : Q }.

Record HistoricalData := {
  hd_averageRating : Q;
  hd_totalFeedback : nat;
  hd_lastFeedbackDate : string;
  hd_negativeFeedbackCount : nat;
  hd_positiveFeedbackCount : nat }.

Record FeedbackSample := {
  fs_foodItem : string;
  fs_comment : string;
  fs_rating : Z;
  fs_sentiment : string;
  fs_date : string }.

(** The object [generateChefRecommendation] returns. The two default
    objects carry [feedbackHistory: []] and neither [historicalData] nor
    [feedbackSamples]. *)
Record Recommendation := {
  recommendation : string;
  priority : string;
  sentiment : string;
  analyzedAt : option Z;
  historicalData : option HistoricalData;
  feedbackSamples : option (list FeedbackSample);
  feedbackHistory : option (list FeedbackSample) }.

(** ** The engine *)

Definition Qlt_bool (x y : Q) : bool := negb (Qle_bool y x).

(** [a || b] on strings that may be absent: the first one that is present
    and not empty. *)
Definition orElse (a b : option string) : option string :=
  match a with
  | Some s => if String.eqb s EmptyString then b else a
  | None => b
  end.

Definition neutralResult : SentimentItem := {| label := "neutral"; score := (1 # 2)%Q |}.

Definition authoredBy (userId : string) (fb : Feedback) : bool :=
  match fb_userId fb with
  | Some u => String.eqb (user_id u) userId
  | None => false
  end.

Definition validStatuses : list string :=
  ["pending"; "preparing"; "ready"; "completed"; "cancelled"].

Definition withStatus (status : string) (now : Z) (o : Order) : Order :=
  {| order_id := order_id o; order_user := order_user o;
     order_items := order_items o; order_status := status;
     order_createdAt := order_createdAt o; order_updatedAt := now;
     totalAmount := totalAmount o |}.

(** The first order whose id is [id], updated by [f], and the collection
    after the update. *)
Fixpoint updateById (id : string) (f : Order -> Order) (l : list Order)
  : option Order * list Order :=
  match l with
  | [] => (None, [])
  | o :: l' =>
      if String.eqb (order_id o) id then (Some (f o), f o :: l')
      else let '(r, l'') := updateById id f l' in (r, o :: l'')
  end.

(** Modelled from the spec: [Order.findByIdAndUpdate(id, { status,
    updatedAt }, { new: true })] of the order model. Mongoose first casts
    [id] to an ObjectId and rejects with a CastError when it cannot; the id
    of a stored order is an ObjectId, whatever [ObjectId_isValid] says of
    other strings. The update is a single-document update: it sets the two
    fields of the order with that id and returns the updated document, or
    null when there is none; it rejects when the store cannot be reached. *)
Definition Order_findByIdAndUpdate (ObjectId_isValid : string -> bool)
    (id status : string) (updatedAt : Z) : M (option Order) := fun w =>
  let s := store w in
  if negb (ObjectId_isValid id || existsb (fun o => String.eqb (order_id o) id) (orders s))
  then (Throw CastError, w)
  else if reachable s then
    let '(r, l) := updateById id (withStatus status updatedAt) (orders s) in
    (Ok r, {| store := {| reachable := true; foodItems := foodItems s;
                          orders := l; users := users s |};
              clock := clock w; hfCalls := hfCalls w |})
  else (Throw StoreError, w).

(** [{ $unwind: '$items' }] over the order collection: one document per
    order line, in which [items] is that line. *)
Definition unwindItems (l : list Order) : list (Order * OrderedItem) :=
  flat_map (fun o => map (fun item => (o, item)) (order_items o)) l.

(** [{ $sort: { createdAt: -1 } }] *)
Fixpoint insertNewest (d : Order * OrderedItem) (l : list (Order * OrderedItem))
  : list (Order * OrderedItem) :=
  match l with
  | [] => [d]
  | c :: l' =>
      if order_createdAt (fst c) <=? order_createdAt (fst d) then d :: c :: l'
      else c :: insertNewest d l'
  end.

Definition sortNewestFirst (l : list (Order * OrderedItem)) : list (Order * OrderedItem) :=
  fold_right insertNewest [] l.

(** [$lookup] of the order's user followed by [{ $unwind: '$user' }]: the
    document with its user, or no document when there is no such user. *)
Definition withUser (s : Store) (d : Order * OrderedItem)
  : option (Order * OrderedItem * User) :=
  match order_user (fst d) with
  | Some id =>
      match List.find (fun u => String.eqb (user_id u) id) (users s) with
      | Some u => Some (d, u)
      | None => None
      end
  | None => None
  end.

(** The pipeline of the food item route: the order lines that refer to the
    food item, newest order first, at most 10, each with its user. *)
Definition recentOrdersOf (objectId : string) (s : Store)
  : list (Order * OrderedItem * User) :=
  omap (withUser s)
    (take 10 (sortNewestFirst
       (filter (fun d => bool_decide (oi_foodItemId (snd d) = Some objectId))
          (unwindItems (orders s))))).

(** [{ $unwind: '$feedback' }] over the food item collection. *)
Definition unwindFeedback (s : Store) : list Feedback :=
  flat_map feedback (foodItems s).

Definition getDateGrouping (period : string) : string :=
  if String.eqb period "day" then "$dayOfYear"
  else if String.eqb period "week" then "$week"
  else if String.eqb period "month" then "$month"
  else if String.eqb period "year" then "$year"
  else "$month".

(** The value of [{ [operator]: date }] in the pipeline, for the operators
    [getDateGrouping] returns. *)
Definition evalDateOperator (operator : string) (t : Z) : Z :=
  if String.eqb operator "$dayOfYear" then op_dayOfYear t
  else if String.eqb operator "$week" then op_week t
  else if String.eqb operator "$year" then op_year t
  else op_month t.

Definition getNextPeriodDate (date : Z) (period : string) : Z :=
  if String.eqb period "day" then setDate date (getDate date + 1)
  else if String.eqb period "week" then setDate date (getDate date + 7)
  else if String.eqb period "month" then setMonth date (getMonth date + 1)
  else if String.eqb period "year" then setFullYear date (getFullYear date + 1)
  else date.

(** [$group]: one group per distinct key, holding the ratings of every
    document with that key. *)
Fixpoint groupInsert (k r : Z) (groups : list (Z * list Z)) : list (Z * list Z) :=
  match groups with
  | [] => [(k, [r])]
  | (k', rs) :: g =>
      if k =? k' then (k', rs ++ [r]) :: g else (k', rs) :: groupInsert k r g
  end.

Definition groupByKey (key : Feedback -> Z) (docs : list Feedback) : list (Z * list Z) :=
  fold_left (fun g fb => groupInsert (key fb) (rating fb) g) docs [].

(** [averageRating: { $avg: '$feedback.rating' }, count: { $sum: 1 }] *)
Definition groupStats (g : Z * list Z) : TrendBucket :=
  {| bucket_id := fst g; bucket_averageRating := averageOf (snd g);
     bucket_count := length (snd g); bucket_sentiment := ∅ |}.

(** [{ $sort: { _id: 1 } }] *)
Fixpoint insertBucket (b : TrendBucket) (l : list TrendBucket) : list TrendBucket :=
  match l with
  | [] => [b]
  | c :: l' => if bucket_id b <=? bucket_id c then b :: c :: l' else c :: insertBucket b l'
  end.

Definition sortBuckets (l : list TrendBucket) : list TrendBucket :=
  fold_right insertBucket [] l.

(** The first aggregation of the trend route: unwind, group, sort, limit. *)
Definition trendGroups (period : string) (s : Store) : list TrendBucket :=
  take 30 (sortBuckets (map groupStats
    (groupByKey (fun fb => evalDateOperator (getDateGrouping period) (createdAt fb))
       (unwindFeedback s)))).

Definition inWindow (from to : Z) (fb : Feedback) : bool :=
  (from <=? createdAt fb) && (createdAt fb <? to).

Section Engine.

(** The hosted models. The answer to a call may depend on everything that
    was called before it, so the same text can succeed once and fail
    later. *)
Variable hf_textClassification : list HfCall -> string -> Res (list SentimentItem).
Variable hf_summarization : list HfCall -> string -> Res string.
Variable hf_textGeneration : list HfCall -> string -> Res string.

(** [mongoose.Types.ObjectId.isValid], which answers whether the ObjectId
    constructor accepts the string; Mongoose casts an id with the same
    constructor. *)
Variable ObjectId_isValid : string -> bool.

(** [mongoose.Types.ObjectId(id)], the constructor called as a function. It
    throws a TypeError where [ObjectId] is a class, as in the current
    drivers, and returns the ObjectId where it is not. *)
Variable ObjectId_call : string -> Res string.

(** [{ $sample: { size } }]: a random choice among the matched documents. *)
Variable sample : nat -> list Feedback -> list Feedback.

(** Locale and number formatting used in the texts sent to the models. *)
Variable toLocaleDateString : Z -> string.
Variable showNumber : Z -> string.
Variable showPercent : Q -> string.

Definition textClassification (inputs : string) : M (list SentimentItem) := fun w =>
  (hf_textClassification (hfCalls w) inputs, logCall (TextClassification inputs) w).

Definition summarization (inputs : string) : M string := fun w =>
  (hf_summarization (hfCalls w) inputs, logCall (Summarization inputs) w).

Definition textGeneration (inputs : string) : M string := fun w =>
  (hf_textGeneration (hfCalls w) inputs, logCall (TextGeneration inputs) w).

(** [result[0]]: reading a field of it throws when the array is empty. *)
Definition first {A} (l : list A) : M A :=
  match l with
  | [] => throw TypeError
  | x :: _ => mret x
  end.

(** [analyzeSentiment(text)] *)
Definition analyzeSentiment (text : string) : M SentimentItem :=
  if String.eqb text EmptyString || (String.length (trim text) =? 0)%nat
  then mret neutralResult
  else
    try_catch
      (result ← textClassification text;
       top ← first result;
       mret {| label := label top; score := score top |})
      (fun _ => mret neutralResult).

(** The metrics block the three satisfaction routes share. *)
Definition buildMetrics (fbs : list Feedback) (averageRating : Q)
    (sentimentResults : list SentimentItem) : Metrics :=
  let sentimentDistribution := sentimentDistributionOf (map label sentimentResults) in
  {| totalFeedback := length fbs;
     averageRating := toFixed1 averageRating;
     sentimentDistribution := sentimentDistribution;
     satisfactionScore := calculateSatisfactionScore averageRating sentimentDistribution |}.

(** [GET /analytics/satisfaction] *)
Definition satisfactionDashboard : M Response :=
  try_catch
    (foodItems ← storeQuery (fun s =>
       filter (fun item => negb (length (feedback item) =? 0)%nat) (foodItems s));
     _ ← storeQuery (fun s =>
       filter (fun o => String.eqb (order_status o) "completed") (orders s));
     let allFeedback := flat_map feedback foodItems in
     let totalReviews := length allFeedback in
     let averageRating :=
       if (0 <? totalReviews)%nat then averageOf (map rating allFeedback) else 0%Q in
     sentimentResults ← promiseAll (fun fb => analyzeSentiment (comment fb)) allFeedback;
     totalCustomers ← storeQuery (fun s => length (users s));
     json 200 (Dashboard totalCustomers
                 (buildMetrics allFeedback averageRating sentimentResults)))
    (fun _ => json 500 (Failure "Failed to generate satisfaction analytics")).

(** [GET /analytics/customers/:id/satisfaction] *)
Definition customerSatisfaction (id : string) : M Response :=
  try_catch
    (if negb (ObjectId_isValid id) then json 400 (Failure "Invalid customer ID")
     else
       foodItems ← storeQuery (fun s =>
         filter (fun item => existsb (authoredBy id) (feedback item)) (foodItems s));
       let customerFeedback :=
         flat_map (fun item => filter (fun fb => authoredBy id fb) (feedback item)) foodItems in
       if (length customerFeedback =? 0)%nat
       then json 200 (NoFeedback "No feedback found for this customer" id)
       else
         let averageRating := averageOf (map rating customerFeedback) in
         sentimentResults ←
           promiseAll (fun fb => analyzeSentiment (comment fb)) customerFeedback;
         _ ← storeQuery (fun s =>
           filter (fun o => bool_decide (order_user o = Some id)
                            && String.eqb (order_status o) "completed") (orders s));
         json 200 (Profile id (buildMetrics customerFeedback averageRating sentimentResults)))
    (fun _ => json 500 (Failure "Failed to generate customer satisfaction profile")).

(** [order.items.find(i => i.foodItemId.toString() === id).quantity] on a
    document of [recentOrders]. After [$unwind], [items] is one order line,
    an object without a [find] method: the call throws a TypeError. *)
Definition unwoundQuantity (order : Order * OrderedItem * User) : M Z :=
  throw TypeError.

(** [GET /analytics/food-items/:id/satisfaction]. The response is built
    field by field: the metrics, then [recentOrders.map(...)]. *)
Definition foodItemSatisfaction (id : string) : M Response :=
  try_catch
    (if negb (ObjectId_isValid id) then json 400 (Failure "Invalid food item ID")
     else
       found ← storeQuery (fun s =>
         List.find (fun item => String.eqb (item_id item) id) (foodItems s));
       match found with
       | None => json 404 (Failure "Food item not found")
       | Some foodItem =>
           if (length (feedback foodItem) =? 0)%nat
           then json 200 (NoFeedback "No feedback found for this item" id)
           else
             let averageRating := averageOf (map rating (feedback foodItem)) in
             sentimentResults ←
               promiseAll (fun fb => analyzeSentiment (comment fb)) (feedback foodItem);
             objectId ← (fun w => (ObjectId_call id, w));
             recentOrders ← storeQuery (recentOrdersOf objectId);
             let metrics := buildMetrics (feedback foodItem) averageRating sentimentResults in
             _ ← storeQuery (fun s =>
               length (filter (fun o =>
                 existsb (fun item => bool_decide (oi_foodItemId item = Some id))
                   (order_items o)) (orders s)));
             quantities ← promiseAll unwoundQuantity recentOrders;
             json 200 (Profile id metrics)
       end)
    (fun _ => json 500 (Failure "Failed to generate food item satisfaction analysis")).

(** [GET /analytics/satisfaction-trend?period=...]; [period] is absent when
    the query does not give it. *)
Definition satisfactionTrend (query_period : option string) : M Response :=
  try_catch
    (let period := default "month" query_period in
     foodItems ← storeQuery (trendGroups period);
     resultsWithSentiment ← promiseAll (fun periodData =>
       feedbackInPeriod ← storeQuery (fun s =>
         sample 10 (filter (inWindow (bucket_id periodData)
                              (getNextPeriodDate (bucket_id periodData) period))
                      (unwindFeedback s)));
       sentimentAnalysis ←
         promiseAll (fun fb => analyzeSentiment (comment fb)) feedbackInPeriod;
       let sentimentCount := sentimentDistributionOf (map label sentimentAnalysis) in
       mret {| bucket_id := bucket_id periodData;
               bucket_averageRating := bucket_averageRating periodData;
               bucket_count := bucket_count periodData;
               bucket_sentiment := sentimentCount |}) foodItems;
     json 200 (Trend period resultsWithSentiment))
    (fun _ => json 500 (Failure "Failed to generate satisfaction trend")).

(** [PATCH /:id/status] *)
Definition updateOrderStatus (id status : string) : M Response :=
  try_catch
    (if negb (existsb (String.eqb status) validStatuses)
     then json 400 (Failure "Invalid status value")
     else
       updatedAt ← newDate;
       order ← Order_findByIdAndUpdate ObjectId_isValid id status updatedAt;
       match order with
       | None => json 404 (Failure "Order not found")
       | Some o => json 200 (OrderDoc o)
       end)
    (fun _ => json 500 (Failure "Failed to update order")).

(** *** The recommendation synthesizer *)

Definition noHistoryRecommendation : Recommendation :=
  {| recommendation := "No previous feedback found from this customer. Prepare using standard recipes and presentation.";
     priority := "normal"; sentiment := "neutral"; analyzedAt := None;
     historicalData := None; feedbackSamples := None; feedbackHistory := Some [] |}.

Definition fallbackRecommendation (now : Z) : Recommendation :=
  {| recommendation := "Standard preparation required. Check customer's past ratings for potential preferences.";
     priority := "normal"; sentiment := "neutral"; analyzedAt := Some now;
     historicalData := None; feedbackSamples := None; feedbackHistory := Some [] |}.

Definition fallbackSummary : string :=
  "Customer has provided mixed feedback across various dishes. Check individual comments for details.".

Definition fallbackText : string :=
  "Standard preparation recommended. Check customer's past feedback for potential preferences.".

(** The feedback of [userId] on one food item, with the item's name. *)
Definition userFeedbackOf (userId : string) (foodItem : FoodItem) : list UserFeedback :=
  map (fun fb =>
         {| uf_foodItem := item_name foodItem; uf_comment := comment fb;
            uf_rating := rating fb; uf_createdAt := createdAt fb;
            uf_foodItemId := item_id foodItem;
            uf_sentiment := EmptyString; uf_sentimentScore := 0%Q |})
      (filter (fun fb => authoredBy userId fb) (feedback foodItem)).

(** [{ ...fb, sentiment, sentimentScore }] *)
Definition withSentiment (fb : UserFeedback) (l : string) (sc : Q) : UserFeedback :=
  {| uf_foodItem := uf_foodItem fb; uf_comment := uf_comment fb;
     uf_rating := uf_rating fb; uf_createdAt := uf_createdAt fb;
     uf_foodItemId := uf_foodItemId fb;
     uf_sentiment := l; uf_sentimentScore := sc |}.

(** Step 1 for one comment: no short cut for an empty comment here. *)
Definition classifyFeedback (fb : UserFeedback) : M UserFeedback :=
  try_catch
    (sentimentResult ← textClassification (uf_comment fb);
     topSentiment ← first sentimentResult;
     mret (withSentiment fb (label topSentiment) (score topSentiment)))
    (fun _ => mret (withSentiment fb "neutral" (1 # 2)%Q)).

Definition digestLine (fb : UserFeedback) : string :=
  "On " +:+ toLocaleDateString (uf_createdAt fb) +:+ " for " +:+ uf_foodItem fb
  +:+ ": Rated " +:+ showNumber (uf_rating fb) +:+ "/5 - " +:+ dq +:+ uf_comment fb
  +:+ dq +:+ " (" +:+ uf_sentiment fb +:+ ", "
  +:+ showPercent (uf_sentimentScore fb * 100)%Q +:+ "% confidence)".

Definition orderLine (item : OrderedItem) : string :=
  showNumber (oi_quantity item) +:+ "x "
  +:+ default "undefined" (orElse (oi_foodItemName item) (oi_name item)).

Definition chefPrompt (feedbackSummary currentOrderItems : string) : string :=
  "As a professional chef, analyze this customer's feedback history and current order to generate specific cooking recommendations."
  +:+ nl +:+ nl +:+ "CUSTOMER FEEDBACK SUMMARY:" +:+ nl +:+ feedbackSummary
  +:+ nl +:+ nl +:+ "CURRENT ORDER ITEMS:" +:+ nl +:+ currentOrderItems
  +:+ nl +:+ nl +:+ "Provide detailed technical suggestions including:"
  +:+ nl +:+ "- Seasoning adjustments"
  +:+ nl +:+ "- Cooking techniques"
  +:+ nl +:+ "- Presentation tips"
  +:+ nl +:+ "- Quality control measures"
  +:+ nl +:+ "- Any special considerations based on their preferences".

Definition countSentiment (l : string) (fbs : list UserFeedback) : nat :=
  length (filter (fun fb => uf_sentiment fb = l) fbs).

(** The priority rule of the synthesizer. *)
Definition priorityOf (avgRating : Q) (negativeFeedbackCount total : nat) : string :=
  if Qlt_bool avgRating (5 # 2)
     || Qlt_bool (nat_to_Q total * (1 # 2))%Q (nat_to_Q negativeFeedbackCount)
  then "high"
  else if Qlt_bool (42 # 10) avgRating && (negativeFeedbackCount =? 0)%nat
  then "low"
  else "normal".

Definition overallSentiment (avgRating : Q) : string :=
  if Qle_bool 3 avgRating then "positive"
  else if Qle_bool 2 avgRating then "neutral"
  else "negative".

Definition sampleOf (fb : UserFeedback) : FeedbackSample :=
  {| fs_foodItem := uf_foodItem fb; fs_comment := uf_comment fb;
     fs_rating := uf_rating fb; fs_sentiment := uf_sentiment fb;
     fs_date := toLocaleDateString (uf_createdAt fb) |}.

(** [array[array.length - 1].createdAt] of a non-empty array. *)
Definition lastCreatedAt (l : list UserFeedback) : Z :=
  match last l with
  | Some fb => uf_createdAt fb
  | None => 0
  end.

(** [generateChefRecommendation(userId, orderedItems)] *)
Definition generateChefRecommendation (userId : string) (orderedItems : list OrderedItem)
  : M Recommendation :=
  try_catch
    (foodItemsWithFeedback ← storeQuery (fun s =>
       filter (fun item => existsb (authoredBy userId) (feedback item)) (foodItems s));
     let allUserFeedback := flat_map (userFeedbackOf userId) foodItemsWithFeedback in
     if (length allUserFeedback =? 0)%nat then mret noHistoryRecommendation
     else
       feedbackWithSentiment ← promiseAll classifyFeedback allUserFeedback;
       let feedbackSummaryText := join nl (map digestLine feedbackWithSentiment) in
       feedbackSummary ←
         try_catch (summarization feedbackSummaryText) (fun _ => mret fallbackSummary);
       let currentOrderItems := join ", " (map orderLine orderedItems) in
       recommendation ←
         try_catch
           (response ← textGeneration (chefPrompt feedbackSummary currentOrderItems);
            mret (trim response))
           (fun _ => mret fallbackText);
       let avgRating := averageOf (map uf_rating allUserFeedback) in
       let negativeFeedbackCount := countSentiment "negative" feedbackWithSentiment in
       let priority := priorityOf avgRating negativeFeedbackCount (length allUserFeedback) in
       analyzedAt ← newDate;
       mret {| recommendation := recommendation;
               priority := priority;
               sentiment := overallSentiment avgRating;
               analyzedAt := Some analyzedAt;
               historicalData := Some
                 {| hd_averageRating := toFixed1 avgRating;
                    hd_totalFeedback := length allUserFeedback;
                    hd_lastFeedbackDate :=
                      toLocaleDateString (lastCreatedAt allUserFeedback);
                    hd_negativeFeedbackCount := negativeFeedbackCount;
                    hd_positiveFeedbackCount :=
                      countSentiment "positive" feedbackWithSentiment |};
               feedbackSamples := Some (map sampleOf (take 3 feedbackWithSentiment));
               feedbackHistory := None |})
    (fun _ => now ← newDate; mret (fallbackRecommendation now)).

End Engine.

(** * Vocabulary of the properties *)

(** [w'] differs from [w] at most by calls added to the log. *)
Definition readOnly (w w' : World) : Prop :=
  store w' = store w /\ clock w' = clock w /\ exists calls, hfCalls w' = hfCalls w ++ calls.


(** The guard of [analyzeSentiment]. *)
Definition isBlank (text : string) : bool :=
  String.eqb text EmptyString || (String.length (trim text) =? 0)%nat.

(** What [analyzeSentiment] returns, from the classifier's answer. *)
Definition adapted (answer : Res (list SentimentItem)) : SentimentItem :=
  match answer with
  | Ok (top :: _) => {| label := label top; score := score top |}
  | _ => neutralResult
  end.

Definition countOf (k : string) (labels : list string) : nat :=
  length (filter (fun l => l = k) labels).

Definition knownLabel (l : string) : Prop :=
  l = "positive" \/ l = "neutral" \/ l = "negative".

(** Linear arithmetic over [Q] after turning divisions by a literal into
    multiplications. *)
Ltac qlra :=
  unfold Qdiv in *;
  repeat match goal with
         | |- context [Qinv (?n # ?d)] =>
             let v := eval cbv in (Qinv (n # d)) in change (Qinv (n # d)) with v in *
         | H : context [Qinv (?n # ?d)] |- _ =>
             let v := eval cbv in (Qinv (n # d)) in change (Qinv (n # d)) with v in *
         end;
  lra.

(** [r] is a multiple of 1/100 at distance at most 1/200 from [x]. *)
Definition nearestHundredth (x r : Q) : Prop :=
  (exists n : Z, r == inject_Z n / 100)%Q /\ (- (1 # 200) <= r - x <= 1 # 200)%Q.


#[export] Instance knownLabel_dec (l : string) : Decision (knownLabel l) :=
  decide (l = "positive" \/ l = "neutral" \/ l = "negative").



(** The classifier keeps to its three labels whenever it answers. *)
Definition threeLabels (cls : list HfCall -> string -> Res (list SentimentItem)) : Prop :=
  forall log text top rest, cls log text = Ok (top :: rest) -> knownLabel (label top).

(** The feedback each route aggregates. *)
Definition dashboardScope (s : Store) : list Feedback :=
  flat_map feedback
    (filter (fun item => negb (length (feedback item) =? 0)%nat) (foodItems s)).

Definition customerScope (id : string) (s : Store) : list Feedback :=
  flat_map (fun item => filter (fun fb => authoredBy id fb) (feedback item))
    (filter (fun item => existsb (authoredBy id) (feedback item)) (foodItems s)).

Definition itemScope (id : string) (s : Store) : list Feedback :=
  match List.find (fun item => String.eqb (item_id item) id) (foodItems s) with
  | Some item => feedback item
  | None => []
  end.

(** How the result [r] for the comment of [fb] came about. *)
Definition classified (cls : list HfCall -> string -> Res (list SentimentItem))
    (fb : Feedback) (r : SentimentItem) : Prop :=
  r = neutralResult \/
  exists log top rest,
    cls log (comment fb) = Ok (top :: rest) /\ label r = label top /\ score r = score top.


Inductive AnalyticsRequest :=
| GlobalDashboard
| CustomerProfile (id : string)
| ItemAnalysis (id : string).

(** The router's dispatch on the three satisfaction routes. *)
Definition handleAnalytics cls isValid call (rq : AnalyticsRequest) : M Response :=
  match rq with
  | GlobalDashboard => satisfactionDashboard cls
  | CustomerProfile id => customerSatisfaction cls isValid id
  | ItemAnalysis id => foodItemSatisfaction cls isValid call id
  end.

(** The feedback in the scope of a request. *)
Definition scopeOf (rq : AnalyticsRequest) (s : Store) : list Feedback :=
  match rq with
  | GlobalDashboard => dashboardScope s
  | CustomerProfile id => customerScope id s
  | ItemAnalysis id => itemScope id s
  end.

(** The average each route hands to the scorer. *)
Definition averageFor (rq : AnalyticsRequest) (fbs : list Feedback) : Q :=
  match rq with
  | GlobalDashboard =>
      if (0 <? length fbs)%nat then averageOf (map rating fbs) else 0%Q
  | _ => averageOf (map rating fbs)
  end.

(** The customer's feedback history, in the order the synthesizer walks it:
    food items in store order, each item's feedback in array order. *)
Definition userHistory (userId : string) (s : Store) : list UserFeedback :=
  flat_map (userFeedbackOf userId)
    (filter (fun item => existsb (authoredBy userId) (feedback item)) (foodItems s)).

(** What step 1 of the synthesizer attaches to a comment, from the
    classifier's answer. *)
Definition sentimentOf (answer : Res (list SentimentItem)) : string * Q :=
  match answer with
  | Ok (top :: _) => (label top, score top)
  | _ => ("neutral", (1 # 2)%Q)
  end.

(** The history after step 1 of the synthesizer, when the log of calls is
    [log] at the start: every entry with the sentiment the classifier gave
    its comment, neutral with score 0.5 where the call failed. The
    classifier is asked in history order. *)
Fixpoint classifiedHistory (cls : list HfCall -> string -> Res (list SentimentItem))
    (log : list HfCall) (history : list UserFeedback) : list UserFeedback :=
  match history with
  | [] => []
  | fb :: rest =>
      let answer := sentimentOf (cls log (uf_comment fb)) in
      withSentiment fb (fst answer) (snd answer)
      :: classifiedHistory cls (log ++ [TextClassification (uf_comment fb)]) rest
  end.

(** The labels the classifier answers when it is asked about [comments] one
    after the other, the log of calls being [log] at the start: the label of
    the first result, and neutral where the call fails or answers
    nothing. *)
Fixpoint answeredLabels (cls : list HfCall -> string -> Res (list SentimentItem))
    (log : list HfCall) (comments : list string) : list string :=
  match comments with
  | [] => []
  | c :: cs =>
      match cls log c with
      | Ok (top :: _) => label top
      | _ => "neutral"
      end :: answeredLabels cls (log ++ [TextClassification c]) cs
  end.

(** [fb'] is [fb] with a sentiment attached. *)
Definition annotates (fb fb' : UserFeedback) : Prop :=
  exists l sc, fb' = withSentiment fb l sc.

(** The ratings of the documents whose key is [k], in document order. *)
Definition ratingsOf (key : Feedback -> Z) (k : Z) (docs : list Feedback) : list Z :=
  map rating (filter (fun fb => key fb = k) docs).

(** The ratings held by the first group with key [k]. *)
Fixpoint lookupGroup (k : Z) (groups : list (Z * list Z)) : option (list Z) :=
  match groups with
  | [] => None
  | (k', rs) :: g => if k =? k' then Some rs else lookupGroup k g
  end.

Definition idLe (a b : TrendBucket) : Prop := bucket_id a <= bucket_id b.
Definition idLt (a b : TrendBucket) : Prop := bucket_id a < bucket_id b.

(** The groups of the first aggregation before the limit, sorted. *)
Definition sortedGroups (period : string) (s : Store) : list TrendBucket :=
  sortBuckets (map groupStats
    (groupByKey (fun fb => evalDateOperator (getDateGrouping period) (createdAt fb))
       (unwindFeedback s))).

(** The window the route matches a bucket's sentiment sample against. *)
Definition sentimentWindow (period : string) (g : TrendBucket) (s : Store) : list Feedback :=
  filter (inWindow (bucket_id g) (getNextPeriodDate (bucket_id g) period))
    (unwindFeedback s).

(** The bucket [b] of the response comes from the group [g]: same key,
    average and count, and the sentiment counts of the classified sample. *)
Definition bucketOf cls (sample : nat -> list Feedback -> list Feedback)
    (period : string) (s : Store) (g b : TrendBucket) : Prop :=
  bucket_id b = bucket_id g /\
  bucket_averageRating b = bucket_averageRating g /\
  bucket_count b = bucket_count g /\
  exists rs,
    Forall2 (classified cls) (sample 10%nat (sentimentWindow period g s)) rs /\
    bucket_sentiment b = sentimentDistributionOf (map label rs).

(** The key the first aggregation groups a feedback record by. *)
Definition periodKey (period : string) (fb : Feedback) : Z :=
  evalDateOperator (getDateGrouping period) (createdAt fb).

(** The records of [docs] that fall into the group with key [k]. *)
Definition membersOf (period : string) (k : Z) (docs : list Feedback) : list Feedback :=
  filter (fun fb => periodKey period fb = k) docs.

(** What [$sample] guarantees: at most [n] documents, each one of the
    matched documents, none taken twice. *)
Definition sampler (sample : nat -> list Feedback -> list Feedback) : Prop :=
  forall n l, (length (sample n l) <= n)%nat /\ sample n l ⊆+ l.

(** The sample [fs] carries the item name, comment, rating and date of the
    history entry [fb]. *)
Definition carries (fmtDate : Z -> string) (fb : UserFeedback) (fs : FeedbackSample) : Prop :=
  fs_foodItem fs = uf_foodItem fb /\ fs_comment fs = uf_comment fb /\
  fs_rating fs = uf_rating fb /\ fs_date fs = fmtDate (uf_createdAt fb).

(** The last [n] entries of a list. *)
Definition lastN {A} (n : nat) (l : list A) : list A := drop (length l - n) l.

(** * Sample data *)

(** A classifier that knows two comments and fails on every other text. *)
Definition demoClassifier : list HfCall -> string -> Res (list SentimentItem) :=
  fun _ text =>
    if String.eqb text "great" then Ok [{| label := "positive"; score := (9 # 10)%Q |}]
    else if String.eqb text "bad" then Ok [{| label := "negative"; score := (8 # 10)%Q |}]
    else Throw HfError.


(** [ObjectId] as a class: calling it without [new] throws. *)
Definition classCall : string -> Res string := fun _ => Throw TypeError.

(** [ObjectId] as a function that may be called without [new]. *)
Definition plainCall : string -> Res string := fun id => Ok id.

Definition isHexDigit (c : ascii) : bool :=
  let n := nat_of_ascii c in
  ((48 <=? n) && (n <=? 57) || (97 <=? n) && (n <=? 102) || (65 <=? n) && (n <=? 70))%nat.

(** Identifiers of 24 hexadecimal digits. *)
Definition demoIsValid (id : string) : bool :=
  (String.length id =? 24)%nat && forallb isHexDigit (list_ascii_of_string id).

Definition aliceId : string := "64b0000000000000000000a1".
Definition alice : User := {| user_id := aliceId; firstName := "Alice"; lastName := "Abebe" |}.

Definition feedbackBy (author : option User) (id : string) (r : Z) (c : string) (t : Z)
  : Feedback :=
  {| fb_id := id; fb_userId := author; rating := r; comment := c; createdAt := t;
     reply := None; repliedAt := None; resolved := false |}.

Definition pastaId : string := "64b0000000000000000000f1".

(** Ratings 5, 5, 5, 5, 1 by one customer on one item. *)
Definition pasta : FoodItem :=
  {| item_id := pastaId; item_name := "Pasta";
     feedback :=
       [ feedbackBy (Some alice) "f1" 5 "great" (utc 2024 3 1 12);
         feedbackBy (Some alice) "f2" 5 "great" (utc 2024 3 2 12);
         feedbackBy (Some alice) "f3" 5 "great" (utc 2024 3 3 12);
         feedbackBy (Some alice) "f4" 5 "great" (utc 2024 3 4 12);
         feedbackBy (Some alice) "f5" 1 "bad" (utc 2024 3 5 12) ] |}.

Definition demoOrder : Order :=
  {| order_id := "64b0000000000000000000c1"; order_user := Some aliceId;
     order_items := [ {| oi_foodItemId := Some pastaId; oi_quantity := 2;
                         oi_foodItemName := Some "Pasta"; oi_name := None |} ];
     order_status := "pending"; order_createdAt := utc 2024 3 6 18;
     order_updatedAt := utc 2024 3 6 18; totalAmount := 30 |}.

Definition demoStore : Store :=
  {| reachable := true; foodItems := [pasta]; orders := [demoOrder]; users := [alice] |}.

(** One feedback record whose comment is white space. *)
Definition blankStore : Store :=
  {| reachable := true;
     foodItems := [ {| item_id := pastaId; item_name := "Pasta";
                       feedback := [ feedbackBy (Some alice) "b1" 4 "   " (utc 2024 3 1 12) ] |} ];
     orders := []; users := [alice] |}.


Definition unreachableStore : Store :=
  {| reachable := false; foodItems := [pasta]; orders := [demoOrder]; users := [alice] |}.

(** A world at 2024-06-01 in which no model has been called yet. *)
Definition worldOf (s : Store) : World :=
  {| store := s; clock := utc 2024 6 1 0; hfCalls := [] |}.

(** Models for the summarizer and the generator, and placeholder
    formatting, to run the synthesizer on sample data. *)
Definition failingModel : list HfCall -> string -> Res string := fun _ _ => Throw HfError.
Definition demoGenerator : list HfCall -> string -> Res string :=
  fun _ _ => Ok "  Season lightly and plate warm.  ".
Definition demoDate (t : Z) : string := "date".
Definition demoNumber (n : Z) : string := "n".
Definition demoPercent (q : Q) : string := "p".

(** One feedback record a year, 1994 to 2024, on one item. *)
Definition yearlyFeedback : list Feedback :=
  map (fun y => feedbackBy None "y" 4 "fine" (utc y 6 15 12)) (seqZ 1994 31).

Definition yearlyStore : Store :=
  {| reachable := true;
     foodItems := [ {| item_id := pastaId; item_name := "Pasta";
                       feedback := yearlyFeedback |} ];
     orders := []; users := [] |}.

(** Two records in the same month of different years. *)
Definition januaryStore : Store :=
  {| reachable := true;
     foodItems := [ {| item_id := pastaId; item_name := "Pasta";
                       feedback := [ feedbackBy None "j1" 5 "great" (utc 2023 1 10 12);
                                     feedbackBy None "j2" 1 "bad" (utc 2024 1 20 12) ] |} ];
     orders := []; users := [] |}.

(** * Vocabulary of the further properties *)

(** The classifier calls [analyzeSentiment] issues for a list of feedback
    records: one per comment that is not blank, in list order. *)
Definition classifierInputs (fbs : list Feedback) : list HfCall :=
  map TextClassification (filter (fun c => isBlank c = false) (map comment fbs)).

(** The digest the synthesizer sends to the summarizer. *)
Definition digestOf (fmtDate fmtNum : Z -> string) (fmtPct : Q -> string)
    (fws : list UserFeedback) : string :=
  join nl (map (digestLine fmtDate fmtNum fmtPct) fws).

(** The summary the synthesizer goes on with, from the summarizer's answer. *)
Definition summaryOf (answer : Res string) : string :=
  match answer with
  | Ok s => s
  | Throw _ => fallbackSummary
  end.

(** The recommendation text, from the generator's answer. *)
Definition textOf (answer : Res string) : string :=
  match answer with
  | Ok s => trim s
  | Throw _ => fallbackText
  end.

(** [r] is a multiple of 1/10 at distance at most 1/20 from [x]. *)
Definition nearestTenth (x r : Q) : Prop :=
  (exists n : Z, r == inject_Z n / 10)%Q /\ (- (1 # 20) <= r - x <= 1 # 20)%Q.

(** The request gets past the guards of its route and has its scope
    classified: the identifier is well formed, the store answers, and the
    scope is not empty (the dashboard classifies an empty scope too). *)
Definition classifies (isValid : string -> bool) (rq : AnalyticsRequest) (s : Store)
  : bool :=
  match rq with
  | GlobalDashboard => reachable s
  | CustomerProfile id | ItemAnalysis id =>
      isValid id && reachable s && negb (length (scopeOf rq s) =? 0)%nat
  end.

(** The request is answered with metrics: its scope is classified and, on
    the food item route, the call of [ObjectId] returns and finds no recent
    order. *)
Definition scores (isValid : string -> bool) (call : string -> Res string)
    (rq : AnalyticsRequest) (s : Store) : bool :=
  classifies isValid rq s &&
  match rq with
  | ItemAnalysis id =>
      match call id with
      | Ok objectId => (length (recentOrdersOf objectId s) =? 0)%nat
      | Throw _ => false
      end
  | _ => true
  end.

(** The status a satisfaction route answers with. *)
Definition answerStatus (isValid : string -> bool) (call : string -> Res string)
    (rq : AnalyticsRequest) (s : Store) : Z :=
  match rq with
  | GlobalDashboard => if reachable s then 200 else 500
  | CustomerProfile id =>
      if negb (isValid id) then 400 else if reachable s then 200 else 500
  | ItemAnalysis id =>
      if negb (isValid id) then 400
      else if negb (reachable s) then 500
      else
        match List.find (fun item => String.eqb (item_id item) id) (foodItems s) with
        | None => 404
        | Some item =>
            if (length (feedback item) =? 0)%nat then 200
            else if scores isValid call rq s then 200 else 500
        end
  end.

(** [f] holds on the [n] integers from [a] on. *)
Fixpoint allFrom (f : Z -> bool) (a : Z) (n : nat) : bool :=
  match n with
  | O => true
  | S n' => if f a then allFrom f (a + 1) n' else false
  end.

(** The fields [civil_from_days] derives from the day of an era, and the
    ranges they stay in. *)
Definition civilFieldsInRange (doe : Z) : bool :=
  let yoe := (doe - doe / 1460 + doe / 36524 - doe / 146096) / 365 in
  let doy := doe - (365 * yoe + yoe / 4 - yoe / 100) in
  let mp := (5 * doy + 2) / 153 in
  let d := doy - (153 * mp + 2) / 5 + 1 in
  (0 <=? yoe) && (yoe <=? 399) && (0 <=? mp) && (mp <=? 11) && (1 <=? d) && (d <=? 31).

(** The day number of the first of the month after [y]-[m]. *)
Definition firstOfNextMonth (y m : Z) : Z :=
  if m =? 12 then days_from_civil (y + 1) 1 1 else days_from_civil y (m + 1) 1.

(** Month lengths, year lengths and the offset of a month in its year, for
    the year [y] and the month [m]. *)
Definition monthFactsHold (y m : Z) : bool :=
  let first := days_from_civil y m 1 in
  let len := firstOfNextMonth y m - first in
  let yearLen := days_from_civil (y + 1) m 1 - first in
  let offset := first - days_from_civil y 1 1 in
  (28 <=? len) && (len <=? 31) && (365 <=? yearLen) && (yearLen <=? 366)
  && (0 <=? offset) && (offset <=? 335).

(** A group as the trend route returns it when its sentiment sample is
    empty. *)
Definition withoutSentiment (g : TrendBucket) : TrendBucket :=
  {| bucket_id := bucket_id g; bucket_averageRating := bucket_averageRating g;
     bucket_count := bucket_count g; bucket_sentiment := emptyDistribution |}.

(** The number of records the buckets account for. *)
Definition totalCount (l : list TrendBucket) : nat :=
  sum_list (map bucket_count l).

(** * The reply route *)

(** [feedback.reply = reply; feedback.repliedAt = new Date()] *)
Definition withReply (r : option string) (now : Z) (fb : Feedback) : Feedback :=
  {| fb_id := fb_id fb; fb_userId := fb_userId fb; rating := rating fb;
     comment := comment fb; createdAt := createdAt fb; reply := r;
     repliedAt := Some now; resolved := resolved fb |}.

(** The feedback array with its first entry of id [feedbackId] changed by
    [f]: the subdocument that [feedback.id(feedbackId)] returns is the one
    the assignment changes. *)
Fixpoint updateFeedback (feedbackId : string) (f : Feedback -> Feedback)
    (l : list Feedback) : list Feedback :=
  match l with
  | [] => []
  | fb :: l' =>
      if String.eqb (fb_id fb) feedbackId then f fb :: l'
      else fb :: updateFeedback feedbackId f l'
  end.

(** The collection after [doc.save()]: the first document with the id of
    [doc] is replaced by it. *)
Fixpoint replaceItem (doc : FoodItem) (l : list FoodItem) : list FoodItem :=
  match l with
  | [] => []
  | item :: l' =>
      if String.eqb (item_id item) (item_id doc) then doc :: l'
      else item :: replaceItem doc l'
  end.

(** [await foodItem.save()] *)
Definition FoodItem_save (doc : FoodItem) : M unit := fun w =>
  let s := store w in
  if reachable s then
    (Ok tt, {| store := {| reachable := true; foodItems := replaceItem doc (foodItems s);
                           orders := orders s; users := users s |};
               clock := clock w; hfCalls := hfCalls w |})
  else (Throw StoreError, w).

(** The [feedback] object of the success response. *)
Record RepliedFeedback := {
  rf_id : string;
  rf_comment : string;
  rf_rating : Z;
  rf_reply : option string;
  rf_repliedAt : Z }.

Inductive ReplyBody :=
| ReplyFailure (message : string)
| ReplyAdded (message : string) (feedback : RepliedFeedback).

Record ReplyResponse := {
  reply_status : Z;
  reply_body : ReplyBody }.

Section ReplyRoute.

(** [mongoose.Types.ObjectId.isValid] *)
Variable ObjectId_isValid : string -> bool.

(** [POST /food-items/:foodItemId/feedback/:feedbackId/reply]; [reply] is
    absent when the body does not give it. *)
Definition addFeedbackReply (foodItemId feedbackId : string) (reply : option string)
  : M ReplyResponse :=
  try_catch
    (if negb (ObjectId_isValid foodItemId) || negb (ObjectId_isValid feedbackId)
     then mret {| reply_status := 400;
                  reply_body := ReplyFailure "Invalid food item or feedback ID" |}
     else
       found ← storeQuery (fun s =>
         List.find (fun item => String.eqb (item_id item) foodItemId) (foodItems s));
       match found with
       | None => mret {| reply_status := 404;
                         reply_body := ReplyFailure "Food item not found" |}
       | Some foodItem =>
           match List.find (fun fb => String.eqb (fb_id fb) feedbackId)
                   (feedback foodItem) with
           | None => mret {| reply_status := 404;
                             reply_body := ReplyFailure "Feedback not found" |}
           | Some feedback' =>
               repliedAt ← newDate;
               _ ← FoodItem_save
                     {| item_id := item_id foodItem; item_name := item_name foodItem;
                        feedback := updateFeedback feedbackId (withReply reply repliedAt)
                                      (feedback foodItem) |};
               mret {| reply_status := 200;
                       reply_body := ReplyAdded "Reply added successfully"
                         {| rf_id := fb_id feedback'; rf_comment := comment feedback';
                            rf_rating := rating feedback'; rf_reply := reply;
                            rf_repliedAt := repliedAt |} |}
           end
       end)
    (fun _ => mret {| reply_status := 500;
                      reply_body := ReplyFailure "Failed to add reply to feedback" |}).

End ReplyRoute.

(** The store after a reply to the feedback [feedbackId] of the item
    [foodItemId] went through at the time [now]. *)
Definition repliedStore (foodItemId feedbackId : string) (r : option string) (now : Z)
    (s : Store) : Store :=
  match List.find (fun item => String.eqb (item_id item) foodItemId) (foodItems s) with
  | Some foodItem =>
      {| reachable := reachable s;
         foodItems := replaceItem
           {| item_id := item_id foodItem; item_name := item_name foodItem;
              feedback := updateFeedback feedbackId (withReply r now) (feedback foodItem) |}
           (foodItems s);
         orders := orders s; users := users s |}
  | None => s
  end.

(** What the analytics read of a feedback record. *)
Definition analyticsView (fb : Feedback) : option User * Z * string * Z :=
  (fb_userId fb, rating fb, comment fb, createdAt fb).

(** A store for the reply route: feedback ids of 24 hexadecimal digits. *)
Definition replyTargetId : string := "64b0000000000000000000e2".

Definition replyStore : Store :=
  {| reachable := true;
     foodItems :=
       [ {| item_id := pastaId; item_name := "Pasta";
            feedback :=
              [ feedbackBy (Some alice) "64b0000000000000000000e1" 5 "great" (utc 2024 3 1 12);
                feedbackBy None replyTargetId 1 "bad" (utc 2024 3 2 12) ] |} ];
     orders := [demoOrder]; users := [alice] |}.

(** Two feedback lists the analytics cannot tell apart. *)
Definition sameViews (l l' : list Feedback) : Prop :=
  map analyticsView l = map analyticsView l'.

(** Two food items with the same id whose feedback the analytics cannot
    tell apart. *)
Definition sameItem (a b : FoodItem) : Prop :=
  item_id a = item_id b /\ sameViews (feedback a) (feedback b).

(** Two stores the analytics cannot tell apart. *)
Definition sameForAnalytics (s s' : Store) : Prop :=
  reachable s' = reachable s /\ users s' = users s /\ orders s' = orders s /\
  Forall2 sameItem (foodItems s) (foodItems s').

(** The results [Promise.all] collects from [analyzeSentiment] for a list
    of comments, when the log of calls is [log] at the start. *)
Fixpoint sentimentsOf (cls : list HfCall -> string -> Res (list SentimentItem))
    (log : list HfCall) (comments : list string) : list SentimentItem :=
  match comments with
  | [] => []
  | c :: cs =>
      if isBlank c then neutralResult :: sentimentsOf cls log cs
      else adapted (cls log c) :: sentimentsOf cls (log ++ [TextClassification c]) cs
  end.

(** The world after the calls [calls] were issued. *)
Definition addCalls (calls : list HfCall) (w : World) : World :=
  {| store := store w; clock := clock w; hfCalls := hfCalls w ++ calls |}.

(** The status and the metrics block of a route's answer. *)
Definition statusAndMetrics (r : Res Response) : option (Z * option Metrics) :=
  match r with
  | Ok resp => Some (status resp, metricsOf resp)
  | Throw _ => None
  end.

(** The world [w] when the clock reads [t]. *)
Definition atTime (t : Z) (w : World) : World :=
  {| store := store w; clock := t; hfCalls := hfCalls w |}.

(** * The chef route *)

(** [String.prototype.toUpperCase] on the letters a to z. The route applies
    it to an id in hexadecimal and to a status that passed the filter. *)
Definition upperChar (c : ascii) : ascii :=
  let n := nat_of_ascii c in
  if ((97 <=? n) && (n <=? 122))%nat then ascii_of_nat (n - 32) else c.

Fixpoint toUpperCase (s : string) : string :=
  match s with
  | EmptyString => EmptyString
  | String c s' => String (upperChar c) (toUpperCase s')
  end.

Definition statusFilter : list string := ["pending"; "preparing"].

(** [{ status: { $in: statusFilter } }] *)
Definition inStatusFilter (o : Order) : bool :=
  existsb (String.eqb (order_status o)) statusFilter.

(** [.sort({ createdAt: 1 })] *)
Fixpoint insertOrder (o : Order) (l : list Order) : list Order :=
  match l with
  | [] => [o]
  | p :: l' =>
      if order_createdAt o <=? order_createdAt p then o :: p :: l'
      else p :: insertOrder o l'
  end.

Definition sortByCreatedAt (l : list Order) : list Order :=
  fold_right insertOrder [] l.

(** [.populate({ path: "user", ... })]: the user document of the order,
    absent when the order has no user or the user no longer exists. *)
Definition populateUser (s : Store) (o : Order) : option User :=
  match order_user o with
  | Some id => List.find (fun u => String.eqb (user_id u) id) (users s)
  | None => None
  end.

(** An entry of [formattedItems]. Its [price], [preparationTime] and
    [specialInstructions] copy fields that [OrderedItem] does not carry. *)
Record FormattedItem := {
  fi_name : option string;
  fi_quantity : Z }.

(** An order as the chef route returns it: the order document ([co_order],
    with its user populated in [co_user]) and the fields the route adds.
    [co_status] is the [status] that overrides the document's. *)
Record ChefOrder := {
  co_order : Order;
  co_user : option User;
  orderNumber : string;
  orderTime : string;
  co_status : string;
  formattedItems : list FormattedItem;
  customerName : string;
  analysis : option Recommendation }.

Inductive ChefBody :=
| ChefFailure (message : string)
| ChefOrders (orders : list ChefOrder).

Record ChefResponse := {
  chef_status : Z;
  chef_body : ChefBody }.

(** The analysis of an order without a user. *)
Definition guestAnalysis : Recommendation :=
  {| recommendation := "Guest user - no feedback history available";
     priority := "normal"; sentiment := "neutral"; analyzedAt := None;
     historicalData := None; feedbackSamples := None; feedbackHistory := None |}.

(** [{ ...order, analysis }] *)
Definition withAnalysis (a : option Recommendation) (order : ChefOrder) : ChefOrder :=
  {| co_order := co_order order; co_user := co_user order;
     orderNumber := orderNumber order; orderTime := orderTime order;
     co_status := co_status order; formattedItems := formattedItems order;
     customerName := customerName order; analysis := a |}.

(** [Math.floor((now - orderTime) / (1000 * 60))] *)
Definition diffMinutesOf (now created : Z) : Z := (now - created) / (1000 * 60).

(** [Math.floor(diffMinutes/60)] and [diffMinutes%60]; the remainder has
    the sign of [diffMinutes]. *)
Definition shownHours (diffMinutes : Z) : Z := diffMinutes / 60.
Definition shownMinutes (diffMinutes : Z) : Z := Z.rem diffMinutes 60.

Section ChefRoute.

Variable hf_textClassification : list HfCall -> string -> Res (list SentimentItem).
Variable hf_summarization : list HfCall -> string -> Res string.
Variable hf_textGeneration : list HfCall -> string -> Res string.
Variable toLocaleDateString : Z -> string.
Variable showNumber : Z -> string.
Variable showPercent : Q -> string.

Definition orderTimeOf (now created : Z) : string :=
  let diffMinutes := diffMinutesOf now created in
  showNumber (shownHours diffMinutes) +:+ "h " +:+ showNumber (shownMinutes diffMinutes)
  +:+ "m ago".

(** The body of [orders.map(order => ...)], for the clock reading [now]. *)
Definition formatted (now : Z) (populated : Order * option User) : ChefOrder :=
  let order := fst populated in
  {| co_order := order;
     co_user := snd populated;
     orderNumber := "#" +:+ toUpperCase (String.substring 18 6 (order_id order));
     orderTime := orderTimeOf now (order_createdAt order);
     co_status := toUpperCase (order_status order);
     formattedItems :=
       map (fun item => {| fi_name := orElse (oi_foodItemName item) (oi_name item);
                           fi_quantity := oi_quantity item |}) (order_items order);
     customerName :=
       match snd populated with
       | Some user => firstName user +:+ " " +:+ lastName user
       | None => "Guest"
       end;
     analysis := None |}.

Definition formatOrder (populated : Order * option User) : M ChefOrder :=
  now ← newDate;
  mret (formatted now populated).

(** The body of the analysis pass for one order. *)
Definition analyseOrder (order : ChefOrder) : M ChefOrder :=
  match co_user order with
  | None => mret (withAnalysis (Some guestAnalysis) order)
  | Some user =>
      a ← generateChefRecommendation hf_textClassification hf_summarization
            hf_textGeneration toLocaleDateString showNumber showPercent
            (user_id user) (order_items (co_order order));
      mret (withAnalysis (Some a) order)
  end.

(** [GET /chef?analyze=...]; [analyze] is absent when the query does not
    give it. The bodies of the analysis pass interleave at their awaits;
    they share nothing but the log of calls, and run one after the other
    here. The [error] and [stack] texts of the failure body are left out. *)
Definition chefOrders (analyze : option string) : M ChefResponse :=
  try_catch
    (orders ← storeQuery (fun s =>
       map (fun o => (o, populateUser s o))
         (sortByCreatedAt (filter (fun o => inStatusFilter o) (orders s))));
     orders ← promiseAll formatOrder orders;
     orders ← (if bool_decide (analyze = Some "true")
               then promiseAll analyseOrder orders
               else mret orders);
     mret {| chef_status := 200; chef_body := ChefOrders orders |})
    (fun _ => mret {| chef_status := 500;
                      chef_body := ChefFailure "Failed to process orders" |}).

End ChefRoute.

(** The orders the chef route lists, as the store has them. *)
Definition openOrders (s : Store) : list Order :=
  filter (fun o => inStatusFilter o) (orders s).

(** The listing the route builds before the analysis pass. *)
Definition listing (showNumber : Z -> string) (w : World) : list ChefOrder :=
  map (formatted showNumber (clock w))
    (map (fun o => (o, populateUser (store w) o)) (sortByCreatedAt (openOrders (store w)))).


(** A guest order, a second customer and a served order, to run the chef
    route on. *)
Definition guestOrder : Order :=
  {| order_id := "64b0000000000000000000c2"; order_user := None;
     order_items := [ {| oi_foodItemId := None; oi_quantity := 1;
                         oi_foodItemName := None; oi_name := Some "Soup" |} ];
     order_status := "preparing"; order_createdAt := utc 2024 3 6 17;
     order_updatedAt := utc 2024 3 6 17; totalAmount := 12 |}.

Definition servedOrder : Order :=
  {| order_id := "64b0000000000000000000c3"; order_user := Some aliceId;
     order_items := []; order_status := "completed";
     order_createdAt := utc 2024 3 6 16; order_updatedAt := utc 2024 3 6 19;
     totalAmount := 20 |}.

Definition kitchenStore : Store :=
  {| reachable := true; foodItems := [pasta];
     orders := [demoOrder; guestOrder; servedOrder]; users := [alice] |}.

Definition guestStore : Store :=
  {| reachable := true; foodItems := [pasta]; orders := [guestOrder]; users := [alice] |}.

(** * Reported issues *)

(** Letter case in a regular expression with the [i] flag, on the letters
    A to Z. *)
Definition lowerChar (c : ascii) : ascii :=
  let n := nat_of_ascii c in
  if ((65 <=? n) && (n <=? 90))%nat then ascii_of_nat (n + 32) else c.

Fixpoint toLowerCase (s : string) : string :=
  match s with
  | EmptyString => EmptyString
  | String c s' => String (lowerChar c) (toLowerCase s')
  end.

Definition issueWords : list string :=
  ["bad"; "poor"; "terrible"; "horrible"; "awful"; "disappointing"; "issue"; "problem"].

(** [word] occurs somewhere in [s]. *)
Fixpoint occursIn (word s : string) : bool :=
  String.prefix word s ||
  match s with
  | EmptyString => false
  | String _ s' => occursIn word s'
  end.

(** [{ $regex: /(bad|poor|terrible|horrible|awful|disappointing|issue|problem)/i }] *)
Definition mentionsIssue (text : string) : bool :=
  existsb (fun word => occursIn word (toLowerCase text)) issueWords.

(** The [$match] stage of [countReportedIssues]. *)
Definition reportsIssue (fb : Feedback) : bool :=
  (rating fb <? 3) || mentionsIssue (comment fb).

Record IssueCounts := {
  issue_count : nat;
  issue_unresolved : nat }.

(** The [$group] stage: no group when nothing matched. *)
Definition groupIssues (matched : list Feedback) : list IssueCounts :=
  match matched with
  | [] => []
  | _ =>
      [ {| issue_count := length matched;
           issue_unresolved := length (filter (fun fb => negb (resolved fb)) matched) |} ]
  end.

(** [countReportedIssues()] *)
Definition countReportedIssues : M IssueCounts :=
  results ← storeQuery (fun s =>
    groupIssues (filter (fun fb => reportsIssue fb) (unwindFeedback s)));
  mret (default {| issue_count := 0; issue_unresolved := 0 |} (head results)).

(** [word] occurs in [text], letter case of [text] apart. *)
Definition occursIgnoringCase (word text : string) : Prop :=
  exists before after, toLowerCase text = before +:+ word +:+ after.

(** * Properties *)

(** ** The effect monad *)

Lemma readOnly_refl w : readOnly w w.
Proof. repeat split. exists []. by rewrite app_nil_r. Qed.

Lemma readOnly_trans w1 w2 w3 : readOnly w1 w2 -> readOnly w2 w3 -> readOnly w1 w3.
Proof.
  intros (Hs1 & Hc1 & l1 & Hl1) (Hs2 & Hc2 & l2 & Hl2).
  repeat split; [congruence | congruence |].
  exists (l1 ++ l2). by rewrite Hl2, Hl1, app_assoc.
Qed.

Lemma readOnly_logCall c w : readOnly w (logCall c w).
Proof. repeat split. by exists [c]. Qed.

#[local] Hint Resolve readOnly_refl readOnly_logCall : core.

(** A body that always returns makes [Promise.all] return, one result per
    element, in order. *)
Lemma promiseAll_ok {A B} (f : A -> M B) (P : A -> B -> Prop) :
  (forall x w, exists y w', f x w = (Ok y, w') /\ P x y /\ readOnly w w') ->
  forall l w, exists ys w',
    promiseAll f l w = (Ok ys, w') /\ Forall2 P l ys /\ readOnly w w'.
Proof.
  intros Hf l. induction l as [|x l IH]; intros w.
  - exists [], w. split; [reflexivity | split; [constructor | apply readOnly_refl]].
  - destruct (Hf x w) as (y & w1 & Hy & HP & Hro1).
    destruct (IH w1) as (ys & w2 & Hys & HF & Hro2).
    exists (y :: ys), w2. split; [|split].
    + cbn. unfold mbind, M_bind. rewrite Hy. cbn. by rewrite Hys.
    + by constructor.
    + by eapply readOnly_trans.
Qed.

Lemma storeQuery_ok {A} (q : Store -> A) w :
  reachable (store w) = true -> storeQuery q w = (Ok (q (store w)), w).
Proof. intros H. unfold storeQuery. by rewrite H. Qed.

Lemma storeQuery_fail {A} (q : Store -> A) w :
  reachable (store w) = false -> storeQuery q w = (Throw StoreError, w).
Proof. intros H. unfold storeQuery. by rewrite H. Qed.

Lemma bind_ok {A B} (m : M A) (f : A -> M B) w a w' :
  m w = (Ok a, w') -> (m ≫= f) w = f a w'.
Proof. intros H. unfold mbind, M_bind. by rewrite H. Qed.

Lemma bind_throw {A B} (m : M A) (f : A -> M B) w e w' :
  m w = (Throw e, w') -> (m ≫= f) w = (Throw e, w').
Proof. intros H. unfold mbind, M_bind. by rewrite H. Qed.

Lemma try_ok {A} (m : M A) h w a w' :
  m w = (Ok a, w') -> try_catch m h w = (Ok a, w').
Proof. intros H. unfold try_catch. by rewrite H. Qed.

Lemma try_throw {A} (m : M A) h w e w' :
  m w = (Throw e, w') -> try_catch m h w = h e w'.
Proof. intros H. unfold try_catch. by rewrite H. Qed.

(** ** White space and [trim] *)






Section AdapterProperties.

Variable cls : list HfCall -> string -> Res (list SentimentItem).

Lemma analyzeSentiment_blank text w :
  isBlank text = true -> analyzeSentiment cls text w = (Ok neutralResult, w).
Proof. intros H. unfold analyzeSentiment. fold (isBlank text). by rewrite H. Qed.

Lemma analyzeSentiment_call text w :
  isBlank text = false ->
  analyzeSentiment cls text w =
    (Ok (adapted (cls (hfCalls w) text)),
     logCall (TextClassification text) w).
Proof.
  intros H. unfold analyzeSentiment. fold (isBlank text). rewrite H.
  unfold try_catch, mbind, M_bind, textClassification.
  destruct (cls (hfCalls w) text) as [[|top rest]|e]; reflexivity.
Qed.

(** [analyzeSentiment] always returns, and touches nothing but the log. *)
Lemma analyzeSentiment_total text w :
  exists r w', analyzeSentiment cls text w = (Ok r, w') /\
    (r = neutralResult \/
     exists top rest, cls (hfCalls w) text = Ok (top :: rest)
                      /\ label r = label top /\ score r = score top) /\
    readOnly w w'.
Proof.
  destruct (isBlank text) eqn:Hb.
  - exists neutralResult, w. rewrite analyzeSentiment_blank by done. auto.
  - eexists _, _. rewrite analyzeSentiment_call by done. split; [done|]. split; [|auto].
    destruct (cls (hfCalls w) text) as [[|top rest]|e]; cbn; eauto 7.
Qed.

End AdapterProperties.

(** ** The sentiment distribution *)

Lemma countOf_cons k l labels :
  countOf k (l :: labels) = ((if decide (l = k) then 1 else 0) + countOf k labels)%nat.
Proof. unfold countOf. rewrite filter_cons. by destruct (decide (l = k)). Qed.

Lemma countLabel_lookup (acc : gmap string nat) l k :
  or0 (countLabel acc l !! k) = ((if decide (l = k) then 1 else 0) + or0 (acc !! k))%nat.
Proof.
  unfold countLabel. destruct (decide (l = k)) as [->|Hne].
  - rewrite lookup_insert_eq. cbn. lia.
  - by rewrite lookup_insert_ne.
Qed.

Lemma fold_countLabel_lookup labels (acc : gmap string nat) k :
  or0 (fold_left countLabel labels acc !! k) = (or0 (acc !! k) + countOf k labels)%nat.
Proof.
  revert acc. induction labels as [|l labels IH]; intros acc; cbn [fold_left].
  - unfold countOf. cbn. lia.
  - rewrite IH, countLabel_lookup, countOf_cons. lia.
Qed.

(** Every entry of the distribution is the number of results with that
    label; a label that never occurs reads as 0. *)
Lemma distribution_counts labels k :
  or0 (sentimentDistributionOf labels !! k) = countOf k labels.
Proof.
  unfold sentimentDistributionOf. rewrite fold_countLabel_lookup.
  assert (or0 (emptyDistribution !! k) = 0%nat) as ->; [|done].
  unfold emptyDistribution.
  repeat (rewrite lookup_insert; case_decide; [done|]).
  by rewrite lookup_empty.
Qed.



(** The three counts never exceed the number of results, whatever the
    labels are. *)
Lemma counts_le_total labels :
  (countOf "positive" labels + countOf "neutral" labels + countOf "negative" labels
   <= length labels)%nat.
Proof.
  induction labels as [|l labels IH]; [done|].
  rewrite !countOf_cons. cbn [length].
  repeat case_decide; subst; try congruence; lia.
Qed.

(** ** Rounding and the scorer *)

Lemma toFixed2_nonneg_nearest x : nearestHundredth x (toFixed2_nonneg x).
Proof.
  unfold toFixed2_nonneg. split; [by eexists|].
  pose proof (Qfloor_le (x * 100 + (1 # 2))) as Hl.
  pose proof (Qlt_floor (x * 100 + (1 # 2))) as Hu.
  rewrite inject_Z_plus in Hu. change (inject_Z 1) with 1%Q in Hu.
  set (n := inject_Z (Qfloor (x * 100 + (1 # 2)))) in *. clearbody n.
  split; qlra.
Qed.

Lemma toFixed2_nearest x : nearestHundredth x (toFixed2 x).
Proof.
  unfold toFixed2. destruct (Qle_bool 0 x); [apply toFixed2_nonneg_nearest|].
  destruct (toFixed2_nonneg_nearest (- x)) as [[n Hn] Hd]. split.
  - exists (- n)%Z. rewrite Hn, inject_Z_opp. field.
  - split; qlra.
Qed.


Lemma nat_to_Q_le a b : (a <= b)%nat -> (nat_to_Q a <= nat_to_Q b)%Q.
Proof. intros H. unfold nat_to_Q. rewrite <- Zle_Qle. lia. Qed.





(** ** Averages *)





(** ** The satisfaction routes *)

Section RouteProperties.

Variable cls : list HfCall -> string -> Res (list SentimentItem).
Variable isValid : string -> bool.
Variable call : string -> Res string.

Lemma classifyAll fbs w :
  exists rs w',
    promiseAll (fun fb => analyzeSentiment cls (comment fb)) fbs w = (Ok rs, w')
    /\ Forall2 (classified cls) fbs rs /\ readOnly w w'.
Proof.
  apply promiseAll_ok. intros fb w0.
  destruct (analyzeSentiment_total cls (comment fb) w0)
    as (r & w1 & Hr & [-> | (top & rest & Hc & Hl & Hs)] & Hro);
    exists r, w1 || exists neutralResult, w1; (split; [done|]); (split; [|done]).
  - by left.
  - right. eauto 6.
Qed.


Lemma readOnly_reachable w w' :
  readOnly w w' -> reachable (store w) = true -> reachable (store w') = true.
Proof. intros (Hs & _) H. by rewrite Hs. Qed.

Lemma readOnly_query {A} (q : Store -> A) w w' :
  readOnly w w' -> reachable (store w) = true -> storeQuery q w' = (Ok (q (store w)), w').
Proof.
  intros Hro H. rewrite storeQuery_ok by by eapply readOnly_reachable.
  by destruct Hro as (-> & _).
Qed.

Lemma addCalls_nil w : addCalls [] w = w.
Proof. destruct w. unfold addCalls. cbn. by rewrite app_nil_r. Qed.

Lemma addCalls_logCall c calls w :
  addCalls calls (logCall c w) = addCalls (c :: calls) w.
Proof. unfold addCalls, logCall. cbn. by rewrite <- app_assoc. Qed.

Lemma addCalls_readOnly calls w : readOnly w (addCalls calls w).
Proof. repeat split. by exists calls. Qed.

(** [Promise.all] over [analyzeSentiment], in closed form. *)
Lemma classifyAll_exact fbs w :
  promiseAll (fun fb => analyzeSentiment cls (comment fb)) fbs w
  = (Ok (sentimentsOf cls (hfCalls w) (map comment fbs)),
     addCalls (classifierInputs fbs) w).
Proof.
  revert w. induction fbs as [|fb fbs IH]; intros w.
  - cbn. by rewrite addCalls_nil.
  - unfold classifierInputs. cbn [map sentimentsOf promiseAll]. rewrite filter_cons.
    destruct (isBlank (comment fb)) eqn:Hb.
    + erewrite bind_ok by by apply analyzeSentiment_blank.
      by erewrite bind_ok by apply IH.
    + erewrite bind_ok by by apply analyzeSentiment_call.
      erewrite bind_ok by apply IH.
      rewrite decide_True by done. cbn [map]. by rewrite addCalls_logCall.
Qed.



(** *** The customer profile *)

Lemma customerSatisfaction_invalid id w :
  isValid id = false ->
  customerSatisfaction cls isValid id w
  = (Ok {| status := 400; body := Failure "Invalid customer ID" |}, w).
Proof. intros H. unfold customerSatisfaction. by rewrite H. Qed.

Lemma customerSatisfaction_unreachable id w :
  isValid id = true -> reachable (store w) = false ->
  customerSatisfaction cls isValid id w
  = (Ok {| status := 500;
           body := Failure "Failed to generate customer satisfaction profile" |}, w).
Proof.
  intros Hv Hr. unfold customerSatisfaction. rewrite Hv. cbn [negb].
  erewrite try_throw; [done|]. erewrite bind_throw; [done|]. by apply storeQuery_fail.
Qed.

Lemma customerSatisfaction_empty id w :
  isValid id = true -> reachable (store w) = true -> customerScope id (store w) = [] ->
  customerSatisfaction cls isValid id w
  = (Ok {| status := 200;
           body := NoFeedback "No feedback found for this customer" id |}, w).
Proof.
  intros Hv Hr He. unfold customerSatisfaction. rewrite Hv. cbn [negb].
  erewrite try_ok; [done|]. erewrite bind_ok by by apply storeQuery_ok.
  fold (customerScope id (store w)). by rewrite He.
Qed.

Lemma customerSatisfaction_profile id w :
  isValid id = true -> reachable (store w) = true -> customerScope id (store w) <> [] ->
  let fbs := customerScope id (store w) in
  exists rs w',
    Forall2 (classified cls) fbs rs /\ readOnly w w' /\
    customerSatisfaction cls isValid id w
    = (Ok {| status := 200;
             body := Profile id (buildMetrics fbs (averageOf (map rating fbs)) rs) |}, w').
Proof.
  intros Hv Hr Hne fbs.
  destruct (classifyAll fbs w) as (rs & w' & Hrs & HF & Hro).
  exists rs, w'. split; [done|]. split; [done|].
  unfold customerSatisfaction. rewrite Hv. cbn [negb].
  erewrite try_ok; [done|]. erewrite bind_ok by by apply storeQuery_ok.
  fold (customerScope id (store w)). fold fbs.
  destruct (length fbs =? 0)%nat eqn:E.
  { apply Nat.eqb_eq, nil_length_inv in E. by destruct Hne. }
  erewrite bind_ok by exact Hrs.
  erewrite bind_ok by by apply (readOnly_query _ w).
  reflexivity.
Qed.

Lemma customerSatisfaction_scored id w :
  isValid id = true -> reachable (store w) = true -> customerScope id (store w) <> [] ->
  let fbs := customerScope id (store w) in
  customerSatisfaction cls isValid id w
  = (Ok {| status := 200;
           body := Profile id
             (buildMetrics fbs (averageOf (map rating fbs))
                (sentimentsOf cls (hfCalls w) (map comment fbs))) |},
     addCalls (classifierInputs fbs) w).
Proof.
  intros Hv Hr Hne fbs.
  assert ((length fbs =? 0)%nat = false) as He.
  { apply Nat.eqb_neq. intros E. by apply nil_length_inv in E. }
  unfold customerSatisfaction. rewrite Hv. cbn [negb].
  erewrite try_ok; [done|]. erewrite bind_ok by by apply storeQuery_ok.
  fold (customerScope id (store w)). fold fbs. rewrite He.
  erewrite bind_ok by apply classifyAll_exact.
  by erewrite bind_ok by by apply storeQuery_ok.
Qed.

(** *** The food item analysis *)

Lemma foodItemSatisfaction_invalid id w :
  isValid id = false ->
  foodItemSatisfaction cls isValid call id w
  = (Ok {| status := 400; body := Failure "Invalid food item ID" |}, w).
Proof. intros H. unfold foodItemSatisfaction. by rewrite H. Qed.

Lemma foodItemSatisfaction_unreachable id w :
  isValid id = true -> reachable (store w) = false ->
  foodItemSatisfaction cls isValid call id w
  = (Ok {| status := 500;
           body := Failure "Failed to generate food item satisfaction analysis" |}, w).
Proof.
  intros Hv Hr. unfold foodItemSatisfaction. rewrite Hv. cbn [negb].
  erewrite try_throw; [done|]. erewrite bind_throw; [done|]. by apply storeQuery_fail.
Qed.

Lemma foodItemSatisfaction_missing id w :
  isValid id = true -> reachable (store w) = true ->
  List.find (fun item => String.eqb (item_id item) id) (foodItems (store w)) = None ->
  foodItemSatisfaction cls isValid call id w
  = (Ok {| status := 404; body := Failure "Food item not found" |}, w).
Proof.
  intros Hv Hr Hf. unfold foodItemSatisfaction. rewrite Hv. cbn [negb].
  erewrite try_ok; [done|]. erewrite bind_ok by by apply storeQuery_ok.
  by rewrite Hf.
Qed.

Lemma foodItemSatisfaction_empty id w item :
  isValid id = true -> reachable (store w) = true ->
  List.find (fun item => String.eqb (item_id item) id) (foodItems (store w)) = Some item ->
  feedback item = [] ->
  foodItemSatisfaction cls isValid call id w
  = (Ok {| status := 200; body := NoFeedback "No feedback found for this item" id |}, w).
Proof.
  intros Hv Hr Hf He. unfold foodItemSatisfaction. rewrite Hv. cbn [negb].
  erewrite try_ok; [done|]. erewrite bind_ok by by apply storeQuery_ok.
  by rewrite Hf, He.
Qed.

(** With feedback to score, the route classifies every comment and then
    builds the list of recent orders. It answers 500 when the call of
    [ObjectId] throws and when there is a recent order; it answers with the
    metrics when the call returns and no recent order is found. *)
Lemma foodItemSatisfaction_scored id w item :
  isValid id = true -> reachable (store w) = true ->
  List.find (fun item => String.eqb (item_id item) id) (foodItems (store w)) = Some item ->
  feedback item <> [] ->
  let fbs := feedback item in
  let failure :=
    {| status := 500;
       body := Failure "Failed to generate food item satisfaction analysis" |} in
  foodItemSatisfaction cls isValid call id w
  = (Ok match call id with
        | Throw _ => failure
        | Ok objectId =>
            match recentOrdersOf objectId (store w) with
            | _ :: _ => failure
            | [] =>
                {| status := 200;
                   body := Profile id
                     (buildMetrics fbs (averageOf (map rating fbs))
                        (sentimentsOf cls (hfCalls w) (map comment fbs))) |}
            end
        end,
     addCalls (classifierInputs fbs) w).
Proof.
  intros Hv Hr Hf Hne fbs failure.
  assert ((length fbs =? 0)%nat = false) as He.
  { apply Nat.eqb_neq. intros E. by apply nil_length_inv in E. }
  set (w' := addCalls (classifierInputs fbs) w).
  assert (reachable (store w') = true) as Hr' by done.
  unfold foodItemSatisfaction. rewrite Hv. cbn [negb].
  destruct (call id) as [objectId|e] eqn:Hcall.
  - destruct (recentOrdersOf objectId (store w)) as [|d l] eqn:Hrecent.
    + erewrite try_ok; [done|]. erewrite bind_ok by by apply storeQuery_ok.
      rewrite Hf. fold fbs. rewrite He.
      erewrite bind_ok by apply classifyAll_exact. fold w'.
      erewrite (bind_ok _ _ w' objectId w') by done.
      erewrite bind_ok by by apply storeQuery_ok.
      erewrite bind_ok by by apply storeQuery_ok.
      change (store w') with (store w). rewrite Hrecent.
      by erewrite bind_ok by done.
    + erewrite try_throw; [done|]. erewrite bind_ok by by apply storeQuery_ok.
      rewrite Hf. fold fbs. rewrite He.
      erewrite bind_ok by apply classifyAll_exact. fold w'.
      erewrite (bind_ok _ _ w' objectId w') by done.
      erewrite bind_ok by by apply storeQuery_ok.
      erewrite bind_ok by by apply storeQuery_ok.
      change (store w') with (store w). rewrite Hrecent.
      by erewrite bind_throw by done.
  - erewrite try_throw; [done|]. erewrite bind_ok by by apply storeQuery_ok.
    rewrite Hf. fold fbs. rewrite He.
    erewrite bind_ok by apply classifyAll_exact. fold w'.
    by erewrite (bind_throw _ _ w' e w') by done.
Qed.

(** *** The dashboard *)

Lemma satisfactionDashboard_unreachable w :
  reachable (store w) = false ->
  satisfactionDashboard cls w
  = (Ok {| status := 500;
           body := Failure "Failed to generate satisfaction analytics" |}, w).
Proof.
  intros Hr. unfold satisfactionDashboard.
  erewrite try_throw; [done|]. erewrite bind_throw; [done|]. by apply storeQuery_fail.
Qed.


Lemma satisfactionDashboard_scored w :
  reachable (store w) = true ->
  let fbs := dashboardScope (store w) in
  satisfactionDashboard cls w
  = (Ok {| status := 200;
           body := Dashboard (length (users (store w)))
             (buildMetrics fbs
                (if (0 <? length fbs)%nat then averageOf (map rating fbs) else 0%Q)
                (sentimentsOf cls (hfCalls w) (map comment fbs))) |},
     addCalls (classifierInputs fbs) w).
Proof.
  intros Hr fbs. unfold satisfactionDashboard.
  erewrite try_ok; [done|]. erewrite bind_ok by by apply storeQuery_ok.
  erewrite bind_ok by by apply storeQuery_ok.
  fold (dashboardScope (store w)). fold fbs.
  erewrite bind_ok by apply classifyAll_exact.
  by erewrite bind_ok by by apply storeQuery_ok.
Qed.

(** *** Every request is answered *)




End RouteProperties.

(** ** Analytics requests *)


(** Every request in closed form: the world it leaves, the status and the
    metrics of the answer. *)
Lemma handleAnalytics_closed cls isValid call rq w :
  let fbs := scopeOf rq (store w) in
  exists resp,
    handleAnalytics cls isValid call rq w
    = (Ok resp,
       if classifies isValid rq (store w) then addCalls (classifierInputs fbs) w else w) /\
    status resp = answerStatus isValid call rq (store w) /\
    metricsOf resp
    = if scores isValid call rq (store w)
      then Some (buildMetrics fbs (averageFor rq fbs)
                   (sentimentsOf cls (hfCalls w) (map comment fbs)))
      else None.
Proof.
  destruct rq as [|id|id]; unfold answerStatus, scores, classifies;
    cbn [handleAnalytics scopeOf averageFor].
  - destruct (reachable (store w)) eqn:Hr.
    + eexists. by rewrite satisfactionDashboard_scored.
    + eexists. by rewrite satisfactionDashboard_unreachable.
  - destruct (isValid id) eqn:Hv; cbn [negb andb].
    2: { eexists. by rewrite customerSatisfaction_invalid. }
    destruct (reachable (store w)) eqn:Hr; cbn [negb andb].
    2: { eexists. by rewrite customerSatisfaction_unreachable. }
    destruct (customerScope id (store w)) as [|fb fbs] eqn:Hs.
    + eexists. by rewrite customerSatisfaction_empty.
    + eexists. rewrite customerSatisfaction_scored by (done || by rewrite Hs).
      by rewrite Hs.
  - destruct (isValid id) eqn:Hv; cbn [negb andb].
    2: { eexists. by rewrite foodItemSatisfaction_invalid. }
    destruct (reachable (store w)) eqn:Hr; cbn [negb andb].
    2: { eexists. by rewrite foodItemSatisfaction_unreachable. }
    unfold itemScope.
    destruct (List.find _ (foodItems (store w))) as [item|] eqn:Hf.
    2: { eexists. by rewrite foodItemSatisfaction_missing. }
    destruct (feedback item) as [|fb fbs] eqn:Hs.
    + eexists. by rewrite (foodItemSatisfaction_empty _ _ _ _ _ item).
    + eexists. rewrite (foodItemSatisfaction_scored _ _ _ _ _ item)
        by (done || by rewrite Hs).
      cbn [length Nat.eqb negb andb]. rewrite Hs. split; [reflexivity|].
      destruct (call id) as [objectId|e]; [|done].
      by destruct (recentOrdersOf objectId (store w)).
Qed.




Lemma fold_countLabel_is_Some labels (acc : gmap string nat) k :
  is_Some (acc !! k) -> is_Some (fold_left countLabel labels acc !! k).
Proof.
  revert acc. induction labels as [|l labels IH]; intros acc Hacc; [done|].
  cbn [fold_left]. apply IH. unfold countLabel.
  rewrite lookup_insert. by case_decide.
Qed.

(** The three keys the accumulator starts with stay in the object. *)
Lemma distribution_known_key labels k :
  knownLabel k -> sentimentDistributionOf labels !! k = Some (countOf k labels).
Proof.
  intros Hk. pose proof (distribution_counts labels k) as Hc.
  assert (is_Some (sentimentDistributionOf labels !! k)) as [n Hn].
  { apply fold_countLabel_is_Some. destruct Hk as [-> | [-> | ->]]; by eexists. }
  rewrite Hn in Hc |- *. cbn in Hc. by subst.
Qed.

(** ** Facts about the sample data *)

(** The food item route on the sample data. With [ObjectId] a class, the
    route classifies the five comments and answers 500. With [ObjectId]
    callable it finds the recent order of the item and answers 500 as well;
    over a store without orders it answers with the metrics. *)
Lemma foodItemSatisfaction_examples :
  (exists resp,
     handleAnalytics demoClassifier demoIsValid classCall (ItemAnalysis pastaId)
       (worldOf demoStore)
     = (Ok resp,
        addCalls (map TextClassification ["great"; "great"; "great"; "great"; "bad"])
          (worldOf demoStore))
     /\ status resp = 500)
  /\ (exists resp w',
        handleAnalytics demoClassifier demoIsValid plainCall (ItemAnalysis pastaId)
          (worldOf demoStore) = (Ok resp, w')
        /\ status resp = 500)
  /\ (exists resp w',
        handleAnalytics demoClassifier demoIsValid plainCall (ItemAnalysis pastaId)
          (worldOf blankStore) = (Ok resp, w')
        /\ status resp = 200 /\ is_Some (metricsOf resp)).
Proof.
  split; [|split].
  - eexists. split; [by vm_compute | done].
  - eexists _, _. split; [by vm_compute | done].
  - eexists _, _. split; [by vm_compute|]. split; [done | by eexists].
Qed.

Lemma demoClassifier_threeLabels : threeLabels demoClassifier.
Proof.
  intros log text top rest. unfold demoClassifier.
  destruct (String.eqb text "great"); [intros [= <- _]; by left|].
  destruct (String.eqb text "bad"); [intros [= <- _]; by right; right | done].
Qed.

(** * The satisfaction score *)

Lemma toFixed_nearest digits s m e :
  let scale := inject_Z (10 ^ Z.of_nat digits) in
  exists n : Z,
    (inject_Z n - (1 # 2) <= Binary64.magnitude m e * scale < inject_Z n + (1 # 2))%Q /\
    Binary64.toFixed digits (S754_finite s m e)
    = (if s then SFopp else fun r => r)
        (Binary64.nearest n (Z.to_pos (10 ^ Z.of_nat digits))).
Proof.
  intros scale.
  exists (Qfloor (Binary64.magnitude m e * scale + (1 # 2))).
  split; [|by destruct s].
  pose proof (Qfloor_le (Binary64.magnitude m e * scale + (1 # 2))) as Hle.
  pose proof (Qlt_floor (Binary64.magnitude m e * scale + (1 # 2))) as Hlt.
  rewrite inject_Z_plus in Hlt. change (inject_Z 1) with 1%Q in Hlt.
  split; lra.
Qed.

(** The engine's score is not always the exact one. The double product by
    100 need not be a whole number: an average of 1.5 with one positive and
    one neutral label scores 57.99999999999999, the double below 58. And
    the sum that is rounded may fall below a tie: an average of 0.125 with
    no positive label scores 1, where the exact sum 0.015 rounds to 0.02. *)
Lemma scores_in_binary64 :
  calculateSatisfactionScore64 (averageOf64 [1; 2])
    (sentimentDistributionOf ["positive"; "neutral"])
  = S754_finite false 8162774324609023 (-47)
  /\ Binary64.ofZ 58 = S754_finite false 8162774324609024 (-47)
  /\ (calculateSatisfactionScore (averageOf [1; 2]%Z)
        (sentimentDistributionOf ["positive"; "neutral"]) == 58)%Q
  /\ calculateSatisfactionScore64 (averageOf64 [0; 0; 0; 0; 0; 0; 0; 1])
       (sentimentDistributionOf ["neutral"]) = Binary64.ofZ 1
  /\ (calculateSatisfactionScore (averageOf [0; 0; 0; 0; 0; 0; 0; 1]%Z)
        (sentimentDistributionOf ["neutral"]) == 2)%Q.
Proof. by vm_compute. Qed.

(** C1. In the arithmetic of the engine (IEEE 754 binary64) the scorer
    computes round2(averageRating / 5 * 0.6 + sentimentRatio * 0.4) * 100,
    where the distribution holds the count of each label, sentimentRatio is
    the positive count over the largest of the three counts, and 0.5 when
    all three are zero; round2 writes the hundredth nearest to the exact
    value of its argument and reads it back. For ratings 5, 5, 5, 5, 1 with
    four positive labels and one negative, the average is 4.2 (the double
    4728779608739021 * 2^-50), the ratio is 1 and the score is
    round2(4.2 / 5 * 0.6 + 1 * 0.4) * 100 = 90 (the double
    6333186975989760 * 2^-46). *)
Theorem C1_satisfaction_score_formula :
  (forall (averageRating : Binary64.double) (labels : list string),
     let dist := sentimentDistributionOf labels in
     let positiveCount := countOf "positive" labels in
     let neutralCount := countOf "neutral" labels in
     let negativeCount := countOf "negative" labels in
     let maxCount := Nat.max (Nat.max positiveCount neutralCount) negativeCount in
     let sentimentRatio :=
       if (0 <? maxCount)%nat
       then Binary64.div (Binary64.ofNat positiveCount) (Binary64.ofNat maxCount)
       else Binary64.nearest 1 2 in
     dist !! "positive" = Some positiveCount /\
     dist !! "neutral" = Some neutralCount /\
     dist !! "negative" = Some negativeCount /\
     calculateSatisfactionScore64 averageRating dist
     = Binary64.mul
         (Binary64.toFixed 2
            (Binary64.add
               (Binary64.mul (Binary64.div averageRating (Binary64.ofZ 5))
                  (Binary64.nearest 6 10))
               (Binary64.mul sentimentRatio (Binary64.nearest 4 10))))
         (Binary64.ofZ 100))
  /\ (forall s m e,
        exists n : Z,
          (inject_Z n - (1 # 2) <= Binary64.magnitude m e * 100 < inject_Z n + (1 # 2))%Q /\
          Binary64.toFixed 2 (S754_finite s m e)
          = (if s then SFopp else fun r => r) (Binary64.nearest n 100))
  /\ (let labels := ["positive"; "positive"; "positive"; "positive"; "negative"] in
      let averageRating := averageOf64 [5; 5; 5; 5; 1] in
      let sentimentRatio :=
        Binary64.div (Binary64.ofNat (countOf "positive" labels))
          (Binary64.ofNat (Nat.max (Nat.max (countOf "positive" labels)
                                      (countOf "neutral" labels))
                             (countOf "negative" labels))) in
      averageRating = Binary64.nearest 42 10 /\
      sentimentRatio = Binary64.ofZ 1 /\
      calculateSatisfactionScore64 averageRating (sentimentDistributionOf labels)
      = Binary64.mul
          (Binary64.toFixed 2
             (Binary64.add
                (Binary64.mul (Binary64.div (Binary64.nearest 42 10) (Binary64.ofZ 5))
                   (Binary64.nearest 6 10))
                (Binary64.mul (Binary64.ofZ 1) (Binary64.nearest 4 10))))
          (Binary64.ofZ 100) /\
      calculateSatisfactionScore64 averageRating (sentimentDistributionOf labels)
      = Binary64.ofZ 90 /\
      averageRating = S754_finite false 4728779608739021 (-50) /\
      Binary64.ofZ 90 = S754_finite false 6333186975989760 (-46)).
Proof.
  split; [|split].
  - intros averageRating labels dist positiveCount neutralCount negativeCount
      maxCount ratio.
    split; [apply distribution_known_key; by left|].
    split; [apply distribution_known_key; right; by left|].
    split; [apply distribution_known_key; right; by right|].
    unfold calculateSatisfactionScore64. subst dist. by rewrite !distribution_counts.
  - intros s m e. apply (toFixed_nearest 2).
  - by vm_compute.
Qed.


Lemma Forall2_classified_length cls fbs rs :
  Forall2 (classified cls) fbs rs -> length (map label rs) = length fbs.
Proof. intros H. rewrite length_map. symmetry. by eapply Forall2_length. Qed.







(** * The recommendation synthesizer *)

Section SynthesizerProperties.

Variable cls : list HfCall -> string -> Res (list SentimentItem).
Variable sum gen : list HfCall -> string -> Res string.
Variable fmtDate : Z -> string.
Variable fmtNum : Z -> string.
Variable fmtPct : Q -> string.

Lemma classifyFeedback_run fb w :
  classifyFeedback cls fb w =
    (Ok (withSentiment fb (label (adapted (cls (hfCalls w) (uf_comment fb))))
           (score (adapted (cls (hfCalls w) (uf_comment fb))))),
     logCall (TextClassification (uf_comment fb)) w).
Proof.
  unfold classifyFeedback, try_catch, mbind, M_bind, textClassification.
  destruct (cls (hfCalls w) (uf_comment fb)) as [[|top rest]|e]; reflexivity.
Qed.

Lemma classifyHistory fbs w :
  exists fws w',
    promiseAll (classifyFeedback cls) fbs w = (Ok fws, w')
    /\ Forall2 annotates fbs fws /\ readOnly w w'.
Proof.
  apply promiseAll_ok. intros fb w0. eexists _, _.
  split; [apply classifyFeedback_run|]. split; [by eexists _, _ | auto].
Qed.

Lemma summarization_guarded text w :
  exists s, try_catch (summarization sum text) (fun _ => mret fallbackSummary) w
            = (Ok s, logCall (Summarization text) w).
Proof.
  unfold try_catch, summarization. destruct (sum (hfCalls w) text); by eexists.
Qed.

Lemma textGeneration_guarded prompt w :
  exists s,
    try_catch (response ← textGeneration gen prompt; mret (trim response))
      (fun _ => mret fallbackText) w
    = (Ok s, logCall (TextGeneration prompt) w).
Proof.
  unfold try_catch, mbind, M_bind, textGeneration.
  destruct (gen (hfCalls w) prompt); by eexists.
Qed.

Lemma generateChefRecommendation_unreachable userId items w :
  reachable (store w) = false ->
  generateChefRecommendation cls sum gen fmtDate fmtNum fmtPct userId items w
  = (Ok (fallbackRecommendation (clock w)), w).
Proof.
  intros Hr. unfold generateChefRecommendation.
  erewrite try_throw; [done|]. erewrite bind_throw; [done|]. by apply storeQuery_fail.
Qed.

Lemma generateChefRecommendation_noHistory userId items w :
  reachable (store w) = true -> userHistory userId (store w) = [] ->
  generateChefRecommendation cls sum gen fmtDate fmtNum fmtPct userId items w
  = (Ok noHistoryRecommendation, w).
Proof.
  intros Hr He. unfold generateChefRecommendation.
  erewrite try_ok; [done|]. erewrite bind_ok by by apply storeQuery_ok.
  fold (userHistory userId (store w)). by rewrite He.
Qed.

Lemma generateChefRecommendation_analysed userId items w :
  reachable (store w) = true -> userHistory userId (store w) <> [] ->
  let history := userHistory userId (store w) in
  let avgRating := averageOf (map uf_rating history) in
  exists fws text w',
    Forall2 annotates history fws /\ readOnly w w' /\
    generateChefRecommendation cls sum gen fmtDate fmtNum fmtPct userId items w
    = (Ok {| recommendation := text;
             priority := priorityOf avgRating (countSentiment "negative" fws)
                           (length history);
             sentiment := overallSentiment avgRating;
             analyzedAt := Some (clock w);
             historicalData := Some
               {| hd_averageRating := toFixed1 avgRating;
                  hd_totalFeedback := length history;
                  hd_lastFeedbackDate := fmtDate (lastCreatedAt history);
                  hd_negativeFeedbackCount := countSentiment "negative" fws;
                  hd_positiveFeedbackCount := countSentiment "positive" fws |};
             feedbackSamples := Some (map (sampleOf fmtDate) (take 3 fws));
             feedbackHistory := None |}, w').
Proof.
  intros Hr Hne history avgRating.
  destruct (classifyHistory history w) as (fws & w1 & Hfws & HF & Hro1).
  destruct (summarization_guarded
              (join nl (map (digestLine fmtDate fmtNum fmtPct) fws)) w1) as (s & Hs).
  destruct (textGeneration_guarded
              (chefPrompt s (join ", " (map (orderLine fmtNum) items)))
              (logCall (Summarization
                 (join nl (map (digestLine fmtDate fmtNum fmtPct) fws))) w1))
    as (text & Ht).
  eexists fws, text, _. split; [done|]. split; [|].
  { eapply readOnly_trans; [exact Hro1|].
    eapply readOnly_trans; apply readOnly_logCall. }
  unfold generateChefRecommendation.
  erewrite try_ok; [done|]. erewrite bind_ok by by apply storeQuery_ok.
  fold (userHistory userId (store w)). fold history.
  destruct (length history =? 0)%nat eqn:E.
  { apply Nat.eqb_eq, nil_length_inv in E. by destruct Hne. }
  erewrite bind_ok by exact Hfws.
  erewrite bind_ok by exact Hs.
  erewrite bind_ok by exact Ht.
  unfold mbind, M_bind, newDate, mret, M_ret. cbn [logCall clock].
  destruct Hro1 as (_ & -> & _). reflexivity.
Qed.

Lemma adapted_sentimentOf answer :
  label (adapted answer) = fst (sentimentOf answer) /\
  score (adapted answer) = snd (sentimentOf answer).
Proof. by destruct answer as [[|top rest]|e]. Qed.

(** Step 1 in closed form. *)
Lemma classifyHistory_exact history w :
  promiseAll (classifyFeedback cls) history w
  = (Ok (classifiedHistory cls (hfCalls w) history),
     addCalls (map (fun fb => TextClassification (uf_comment fb)) history) w).
Proof.
  revert w. induction history as [|fb history IH]; intros w.
  - cbn. by rewrite addCalls_nil.
  - cbn [promiseAll classifiedHistory map].
    erewrite bind_ok by apply classifyFeedback_run.
    erewrite bind_ok by apply IH.
    destruct (adapted_sentimentOf (cls (hfCalls w) (uf_comment fb))) as [-> ->].
    cbn [logCall hfCalls]. by rewrite addCalls_logCall.
Qed.

Lemma classifiedHistory_annotates log history :
  Forall2 annotates history (classifiedHistory cls log history).
Proof.
  revert log. induction history as [|fb history IH]; intros log; constructor; [|apply IH].
  by eexists _, _.
Qed.

Lemma classifiedHistory_labels log history :
  map uf_sentiment (classifiedHistory cls log history)
  = answeredLabels cls log (map uf_comment history).
Proof.
  revert log. induction history as [|fb history IH]; intros log; [done|].
  cbn. rewrite IH. by destruct (cls log (uf_comment fb)) as [[|top rest]|e].
Qed.

Lemma countSentiment_countOf l fws :
  countSentiment l fws = countOf l (map uf_sentiment fws).
Proof.
  unfold countSentiment, countOf. induction fws as [|fb fws IH]; [done|].
  cbn [map]. rewrite !filter_cons.
  destruct (decide (uf_sentiment fb = l)); cbn; by rewrite IH.
Qed.

Lemma countSentiment_answered l log history :
  countSentiment l (classifiedHistory cls log history)
  = countOf l (answeredLabels cls log (map uf_comment history)).
Proof. by rewrite countSentiment_countOf, classifiedHistory_labels. Qed.

(** The analysis with the classified history written out. *)
Lemma generateChefRecommendation_classified userId items w :
  reachable (store w) = true -> userHistory userId (store w) <> [] ->
  let history := userHistory userId (store w) in
  let avgRating := averageOf (map uf_rating history) in
  let fws := classifiedHistory cls (hfCalls w) history in
  exists text w',
    readOnly w w' /\
    generateChefRecommendation cls sum gen fmtDate fmtNum fmtPct userId items w
    = (Ok {| recommendation := text;
             priority := priorityOf avgRating (countSentiment "negative" fws)
                           (length history);
             sentiment := overallSentiment avgRating;
             analyzedAt := Some (clock w);
             historicalData := Some
               {| hd_averageRating := toFixed1 avgRating;
                  hd_totalFeedback := length history;
                  hd_lastFeedbackDate := fmtDate (lastCreatedAt history);
                  hd_negativeFeedbackCount := countSentiment "negative" fws;
                  hd_positiveFeedbackCount := countSentiment "positive" fws |};
             feedbackSamples := Some (map (sampleOf fmtDate) (take 3 fws));
             feedbackHistory := None |}, w').
Proof.
  intros Hr Hne history avgRating fws.
  set (w1 := addCalls (map (fun fb => TextClassification (uf_comment fb)) history) w).
  destruct (summarization_guarded
              (join nl (map (digestLine fmtDate fmtNum fmtPct) fws)) w1) as (s & Hs).
  destruct (textGeneration_guarded
              (chefPrompt s (join ", " (map (orderLine fmtNum) items)))
              (logCall (Summarization
                 (join nl (map (digestLine fmtDate fmtNum fmtPct) fws))) w1))
    as (text & Ht).
  eexists text, _. split.
  { eapply readOnly_trans; [apply addCalls_readOnly|].
    eapply readOnly_trans; apply readOnly_logCall. }
  unfold generateChefRecommendation.
  erewrite try_ok; [done|]. erewrite bind_ok by by apply storeQuery_ok.
  fold (userHistory userId (store w)). fold history.
  destruct (length history =? 0)%nat eqn:E.
  { apply Nat.eqb_eq, nil_length_inv in E. by destruct Hne. }
  erewrite bind_ok by apply classifyHistory_exact. fold fws w1.
  erewrite bind_ok by exact Hs.
  erewrite bind_ok by exact Ht.
  reflexivity.
Qed.

(** The synthesizer returns on every input. *)
Lemma generateChefRecommendation_total userId items w :
  exists r w',
    generateChefRecommendation cls sum gen fmtDate fmtNum fmtPct userId items w
    = (Ok r, w') /\ readOnly w w'.
Proof.
  destruct (reachable (store w)) eqn:Hr.
  2: { eexists _, w. by rewrite generateChefRecommendation_unreachable. }
  destruct (decide (userHistory userId (store w) = [])) as [He|Hne].
  - eexists _, w. by rewrite generateChefRecommendation_noHistory.
  - destruct (generateChefRecommendation_analysed userId items w Hr Hne)
      as (fws & text & w' & _ & Hro & ->). by eexists _, w'.
Qed.

End SynthesizerProperties.

(** * The trend aggregation *)

(** ** Grouping *)

Section Grouping.

Variable key : Feedback -> Z.

Lemma ratingsOf_snoc k docs fb :
  ratingsOf key k (docs ++ [fb])
  = ratingsOf key k docs ++ (if decide (key fb = k) then [rating fb] else []).
Proof.
  unfold ratingsOf. rewrite filter_app, map_app. f_equal.
  rewrite filter_cons, filter_nil. by case_decide.
Qed.

Lemma groupByKey_snoc docs fb :
  groupByKey key (docs ++ [fb]) = groupInsert (key fb) (rating fb) (groupByKey key docs).
Proof. unfold groupByKey. by rewrite fold_left_app. Qed.

Lemma lookupGroup_insert k r g k' :
  lookupGroup k' (groupInsert k r g)
  = if decide (k = k') then Some (default [] (lookupGroup k g) ++ [r])
    else lookupGroup k' g.
Proof.
  induction g as [|[k0 rs] g IH]; cbn.
  - case_decide; subst; [by rewrite Z.eqb_refl|].
    destruct (k' =? k) eqn:E; [apply Z.eqb_eq in E; congruence | done].
  - destruct (k =? k0) eqn:E0; cbn.
    + apply Z.eqb_eq in E0 as ->. case_decide; subst; [by rewrite Z.eqb_refl|].
      destruct (k' =? k0) eqn:E; [apply Z.eqb_eq in E; congruence | done].
    + apply Z.eqb_neq in E0. rewrite IH. case_decide; subst.
      * destruct (k' =? k0) eqn:E; [apply Z.eqb_eq in E; congruence | done].
      * done.
Qed.

Lemma groupInsert_keys k r g :
  map fst (groupInsert k r g)
  = if decide (k ∈ map fst g) then map fst g else map fst g ++ [k].
Proof.
  induction g as [|[k0 rs] g IH]; cbn.
  - case_decide as H; [by apply elem_of_nil in H | done].
  - destruct (k =? k0) eqn:E0; cbn.
    + apply Z.eqb_eq in E0 as ->. rewrite decide_True; [done | by left].
    + apply Z.eqb_neq in E0. rewrite IH.
      destruct (decide (k ∈ map fst g)) as [Hin|Hnin].
      * rewrite decide_True; [done | by right].
      * rewrite decide_False; [done|]. by intros [?|?]%elem_of_cons.
Qed.

Lemma groupByKey_NoDup docs : NoDup (map fst (groupByKey key docs)).
Proof.
  induction docs as [|fb docs IH] using rev_ind; [constructor|].
  rewrite groupByKey_snoc, groupInsert_keys. case_decide as H; [done|].
  apply NoDup_app. split; [done|]. split; [|apply NoDup_singleton].
  intros k Hk ->%list_elem_of_singleton. done.
Qed.

(** Each group holds exactly the ratings of the documents with its key. *)
Lemma groupByKey_lookup docs k :
  lookupGroup k (groupByKey key docs)
  = match ratingsOf key k docs with
    | [] => None
    | rs => Some rs
    end.
Proof.
  induction docs as [|fb docs IH] using rev_ind; [done|].
  rewrite groupByKey_snoc, lookupGroup_insert, ratingsOf_snoc.
  destruct (decide (key fb = k)) as [Heq|Hne].
  - rewrite Heq, IH. by destruct (ratingsOf key k docs).
  - rewrite IH, app_nil_r. done.
Qed.

Lemma lookupGroup_elem k rs g :
  NoDup (map fst g) -> (k, rs) ∈ g -> lookupGroup k g = Some rs.
Proof.
  induction g as [|[k0 rs0] g IH]; [by intros _ ?%elem_of_nil|].
  cbn. intros [Hk0 Hnd]%NoDup_cons [[= -> ->] | Hin]%elem_of_cons.
  - by rewrite Z.eqb_refl.
  - destruct (k =? k0) eqn:E; [|by apply IH].
    apply Z.eqb_eq in E as ->. destruct Hk0.
    apply list_elem_of_fmap. by exists (k0, rs).
Qed.

Lemma elem_lookupGroup k rs g : lookupGroup k g = Some rs -> (k, rs) ∈ g.
Proof.
  induction g as [|[k0 rs0] g IH]; [done|]. cbn.
  destruct (k =? k0) eqn:E.
  - apply Z.eqb_eq in E as ->. intros [= ->]. by left.
  - intros H. right. by apply IH.
Qed.

(** A pair is a group exactly when its key occurs among the documents and
    its ratings are all the ratings with that key. *)
Lemma groupByKey_elem docs k rs :
  (k, rs) ∈ groupByKey key docs <-> rs = ratingsOf key k docs /\ rs <> [].
Proof.
  split.
  - intros H. apply lookupGroup_elem in H; [|apply groupByKey_NoDup].
    rewrite groupByKey_lookup in H. destruct (ratingsOf key k docs); by simplify_eq.
  - intros [-> Hne]. apply elem_lookupGroup. rewrite groupByKey_lookup.
    by destruct (ratingsOf key k docs).
Qed.

Lemma ratingsOf_elem docs fb : fb ∈ docs -> ratingsOf key (key fb) docs <> [].
Proof.
  intros Hin Hnil. apply fmap_nil_inv in Hnil.
  assert (fb ∈ filter (fun fb' => key fb' = key fb) docs) as H
    by by apply list_elem_of_filter.
  rewrite Hnil in H. by apply elem_of_nil in H.
Qed.

End Grouping.

(** ** Sorting and the limit *)

#[local] Instance idLe_trans : Transitive idLe.
Proof. unfold idLe. intros a b c. lia. Qed.

Lemma insertBucket_perm b l : insertBucket b l ≡ₚ b :: l.
Proof.
  induction l as [|c l IH]; [done|]. cbn.
  destruct (bucket_id b <=? bucket_id c); [done|].
  rewrite IH. apply Permutation_swap.
Qed.

Lemma sortBuckets_perm l : sortBuckets l ≡ₚ l.
Proof.
  induction l as [|b l IH]; [done|]. cbn. rewrite insertBucket_perm. by f_equiv.
Qed.

Lemma insertBucket_sorted b l : Sorted idLe l -> Sorted idLe (insertBucket b l).
Proof.
  induction 1 as [|c l Hl IH Hc]; cbn; [by repeat constructor|].
  destruct (bucket_id b <=? bucket_id c) eqn:E.
  - apply Z.leb_le in E. by repeat constructor.
  - apply Z.leb_gt in E. constructor; [done|].
    destruct l as [|d l]; cbn in *.
    + constructor. unfold idLe. lia.
    + destruct (bucket_id b <=? bucket_id d); constructor; [unfold idLe; lia|].
      by inversion Hc.
Qed.

Lemma sortBuckets_sorted l : Sorted idLe (sortBuckets l).
Proof. induction l; cbn; [constructor | by apply insertBucket_sorted]. Qed.

Lemma StronglySorted_strict l :
  StronglySorted idLe l -> NoDup (map bucket_id l) -> StronglySorted idLt l.
Proof.
  induction 1 as [|b l Hl IH Hb]; [constructor|].
  cbn. intros [Hnin Hnd]%NoDup_cons. constructor; [by apply IH|].
  rewrite Forall_forall in *. intros c Hc.
  assert (bucket_id b <> bucket_id c).
  { intros Heq. apply Hnin. rewrite Heq. by apply list_elem_of_fmap_2. }
  specialize (Hb c Hc). unfold idLe, idLt in *. lia.
Qed.

Lemma StronglySorted_take {A} (R : relation A) n l :
  StronglySorted R l -> StronglySorted R (take n l).
Proof.
  intros H. rewrite <- (take_drop n l) in H. by apply StronglySorted_app_1_l in H.
Qed.

Lemma sortedGroups_strict period s : StronglySorted idLt (sortedGroups period s).
Proof.
  apply StronglySorted_strict.
  - apply Sorted_StronglySorted; [apply _ | apply sortBuckets_sorted].
  - unfold sortedGroups. rewrite sortBuckets_perm, map_map. cbn.
    apply groupByKey_NoDup.
Qed.

Lemma sortedGroups_elem period s b :
  let key := fun fb => evalDateOperator (getDateGrouping period) (createdAt fb) in
  b ∈ sortedGroups period s <->
  ratingsOf key (bucket_id b) (unwindFeedback s) <> [] /\
  b = groupStats (bucket_id b, ratingsOf key (bucket_id b) (unwindFeedback s)).
Proof.
  intros key. unfold sortedGroups. rewrite sortBuckets_perm, list_elem_of_fmap. split.
  - intros ([k rs] & -> & [-> Hne]%groupByKey_elem). by cbn.
  - intros [Hne Hb]. eexists. split; [exact Hb|]. by apply groupByKey_elem.
Qed.

(** ** The trend route *)

Lemma promiseAll_ok_from {A B} (f : A -> M B) (P : A -> B -> Prop) w :
  (forall x w0, readOnly w w0 ->
     exists y w1, f x w0 = (Ok y, w1) /\ P x y /\ readOnly w0 w1) ->
  forall l w0, readOnly w w0 ->
    exists ys w', promiseAll f l w0 = (Ok ys, w') /\ Forall2 P l ys /\ readOnly w0 w'.
Proof.
  intros Hf l. induction l as [|x l IH]; intros w0 Hw0.
  - exists [], w0. split; [reflexivity | split; [constructor | apply readOnly_refl]].
  - destruct (Hf x w0 Hw0) as (y & w1 & Hy & HP & Hro1).
    destruct (IH w1) as (ys & w2 & Hys & HF & Hro2); [by eapply readOnly_trans|].
    exists (y :: ys), w2. split; [|split].
    + cbn. unfold mbind, M_bind. rewrite Hy. cbn. by rewrite Hys.
    + by constructor.
    + by eapply readOnly_trans.
Qed.

Section TrendProperties.

Variable cls : list HfCall -> string -> Res (list SentimentItem).
Variable sample : nat -> list Feedback -> list Feedback.

Lemma satisfactionTrend_unreachable query_period w :
  reachable (store w) = false ->
  satisfactionTrend cls sample query_period w
  = (Ok {| status := 500; body := Failure "Failed to generate satisfaction trend" |}, w).
Proof.
  intros Hr. unfold satisfactionTrend.
  erewrite try_throw; [done|]. erewrite bind_throw; [done|]. by apply storeQuery_fail.
Qed.

Lemma satisfactionTrend_run query_period w :
  reachable (store w) = true ->
  let period := default "month" query_period in
  exists data w',
    satisfactionTrend cls sample query_period w
    = (Ok {| status := 200; body := Trend period data |}, w') /\
    readOnly w w' /\
    Forall2 (bucketOf cls sample period (store w)) (trendGroups period (store w)) data.
Proof.
  intros Hr period.
  edestruct (promiseAll_ok_from
    (fun periodData =>
       feedbackInPeriod ← storeQuery (fun s =>
         sample 10%nat (filter (inWindow (bucket_id periodData)
                              (getNextPeriodDate (bucket_id periodData) period))
                      (unwindFeedback s)));
       sentimentAnalysis ←
         promiseAll (fun fb => analyzeSentiment cls (comment fb)) feedbackInPeriod;
       mret {| bucket_id := bucket_id periodData;
               bucket_averageRating := bucket_averageRating periodData;
               bucket_count := bucket_count periodData;
               bucket_sentiment := sentimentDistributionOf (map label sentimentAnalysis) |})
    (bucketOf cls sample period (store w)) w) as (data & w' & Hdata & HF & Hro);
    [| apply readOnly_refl |].
  - intros g w0 Hw0.
    destruct (classifyAll cls (sample 10%nat (sentimentWindow period g (store w))) w0)
      as (rs & w1 & Hrs & HFrs & Hro1).
    eexists _, w1. split; [|split; [|exact Hro1]].
    + erewrite bind_ok by by apply (readOnly_query _ w).
      erewrite bind_ok by exact Hrs. reflexivity.
    + split; [done|]. split; [done|]. split; [done|]. by exists rs.
  - exists data, w'. split; [|done].
    unfold satisfactionTrend. fold period.
    erewrite try_ok; [done|]. erewrite bind_ok by by apply storeQuery_ok.
    erewrite bind_ok by exact Hdata. reflexivity.
Qed.

End TrendProperties.

Lemma trendGroups_take period s : trendGroups period s = take 30 (sortedGroups period s).
Proof. reflexivity. Qed.

Lemma trendGroups_spec period s :
  let docs := unwindFeedback s in
  let result := trendGroups period s in
  StronglySorted idLt result /\
  (length result <= 30)%nat /\
  (forall b, b ∈ result ->
     membersOf period (bucket_id b) docs <> [] /\
     bucket_count b = length (membersOf period (bucket_id b) docs) /\
     bucket_averageRating b = averageOf (map rating (membersOf period (bucket_id b) docs))) /\
  (forall fb, fb ∈ docs ->
     (exists b, b ∈ result /\ bucket_id b = periodKey period fb) \/
     (length result = 30%nat /\ forall b, b ∈ result -> bucket_id b < periodKey period fb)).
Proof.
  intros docs result. subst result. rewrite trendGroups_take.
  pose proof (sortedGroups_strict period s) as Hsorted.
  split; [by apply StronglySorted_take|].
  split; [rewrite length_take; lia|]. split.
  - intros b Hb. apply subseteq_take in Hb.
    apply sortedGroups_elem in Hb as [Hne Hb]. fold (periodKey period) in Hne, Hb.
    fold docs in Hne, Hb. unfold ratingsOf in Hne, Hb.
    fold (membersOf period (bucket_id b) docs) in Hne, Hb.
    split; [by intros H; rewrite H in Hne|].
    rewrite Hb at 1 3. cbn. by rewrite length_map.
  - intros fb Hfb.
    set (b0 := groupStats (periodKey period fb,
                           ratingsOf (periodKey period) (periodKey period fb) docs)).
    assert (b0 ∈ sortedGroups period s) as Hb0.
    { apply sortedGroups_elem. fold (periodKey period). fold docs.
      split; [by apply ratingsOf_elem | done]. }
    rewrite <- (take_drop 30 (sortedGroups period s)) in Hb0, Hsorted.
    apply elem_of_app in Hb0 as [Hin | Hin].
    + left. by exists b0.
    + right. split.
      * rewrite length_take. apply Nat.min_l.
        destruct (decide (30 <= length (sortedGroups period s))%nat); [done|].
        rewrite drop_ge in Hin by lia. by apply elem_of_nil in Hin.
      * intros b Hb.
        by apply (StronglySorted_app_1_elem_of idLt _ _ b b0 Hsorted).
Qed.

Lemma bucketOf_ids cls sample period s groups data :
  Forall2 (bucketOf cls sample period s) groups data ->
  Forall2 (fun g b => bucket_id b = bucket_id g
                      /\ bucket_averageRating b = bucket_averageRating g
                      /\ bucket_count b = bucket_count g) groups data.
Proof. intros H. eapply Forall2_impl; [exact H|]. by intros g b (? & ? & ? & _). Qed.

Lemma same_ids_sorted groups data :
  Forall2 (fun g b => bucket_id b = bucket_id g) groups data ->
  StronglySorted idLt groups -> StronglySorted idLt data.
Proof.
  induction 1 as [|g b groups data Hid HF IH]; [done|].
  intros [Hall Hs]%StronglySorted_cons. constructor; [by apply IH|].
  clear IH Hs. induction HF as [|g' b' groups data Hid' HF IH]; [done|].
  apply Forall_cons in Hall as [Hg Hall]. constructor; [|by apply IH].
  unfold idLt in *. lia.
Qed.

Lemma getDateGrouping_default period :
  period <> "day" -> period <> "week" -> period <> "year" ->
  getDateGrouping period = "$month".
Proof.
  intros Hd Hw Hy. unfold getDateGrouping.
  apply String.eqb_neq in Hd, Hw, Hy. rewrite Hd, Hw, Hy.
  by destruct (String.eqb period "month").
Qed.

Lemma Forall2_elem_r {A B} (P : A -> B -> Prop) l k y :
  Forall2 P l k -> y ∈ k -> exists x, x ∈ l /\ P x y.
Proof.
  induction 1 as [|x y' l k HP _ IH]; [by intros ?%elem_of_nil|].
  intros [-> | Hin]%elem_of_cons.
  - exists x. split; [by left | done].
  - destruct (IH Hin) as (x' & ? & ?). exists x'. split; [by right | done].
Qed.

Lemma Forall2_elem_l {A B} (P : A -> B -> Prop) l k x :
  Forall2 P l k -> x ∈ l -> exists y, y ∈ k /\ P x y.
Proof.
  induction 1 as [|x' y l k HP _ IH]; [by intros ?%elem_of_nil|].
  intros [-> | Hin]%elem_of_cons.
  - exists y. split; [by left | done].
  - destruct (IH Hin) as (y' & ? & ?). exists y'. split; [by right | done].
Qed.

(** C4, as the specification states it, fails twice. With one record a year
    over 31 years and period [year], the bucket that is left out is the one
    of the newest record, 2024, not the oldest. With period [month], a
    record of January 2023 and one of January 2024 share a bucket: the key is
    the month of the year, not the timestamp truncated to its month. *)
Lemma C4_counterexample :
  ~ (forall s period fb,
       fb ∈ unwindFeedback s ->
       (forall fb', fb' ∈ unwindFeedback s -> createdAt fb' <= createdAt fb) ->
       exists b, b ∈ trendGroups period s /\ bucket_id b = periodKey period fb)
  /\
  ~ (forall s fb1 fb2,
       fb1 ∈ unwindFeedback s -> fb2 ∈ unwindFeedback s ->
       periodKey "month" fb1 = periodKey "month" fb2 ->
       getFullYear (createdAt fb1) = getFullYear (createdAt fb2)).
Proof.
  split.
  - intros H.
    destruct (H yearlyStore "year" (feedbackBy None "y" 4 "fine" (utc 2024 6 15 12)))
      as (b & Hb & Hid).
    + apply list_elem_of_In. vm_compute. tauto.
    + assert (Forall (fun fb' => createdAt fb' <= utc 2024 6 15 12)
                (unwindFeedback yearlyStore)) as HF
        by (apply (bool_decide_unpack _); by vm_compute).
      rewrite Forall_forall in HF. exact HF.
    + apply (list_elem_of_fmap_2 bucket_id) in Hb. rewrite Hid in Hb.
      apply list_elem_of_In in Hb. vm_compute in Hb. lia.
  - intros H.
    specialize (H januaryStore (feedbackBy None "j1" 5 "great" (utc 2023 1 10 12))
                  (feedbackBy None "j2" 1 "bad" (utc 2024 1 20 12))).
    discriminate H; [by left | right; by left | reflexivity].
Qed.

(** C4, amended. For every period (absent: month), over a reachable store,
    the trend route groups the feedback records by the value the period's
    date operator reads off the timestamp - day of the year, week of the
    year, year, and month of the year for [month] and for any other period -
    gives each group the count and the average rating of all its records,
    returns the groups in strictly ascending order of key, and returns at
    most 30 of them: a record's group is missing only when 30 groups with
    smaller keys are returned. *)
Theorem C4_trend_buckets cls sample query_period w :
  reachable (store w) = true ->
  let period := default "month" query_period in
  let docs := unwindFeedback (store w) in
  exists data w',
    satisfactionTrend cls sample query_period w
    = (Ok {| status := 200; body := Trend period data |}, w') /\
    (forall fb,
       periodKey period fb =
         if String.eqb period "day" then op_dayOfYear (createdAt fb)
         else if String.eqb period "week" then op_week (createdAt fb)
         else if String.eqb period "year" then op_year (createdAt fb)
         else op_month (createdAt fb)) /\
    StronglySorted idLt data /\
    (length data <= 30)%nat /\
    (forall b, b ∈ data ->
       membersOf period (bucket_id b) docs <> [] /\
       bucket_count b = length (membersOf period (bucket_id b) docs) /\
       bucket_averageRating b
       = averageOf (map rating (membersOf period (bucket_id b) docs))) /\
    (forall fb, fb ∈ docs ->
       (exists b, b ∈ data /\ bucket_id b = periodKey period fb) \/
       (length data = 30%nat /\
        forall b, b ∈ data -> bucket_id b < periodKey period fb)).
Proof.
  intros Hr period docs.
  destruct (satisfactionTrend_run cls sample query_period w Hr)
    as (data & w' & Hrun & _ & HF).
  fold period in Hrun, HF. apply bucketOf_ids in HF.
  destruct (trendGroups_spec period (store w)) as (Hsorted & Hlen & Hstats & Hcover).
  fold docs in Hstats, Hcover.
  exists data, w'. split; [done|]. split; [|split; [|split; [|split]]].
  - intros fb. unfold periodKey.
    destruct (String.eqb period "day") eqn:Ed; [apply String.eqb_eq in Ed as ->; done|].
    destruct (String.eqb period "week") eqn:Ew; [apply String.eqb_eq in Ew as ->; done|].
    destruct (String.eqb period "year") eqn:Ey; [apply String.eqb_eq in Ey as ->; done|].
    apply String.eqb_neq in Ed, Ew, Ey. by rewrite getDateGrouping_default.
  - eapply same_ids_sorted; [|exact Hsorted].
    eapply Forall2_impl; [exact HF|]. by intros g b (? & _).
  - by rewrite <- (Forall2_length _ _ _ HF).
  - intros b Hb. destruct (Forall2_elem_r _ _ _ _ HF Hb) as (g & Hg & Hid & Havg & Hcnt).
    rewrite Hid, Havg, Hcnt. by apply Hstats.
  - intros fb Hfb. destruct (Hcover fb Hfb) as [(g & Hg & Hid) | [Hfull Hsmall]].
    + left. destruct (Forall2_elem_l _ _ _ _ HF Hg) as (b & Hb & Hidb & _).
      exists b. split; [done | congruence].
    + right. split; [by rewrite <- (Forall2_length _ _ _ HF)|].
      intros b Hb. destruct (Forall2_elem_r _ _ _ _ HF Hb) as (g & Hg & Hid & _).
      rewrite Hid. by apply Hsmall.
Qed.

Lemma C4_witness :
  reachable (store (worldOf yearlyStore)) = true /\
  exists data w',
    satisfactionTrend demoClassifier take (Some "year") (worldOf yearlyStore)
    = (Ok {| status := 200; body := Trend "year" data |}, w') /\
    StronglySorted idLt data /\ (length data <= 30)%nat.
Proof.
  split; [reflexivity|].
  destruct (C4_trend_buckets demoClassifier take (Some "year") (worldOf yearlyStore)
              eq_refl) as (data & w' & Hrun & _ & Hsorted & Hlen & _).
  exists data, w'. split; [exact Hrun|]. split; [exact Hsorted | exact Hlen].
Defined.

(** ** The sentiment sample of a bucket *)

Lemma take_sampler : sampler take.
Proof.
  intros n l. split; [rewrite length_take; lia|].
  apply sublist_submseteq, sublist_take.
Qed.

(** A bucket key is a small number, and [new Date(key)] reads it as a count
    of milliseconds: the window starts within the first day of 1970 and
    ends at most a leap year later. *)
Lemma getNextPeriodDate_epoch k period :
  0 <= k < msPerDay -> k <= getNextPeriodDate k period <= k + 366 * msPerDay.
Proof.
  intros Hk.
  assert (Day k = 0) as HD by (unfold Day; by apply Z.div_small).
  assert (TimeWithinDay k = k) as HT by (unfold TimeWithinDay; by apply Z.mod_small).
  unfold getNextPeriodDate, setDate, setMonth, setFullYear, getDate, getMonth, getFullYear.
  rewrite HD, HT.
  repeat match goal with
         | |- context [if ?b then _ else _] => destruct b
         end; unfold MakeDate, msPerDay in *;
    match goal with
    | |- context [MakeDay ?y ?m ?d] =>
        let v := eval vm_compute in (MakeDay y m d) in change (MakeDay y m d) with v
    | _ => idtac
    end; lia.
Qed.

Lemma sentimentWindow_empty period g s :
  0 <= bucket_id g < msPerDay ->
  Forall (fun fb => utc 1972 1 1 0 <= createdAt fb) (unwindFeedback s) ->
  sentimentWindow period g s = [].
Proof.
  intros Hk Hall. unfold sentimentWindow.
  pose proof (getNextPeriodDate_epoch (bucket_id g) period Hk) as Hw.
  induction Hall as [|fb l Hfb _ IH]; [done|].
  rewrite filter_cons, decide_False; [done|].
  unfold inWindow. intros [_ Hlt%Is_true_true%Z.ltb_lt]%andb_True.
  change (utc 1972 1 1 0) with (730 * msPerDay) in Hfb. unfold msPerDay in *. lia.
Qed.

(** With every feedback record dated 1972 or later, a bucket whose key is
    below the number of milliseconds in a day - every day, week and month
    number, and every year number - gets no sentiment at all, whatever the
    sample draws: its window lies in 1970 and 1971. *)
Lemma trend_sentiment_empty cls sample query_period w :
  sampler sample ->
  reachable (store w) = true ->
  Forall (fun fb => utc 1972 1 1 0 <= createdAt fb) (unwindFeedback (store w)) ->
  exists data w',
    satisfactionTrend cls sample query_period w
    = (Ok {| status := 200; body := Trend (default "month" query_period) data |}, w') /\
    forall b, b ∈ data -> 0 <= bucket_id b < msPerDay ->
      bucket_sentiment b = emptyDistribution /\ (0 < bucket_count b)%nat.
Proof.
  intros Hsample Hr Hdates.
  destruct (satisfactionTrend_run cls sample query_period w Hr)
    as (data & w' & Hrun & _ & HF).
  exists data, w'. split; [done|]. intros b Hb Hk.
  destruct (Forall2_elem_r _ _ _ _ HF Hb)
    as (g & Hg & Hid & _ & Hcnt & rs & Hrs & Hsent).
  rewrite sentimentWindow_empty in Hrs; [|by rewrite <- Hid|done].
  destruct (Hsample 10%nat []) as [_ Hnil%submseteq_nil_r]. rewrite Hnil in Hrs.
  apply Forall2_nil_inv_l in Hrs as ->. split; [done|].
  destruct (trendGroups_spec (default "month" query_period) (store w))
    as (_ & _ & Hstats & _).
  destruct (Hstats g Hg) as (Hne & Hlen & _). rewrite Hcnt, Hlen.
  destruct (membersOf _ _ _); [done | cbn; lia].
Qed.

(** The hypotheses of [trend_sentiment_empty] hold for the sample store and
    the sampler that takes the first documents. *)
Example trend_sentiment_empty_sample :
  exists data w',
    satisfactionTrend demoClassifier take (Some "week") (worldOf demoStore)
    = (Ok {| status := 200; body := Trend "week" data |}, w') /\
    forall b, b ∈ data -> 0 <= bucket_id b < msPerDay ->
      bucket_sentiment b = emptyDistribution /\ (0 < bucket_count b)%nat.
Proof.
  apply (trend_sentiment_empty demoClassifier take (Some "week") (worldOf demoStore)
           take_sampler eq_refl).
  apply (bool_decide_unpack _). by vm_compute.
Qed.

(** C5, the defect at work. The five records of March 2024 form the bucket
    with key 3, with their count and average; the window its sentiment
    sample is matched against runs from 3 ms after the epoch to one month
    later, holds none of them, and the bucket's sentiment counts are all
    zero without a single call to the classifier. *)
Theorem C5_sample_window_at_epoch :
  let bucket := {| bucket_id := 3; bucket_averageRating := averageOf [5; 5; 5; 5; 1];
                   bucket_count := 5; bucket_sentiment := emptyDistribution |} in
  satisfactionTrend demoClassifier take (Some "month") (worldOf demoStore)
  = (Ok {| status := 200; body := Trend "month" [bucket] |}, worldOf demoStore)
  /\ length (membersOf "month" 3 (unwindFeedback demoStore)) = 5%nat
  /\ getNextPeriodDate 3 "month" = utc 1970 2 1 0 + 3
  /\ sentimentWindow "month" bucket demoStore = [].
Proof. by vm_compute. Qed.

(** * Failure isolation *)





(** * Priority and overall sentiment *)

Lemma Qlt_bool_iff x y : Qlt_bool x y = true <-> (x < y)%Q.
Proof.
  unfold Qlt_bool. rewrite negb_true_iff, <- not_true_iff_false, Qle_bool_iff.
  split; [apply Qnot_le_lt | apply Qlt_not_le].
Qed.

Lemma half_total_nonneg total : (0 <= nat_to_Q total * (1 # 2))%Q.
Proof.
  pose proof (nat_to_Q_le 0 total ltac:(lia)) as H.
  change (nat_to_Q 0) with 0%Q in H. lra.
Qed.

Lemma priorityOf_spec avg neg total :
  let isHigh := ((avg < 5 # 2) \/ (nat_to_Q total * (1 # 2) < nat_to_Q neg))%Q in
  let isLow := ((42 # 10 < avg)%Q /\ neg = 0%nat) in
  (priorityOf avg neg total = "high" <-> isHigh) /\
  (priorityOf avg neg total = "low" <-> isLow) /\
  (priorityOf avg neg total = "normal" <-> ~ isHigh /\ ~ isLow).
Proof.
  intros isHigh isLow. unfold priorityOf.
  assert (Qlt_bool avg (5 # 2)
          || Qlt_bool (nat_to_Q total * (1 # 2)) (nat_to_Q neg) = true <-> isHigh) as Hh.
  { by rewrite orb_true_iff, !Qlt_bool_iff. }
  assert (Qlt_bool (42 # 10) avg && (neg =? 0)%nat = true <-> isLow) as Hl.
  { by rewrite andb_true_iff, Qlt_bool_iff, Nat.eqb_eq. }
  assert (isLow -> ~ isHigh) as Hexcl.
  { intros [H42 ->] [H25 | Hneg]; [lra|].
    pose proof (half_total_nonneg total). change (nat_to_Q 0) with 0%Q in Hneg. lra. }
  destruct (Qlt_bool avg (5 # 2)
            || Qlt_bool (nat_to_Q total * (1 # 2)) (nat_to_Q neg)) eqn:Eh.
  - assert isHigh as H by by apply Hh.
    split; [done|]. split; [|split; [done | by intros [? _]]].
    split; [done | by intros ?%Hexcl].
  - assert (~ isHigh) as H by (intros ?%Hh; done).
    destruct (Qlt_bool (42 # 10) avg && (neg =? 0)%nat) eqn:El.
    + assert isLow as H' by by apply Hl.
      split; [done|]. split; [done|]. split; [done | by intros [_ ?]].
    + assert (~ isLow) as H' by (intros ?%Hl; done).
      split; [done|]. split; done.
Qed.

Lemma overallSentiment_spec avg :
  (overallSentiment avg = "positive" <-> (3 <= avg)%Q) /\
  (overallSentiment avg = "neutral" <-> (2 <= avg)%Q /\ (avg < 3)%Q) /\
  (overallSentiment avg = "negative" <-> (avg < 2)%Q).
Proof.
  unfold overallSentiment.
  destruct (Qle_bool 3 avg) eqn:E3.
  - apply Qle_bool_iff in E3.
    split; [done|]. split; (split; [done|]); [intros [_ ?] | intros ?]; lra.
  - assert (avg < 3)%Q as H3.
    { apply Qnot_le_lt. intros H%Qle_bool_iff. congruence. }
    destruct (Qle_bool 2 avg) eqn:E2.
    + apply Qle_bool_iff in E2.
      split; [split; [done | intros; lra]|]. split; [done|].
      split; [done | intros; lra].
    + assert (avg < 2)%Q as H2.
      { apply Qnot_le_lt. intros H%Qle_bool_iff. congruence. }
      split; [split; [done | intros; lra]|]. split; [|done].
      split; [done | intros [? _]; lra].
Qed.

(** C7. For a customer with a feedback history, over a reachable store, the
    synthesizer returns a recommendation whose priority is [priorityOf] of
    the average rating of the history, the number of history entries whose
    comment the classifier labelled negative when it was asked in history
    order, and the size of the history:
    high exactly when the average is below 2.5 or the negative count
    exceeds half the total, low exactly when the average is above 4.2 and
    the negative count is 0, normal otherwise. Its sentiment is positive
    exactly when the average is at least 3, neutral exactly when it is at
    least 2 and below 3, negative exactly when it is below 2. *)
Theorem C7_priority_and_sentiment cls sum gen fmtDate fmtNum fmtPct userId items w :
  reachable (store w) = true ->
  userHistory userId (store w) <> [] ->
  let history := userHistory userId (store w) in
  let avgRating := averageOf (map uf_rating history) in
  let total := length history in
  let negativeCount :=
    countOf "negative" (answeredLabels cls (hfCalls w) (map uf_comment history)) in
  let isHigh :=
    ((avgRating < 5 # 2) \/ (nat_to_Q total * (1 # 2) < nat_to_Q negativeCount))%Q in
  let isLow := ((42 # 10 < avgRating)%Q /\ negativeCount = 0%nat) in
  exists r w',
    generateChefRecommendation cls sum gen fmtDate fmtNum fmtPct userId items w
    = (Ok r, w') /\
    option_map hd_negativeFeedbackCount (historicalData r) = Some negativeCount /\
    option_map hd_totalFeedback (historicalData r) = Some total /\
    priority r = priorityOf avgRating negativeCount total /\
    (priority r = "high" <-> isHigh) /\
    (priority r = "low" <-> isLow) /\
    (priority r = "normal" <-> ~ isHigh /\ ~ isLow) /\
    (sentiment r = "positive" <-> (3 <= avgRating)%Q) /\
    (sentiment r = "neutral" <-> (2 <= avgRating)%Q /\ (avgRating < 3)%Q) /\
    (sentiment r = "negative" <-> (avgRating < 2)%Q).
Proof.
  intros Hr Hne history avgRating total negativeCount isHigh isLow.
  destruct (generateChefRecommendation_classified cls sum gen fmtDate fmtNum fmtPct
              userId items w Hr Hne) as (text & w' & _ & Hrun).
  rewrite !countSentiment_answered in Hrun.
  eexists _, w'. split; [exact Hrun|].
  pose proof (priorityOf_spec avgRating negativeCount total) as (Hh & Hl & Hn).
  pose proof (overallSentiment_spec avgRating) as (Hp & Hu & Hg).
  cbn [priority sentiment historicalData option_map hd_negativeFeedbackCount
       hd_totalFeedback].
  fold history avgRating total negativeCount.
  split; [done|]. split; [done|]. split; [done|].
  subst isHigh isLow. repeat split; tauto.
Qed.

Lemma C7_witness :
  reachable (store (worldOf demoStore)) = true /\
  userHistory aliceId (store (worldOf demoStore)) <> [] /\
  countOf "negative"
    (answeredLabels demoClassifier [] (map uf_comment (userHistory aliceId demoStore)))
  = 1%nat /\
  exists r w',
    generateChefRecommendation demoClassifier failingModel demoGenerator
      demoDate demoNumber demoPercent aliceId (order_items demoOrder) (worldOf demoStore)
    = (Ok r, w') /\
    priority r = "normal" /\ sentiment r = "positive".
Proof.
  split; [reflexivity|]. split; [discriminate|]. split; [by vm_compute|].
  destruct (C7_priority_and_sentiment demoClassifier failingModel demoGenerator
              demoDate demoNumber demoPercent aliceId (order_items demoOrder)
              (worldOf demoStore) eq_refl ltac:(discriminate))
    as (r & w' & Hrun & _).
  exists r, w'. split; [exact Hrun|].
  vm_compute in Hrun. injection Hrun as <- _. by split.
Defined.

(** The examples of the specification. *)
Example priority_examples :
  priorityOf 2 3 4 = "high" /\ priorityOf (45 # 10) 0 5 = "low"
  /\ priorityOf (35 # 10) 1 5 = "normal".
Proof. by vm_compute. Qed.

(** * Feedback samples *)

(** C8, as the specification states it, fails: for the customer with the
    ratings 5, 5, 5, 5, 1 the samples are the entries rated 5, 5, 5, the
    first three, not the last three, rated 5, 5, 1. *)
Lemma C8_counterexample :
  ~ (forall cls sum gen fmtDate fmtNum fmtPct userId items w r w' samples,
       generateChefRecommendation cls sum gen fmtDate fmtNum fmtPct userId items w
       = (Ok r, w') ->
       feedbackSamples r = Some samples ->
       Forall2 (carries fmtDate) (lastN 3 (userHistory userId (store w))) samples).
Proof.
  intros H.
  specialize (H demoClassifier failingModel demoGenerator demoDate demoNumber
                demoPercent aliceId (order_items demoOrder) (worldOf demoStore)
                _ _ _ eq_refl eq_refl).
  vm_compute in H.
  inversion H as [|? ? ? ? _ H1]; subst. inversion H1 as [|? ? ? ? _ H2]; subst.
  inversion H2 as [|? ? ? ? (_ & _ & Hrating & _) _]; subst. discriminate Hrating.
Qed.

Lemma annotated_samples fmtDate history fws n :
  Forall2 annotates history fws ->
  Forall2 (fun fb fs => carries fmtDate fb fs)
    (take n history) (map (sampleOf fmtDate) (take n fws)).
Proof.
  intros HF. apply Forall2_fmap_r. apply Forall2_take.
  eapply Forall2_impl; [exact HF|]. by intros fb fb' (l & sc & ->).
Qed.

(** C8, amended. For a customer with a feedback history, over a reachable
    store, the recommendation attaches at most 3 samples: the first 3
    entries of the history in the order the synthesizer walks it (all of
    them when there are fewer), each with its item name, comment, rating and
    date, and with the sentiment label the classifier gave its comment,
    neutral where the call failed. *)
Theorem C8_feedback_samples cls sum gen fmtDate fmtNum fmtPct userId items w :
  reachable (store w) = true ->
  userHistory userId (store w) <> [] ->
  let history := userHistory userId (store w) in
  exists r w' samples,
    generateChefRecommendation cls sum gen fmtDate fmtNum fmtPct userId items w
    = (Ok r, w') /\
    feedbackSamples r = Some samples /\
    (length samples <= 3)%nat /\
    length samples = Nat.min 3 (length history) /\
    Forall2 (carries fmtDate) (take 3 history) samples /\
    map fs_sentiment samples
    = take 3 (answeredLabels cls (hfCalls w) (map uf_comment history)).
Proof.
  intros Hr Hne history.
  destruct (generateChefRecommendation_classified cls sum gen fmtDate fmtNum fmtPct
              userId items w Hr Hne) as (text & w' & _ & Hrun).
  eexists _, w', _. split; [exact Hrun|]. split; [reflexivity|].
  pose proof (classifiedHistory_annotates cls (hfCalls w) history) as HF.
  pose proof (Forall2_length _ _ _ HF) as Hlen.
  rewrite length_map, length_take.
  split; [lia|]. split; [by rewrite Hlen|].
  split; [by apply annotated_samples|].
  rewrite map_map. cbn. by rewrite <- classifiedHistory_labels, fmap_take.
Qed.

Lemma C8_witness :
  reachable (store (worldOf demoStore)) = true /\
  userHistory aliceId (store (worldOf demoStore)) <> [] /\
  exists r w' samples,
    generateChefRecommendation demoClassifier failingModel demoGenerator
      demoDate demoNumber demoPercent aliceId (order_items demoOrder) (worldOf demoStore)
    = (Ok r, w') /\
    feedbackSamples r = Some samples /\ length samples = 3%nat /\
    map fs_rating samples = [5; 5; 5] /\
    map fs_sentiment samples = ["positive"; "positive"; "positive"].
Proof.
  split; [reflexivity|]. split; [discriminate|].
  destruct (C8_feedback_samples demoClassifier failingModel demoGenerator
              demoDate demoNumber demoPercent aliceId (order_items demoOrder)
              (worldOf demoStore) eq_refl ltac:(discriminate))
    as (r & w' & samples & Hrun & Hs & _ & Hlen & _ & Hsent).
  exists r, w', samples. split; [exact Hrun|]. split; [exact Hs|].
  split; [exact Hlen|]. split; [|exact Hsent].
  vm_compute in Hrun. injection Hrun as <- _. by injection Hs as <-.
Defined.

(** * Failure classes *)

(** C9, as the specification states it, fails: over an unreachable store
    the synthesizer does not fail, it returns a recommendation. *)
Lemma C9_counterexample :
  ~ (forall cls sum gen fmtDate fmtNum fmtPct userId items w,
       reachable (store w) = false ->
       exists e,
         fst (generateChefRecommendation cls sum gen fmtDate fmtNum fmtPct userId items w)
         = Throw e).
Proof.
  intros H.
  destruct (H demoClassifier failingModel demoGenerator demoDate demoNumber demoPercent
              aliceId (order_items demoOrder) (worldOf unreachableStore) eq_refl)
    as [e He].
  discriminate He.
Qed.

(** C9, amended. The customer profile route always answers: 400 exactly
    when the identifier is malformed, and then without touching the store
    or the models; 500 exactly when the identifier is well formed and the
    store is unreachable; 200 otherwise, whatever the models do. The
    synthesizer always returns a recommendation, whatever the models do;
    over an unreachable store it returns the default one, with priority
    normal and sentiment neutral, instead of failing. *)
Theorem C9_failure_classes cls sum gen isValid fmtDate fmtNum fmtPct id items w :
  (exists resp w',
     customerSatisfaction cls isValid id w = (Ok resp, w') /\
     (status resp = 400 <-> isValid id = false) /\
     (status resp = 500 <-> isValid id = true /\ reachable (store w) = false) /\
     (status resp = 200 <-> isValid id = true /\ reachable (store w) = true) /\
     (isValid id = false -> w' = w))
  /\
  (exists r w',
     generateChefRecommendation cls sum gen fmtDate fmtNum fmtPct id items w = (Ok r, w') /\
     (reachable (store w) = false ->
      r = fallbackRecommendation (clock w) /\ priority r = "normal"
      /\ sentiment r = "neutral" /\ w' = w)).
Proof.
  split.
  - destruct (isValid id) eqn:Hv.
    2: { eexists _, w. split; [by apply customerSatisfaction_invalid|]. cbn.
         repeat split; try done; by intros [? ?]. }
    destruct (reachable (store w)) eqn:Hr.
    2: { eexists _, w. split; [by apply customerSatisfaction_unreachable|]. cbn.
         repeat split; try done; by intros [? ?]. }
    destruct (decide (customerScope id (store w) = [])) as [He|Hne].
    + eexists _, w. split; [by apply customerSatisfaction_empty|]. cbn.
      repeat split; try done; by intros [? ?].
    + destruct (customerSatisfaction_profile cls isValid id w Hv Hr Hne)
        as (rs & w' & _ & _ & ->).
      eexists _, w'. split; [done|]. cbn.
      repeat split; try done; by intros [? ?].
  - destruct (generateChefRecommendation_total cls sum gen fmtDate fmtNum fmtPct id items w)
      as (r & w' & Hrun & _).
    exists r, w'. split; [done|]. intros Hr.
    rewrite generateChefRecommendation_unreachable in Hrun by done.
    by injection Hrun as <- <-.
Qed.

Lemma C9_witness :
  (exists resp w',
     customerSatisfaction demoClassifier demoIsValid "not-an-id" (worldOf demoStore)
     = (Ok resp, w') /\ status resp = 400 /\ w' = worldOf demoStore)
  /\
  (exists r w',
     generateChefRecommendation demoClassifier failingModel demoGenerator
       demoDate demoNumber demoPercent aliceId (order_items demoOrder)
       (worldOf unreachableStore) = (Ok r, w')
     /\ r = fallbackRecommendation (clock (worldOf unreachableStore))).
Proof.
  split.
  - destruct (C9_failure_classes demoClassifier failingModel demoGenerator demoIsValid
                demoDate demoNumber demoPercent "not-an-id" [] (worldOf demoStore))
      as [(resp & w' & Hrun & H400 & _ & _ & Hw) _].
    exists resp, w'. split; [exact Hrun|]. split; [by apply H400 | by apply Hw].
  - destruct (C9_failure_classes demoClassifier failingModel demoGenerator demoIsValid
                demoDate demoNumber demoPercent aliceId (order_items demoOrder)
                (worldOf unreachableStore))
      as [_ (r & w' & Hrun & Hfall)].
    exists r, w'. split; [exact Hrun|]. by apply Hfall.
Defined.

(** * Order status *)


Lemma updateById_some id f before o after :
  Forall (fun o' => order_id o' <> id) before -> order_id o = id ->
  updateById id f (before ++ o :: after) = (Some (f o), before ++ f o :: after).
Proof.
  intros Hb Ho. induction Hb as [|o' l Ho' _ IH]; cbn.
  - apply String.eqb_eq in Ho. by rewrite Ho.
  - apply String.eqb_neq in Ho'. by rewrite Ho', IH.
Qed.

Lemma validStatuses_existsb status :
  existsb (String.eqb status) validStatuses = true <-> status ∈ validStatuses.
Proof.
  rewrite existsb_exists. split.
  - intros (x & Hin & ->%String.eqb_eq). by apply list_elem_of_In.
  - intros H. exists status. split; [by apply list_elem_of_In | apply String.eqb_refl].
Qed.


Lemma existsb_order_some id before o after :
  order_id o = id ->
  existsb (fun o => String.eqb (order_id o) id) (before ++ o :: after) = true.
Proof.
  intros Ho. rewrite existsb_app. cbn. apply String.eqb_eq in Ho. rewrite Ho.
  by rewrite orb_true_r.
Qed.

(** When the store rejects the update, the route answers 500. *)
Lemma updateOrderStatus_unreachable isValid id status w :
  status ∈ validStatuses -> reachable (store w) = false ->
  updateOrderStatus isValid id status w
  = (Ok {| status := 500; body := Failure "Failed to update order" |}, w).
Proof.
  intros Hv Hr. apply validStatuses_existsb in Hv.
  unfold updateOrderStatus. rewrite Hv. cbn [negb].
  unfold try_catch, mbind, M_bind, newDate, Order_findByIdAndUpdate. rewrite Hr.
  by destruct (negb _).
Qed.




(** * More on the scorer *)










(** * Calls to the hosted models *)


(** * More on the synthesizer *)

Section SynthesizerRuns.

Variable cls : list HfCall -> string -> Res (list SentimentItem).
Variable sum gen : list HfCall -> string -> Res string.
Variable fmtDate : Z -> string.
Variable fmtNum : Z -> string.
Variable fmtPct : Q -> string.

Lemma classifyHistory_log fbs w :
  exists fws w',
    promiseAll (classifyFeedback cls) fbs w = (Ok fws, w')
    /\ Forall2 annotates fbs fws
    /\ store w' = store w /\ clock w' = clock w
    /\ hfCalls w' = hfCalls w ++ map (fun fb => TextClassification (uf_comment fb)) fbs.
Proof.
  revert w. induction fbs as [|fb fbs IH]; intros w.
  - exists [], w. split; [done|]. split; [constructor|]. cbn. by rewrite app_nil_r.
  - destruct (IH (logCall (TextClassification (uf_comment fb)) w))
      as (fws & w' & Hfws & HF & Hs & Hc & Hlog).
    eexists (_ :: fws), w'. split; [|split; [|split; [|split]]].
    + cbn [promiseAll]. erewrite bind_ok by apply classifyFeedback_run.
      by erewrite bind_ok by exact Hfws.
    + constructor; [by eexists _, _ | done].
    + done.
    + done.
    + rewrite Hlog. cbn. by rewrite <- app_assoc.
Qed.

(** The synthesizer on a customer with a history, step by step. *)
Lemma generateChefRecommendation_steps userId items w :
  reachable (store w) = true -> userHistory userId (store w) <> [] ->
  let history := userHistory userId (store w) in
  let avgRating := averageOf (map uf_rating history) in
  exists fws w1,
    promiseAll (classifyFeedback cls) history w = (Ok fws, w1) /\
    Forall2 annotates history fws /\
    store w1 = store w /\ clock w1 = clock w /\
    hfCalls w1 = hfCalls w ++ map (fun fb => TextClassification (uf_comment fb)) history /\
    let digest := digestOf fmtDate fmtNum fmtPct fws in
    let w2 := logCall (Summarization digest) w1 in
    let prompt := chefPrompt (summaryOf (sum (hfCalls w1) digest))
                    (join ", " (map (orderLine fmtNum) items)) in
    generateChefRecommendation cls sum gen fmtDate fmtNum fmtPct userId items w
    = (Ok {| recommendation := textOf (gen (hfCalls w2) prompt);
             priority := priorityOf avgRating (countSentiment "negative" fws)
                           (length history);
             sentiment := overallSentiment avgRating;
             analyzedAt := Some (clock w);
             historicalData := Some
               {| hd_averageRating := toFixed1 avgRating;
                  hd_totalFeedback := length history;
                  hd_lastFeedbackDate := fmtDate (lastCreatedAt history);
                  hd_negativeFeedbackCount := countSentiment "negative" fws;
                  hd_positiveFeedbackCount := countSentiment "positive" fws |};
             feedbackSamples := Some (map (sampleOf fmtDate) (take 3 fws));
             feedbackHistory := None |},
       logCall (TextGeneration prompt) w2).
Proof.
  intros Hr Hne history avgRating.
  destruct (classifyHistory_log history w) as (fws & w1 & Hfws & HF & Hs & Hc & Hlog).
  exists fws, w1. do 5 (split; [done|]). intros digest w2 prompt.
  unfold generateChefRecommendation.
  erewrite try_ok; [done|]. erewrite bind_ok by by apply storeQuery_ok.
  fold (userHistory userId (store w)). fold history.
  destruct (length history =? 0)%nat eqn:E.
  { apply Nat.eqb_eq, nil_length_inv in E. by destruct Hne. }
  erewrite bind_ok by exact Hfws.
  fold (digestOf fmtDate fmtNum fmtPct fws). fold digest.
  erewrite (bind_ok _ _ w1 (summaryOf (sum (hfCalls w1) digest)) w2).
  2: { unfold try_catch, summarization. by destruct (sum (hfCalls w1) digest). }
  fold prompt.
  erewrite (bind_ok _ _ w2 (textOf (gen (hfCalls w2) prompt))
              (logCall (TextGeneration prompt) w2)).
  2: { unfold try_catch, mbind, M_bind, textGeneration.
       by destruct (gen (hfCalls w2) prompt). }
  unfold mbind, M_bind, newDate, mret, M_ret. subst w2. cbn [logCall clock].
  by rewrite Hc.
Qed.

End SynthesizerRuns.

Lemma userHistory_empty userId s :
  (forall item fb, item ∈ foodItems s -> fb ∈ feedback item -> authoredBy userId fb = false) ->
  userHistory userId s = [].
Proof.
  intros H. unfold userHistory.
  assert (filter (fun item => existsb (authoredBy userId) (feedback item)) (foodItems s) = [])
    as ->; [|done].
  induction (foodItems s) as [|item l IH]; [done|].
  rewrite filter_cons, decide_False.
  - apply IH. intros item' fb Hin. apply H. by right.
  - intros Hex%Is_true_true%existsb_exists. destruct Hex as (fb & Hin & Hfb).
    rewrite (H item fb) in Hfb; [done | by left | by apply list_elem_of_In].
Qed.

(** X4. When the store can be reached and holds no feedback written by the
    customer, the synthesizer returns the no-history default (standard
    recipes, priority normal, sentiment neutral) and leaves the world as it
    was: no model is called. *)
Theorem X4_no_history_default cls sum gen fmtDate fmtNum fmtPct userId items w :
  reachable (store w) = true ->
  (forall item fb,
     item ∈ foodItems (store w) -> fb ∈ feedback item -> authoredBy userId fb = false) ->
  generateChefRecommendation cls sum gen fmtDate fmtNum fmtPct userId items w
  = (Ok noHistoryRecommendation, w)
  /\ priority noHistoryRecommendation = "normal"
  /\ sentiment noHistoryRecommendation = "neutral".
Proof.
  intros Hr Hnone. split; [|done].
  apply generateChefRecommendation_noHistory; [done|]. by apply userHistory_empty.
Qed.

Lemma X4_witness :
  reachable (store (worldOf demoStore)) = true /\
  generateChefRecommendation demoClassifier failingModel demoGenerator
    demoDate demoNumber demoPercent "64b0000000000000000000b7" (order_items demoOrder)
    (worldOf demoStore)
  = (Ok noHistoryRecommendation, worldOf demoStore).
Proof.
  split; [reflexivity|].
  apply (X4_no_history_default demoClassifier failingModel demoGenerator
           demoDate demoNumber demoPercent "64b0000000000000000000b7"
           (order_items demoOrder) (worldOf demoStore) eq_refl).
  intros item fb Hitem Hfb.
  apply list_elem_of_singleton in Hitem as ->.
  apply list_elem_of_In in Hfb. cbn in Hfb.
  by repeat destruct Hfb as [<-|Hfb].
Defined.

(** X5. For a customer with a feedback history, over a reachable store, the
    synthesizer makes exactly one attempt per call: one classification per
    history entry, in history order and also for an empty comment, then one
    summarization, then one text generation, and nothing else; the store is
    left as it was. *)
Theorem X5_synthesizer_calls cls sum gen fmtDate fmtNum fmtPct userId items w :
  reachable (store w) = true ->
  userHistory userId (store w) <> [] ->
  exists r w' digest prompt,
    generateChefRecommendation cls sum gen fmtDate fmtNum fmtPct userId items w
    = (Ok r, w') /\
    store w' = store w /\
    hfCalls w' = hfCalls w
                 ++ map (fun fb => TextClassification (uf_comment fb))
                      (userHistory userId (store w))
                 ++ [Summarization digest; TextGeneration prompt].
Proof.
  intros Hr Hne.
  destruct (generateChefRecommendation_steps cls sum gen fmtDate fmtNum fmtPct
              userId items w Hr Hne) as (fws & w1 & _ & _ & Hs & _ & Hlog & Hrun).
  eexists _, _, _, _. split; [exact Hrun|]. split; [done|].
  cbn [logCall hfCalls]. rewrite Hlog. by rewrite <- !app_assoc.
Qed.

Lemma X5_witness :
  reachable (store (worldOf demoStore)) = true /\
  userHistory aliceId (store (worldOf demoStore)) <> [] /\
  exists r w' digest prompt,
    generateChefRecommendation demoClassifier failingModel demoGenerator
      demoDate demoNumber demoPercent aliceId (order_items demoOrder) (worldOf demoStore)
    = (Ok r, w') /\
    hfCalls w' = map TextClassification ["great"; "great"; "great"; "great"; "bad"]
                 ++ [Summarization digest; TextGeneration prompt].
Proof.
  split; [reflexivity|]. split; [discriminate|].
  destruct (X5_synthesizer_calls demoClassifier failingModel demoGenerator
              demoDate demoNumber demoPercent aliceId (order_items demoOrder)
              (worldOf demoStore) eq_refl ltac:(discriminate))
    as (r & w' & digest & prompt & Hrun & _ & Hlog).
  exists r, w', digest, prompt. split; [exact Hrun | exact Hlog].
Defined.

Lemma toFixed1_nearest x : nearestTenth x (toFixed1 x).
Proof.
  unfold toFixed1. destruct (Qle_bool 0 x).
  - split; [by eexists|].
    pose proof (Qfloor_le (x * 10 + (1 # 2))) as Hl.
    pose proof (Qlt_floor (x * 10 + (1 # 2))) as Hu.
    rewrite inject_Z_plus in Hu. change (inject_Z 1) with 1%Q in Hu.
    set (n := inject_Z (Qfloor (x * 10 + (1 # 2)))) in *. clearbody n.
    split; qlra.
  - split.
    + exists (- Qfloor (- x * 10 + (1 # 2)))%Z. rewrite inject_Z_opp. field.
    + pose proof (Qfloor_le (- x * 10 + (1 # 2))) as Hl.
      pose proof (Qlt_floor (- x * 10 + (1 # 2))) as Hu.
      rewrite inject_Z_plus in Hu. change (inject_Z 1) with 1%Q in Hu.
      set (n := inject_Z (Qfloor (- x * 10 + (1 # 2)))) in *. clearbody n.
      split; qlra.
Qed.

Lemma countSentiment_disjoint fws :
  (countSentiment "negative" fws + countSentiment "positive" fws <= length fws)%nat.
Proof.
  unfold countSentiment. induction fws as [|fb fws IH]; [done|].
  rewrite !filter_cons. cbn [length].
  repeat case_decide; cbn [length]; try congruence; lia.
Qed.

(** X6. The historical data of an analysis is consistent with the history:
    the total is its size, the negative and the positive count together do
    not exceed it, the average shown is the nearest tenth of the average
    rating, and the last feedback date is the date of the last history
    entry. *)
Theorem X6_historical_data cls sum gen fmtDate fmtNum fmtPct userId items w :
  reachable (store w) = true ->
  userHistory userId (store w) <> [] ->
  let history := userHistory userId (store w) in
  exists r w' hd lastEntry,
    generateChefRecommendation cls sum gen fmtDate fmtNum fmtPct userId items w
    = (Ok r, w') /\
    historicalData r = Some hd /\
    hd_totalFeedback hd = length history /\
    (hd_negativeFeedbackCount hd + hd_positiveFeedbackCount hd <= hd_totalFeedback hd)%nat /\
    nearestTenth (averageOf (map uf_rating history)) (hd_averageRating hd) /\
    last history = Some lastEntry /\
    hd_lastFeedbackDate hd = fmtDate (uf_createdAt lastEntry).
Proof.
  intros Hr Hne history.
  destruct (generateChefRecommendation_steps cls sum gen fmtDate fmtNum fmtPct
              userId items w Hr Hne) as (fws & w1 & _ & HF & _ & _ & _ & Hrun).
  fold history in HF.
  destruct (last history) as [lastEntry|] eqn:Hlast.
  2: { apply last_None in Hlast. by destruct Hne. }
  eexists _, _, _, lastEntry. split; [exact Hrun|]. cbn.
  split; [done|]. split; [done|]. split; [|split; [apply toFixed1_nearest|]].
  - pose proof (Forall2_length _ _ _ HF) as Hlen. unfold history in *.
    rewrite Hlen. apply countSentiment_disjoint.
  - split; [done|]. unfold lastCreatedAt. fold history. by rewrite Hlast.
Qed.

Lemma X6_witness :
  reachable (store (worldOf demoStore)) = true /\
  userHistory aliceId (store (worldOf demoStore)) <> [] /\
  exists r w' hd,
    generateChefRecommendation demoClassifier failingModel demoGenerator
      demoDate demoNumber demoPercent aliceId (order_items demoOrder) (worldOf demoStore)
    = (Ok r, w') /\
    historicalData r = Some hd /\ hd_totalFeedback hd = 5%nat /\
    nearestTenth (averageOf [5; 5; 5; 5; 1]) (hd_averageRating hd).
Proof.
  split; [reflexivity|]. split; [discriminate|].
  destruct (X6_historical_data demoClassifier failingModel demoGenerator
              demoDate demoNumber demoPercent aliceId (order_items demoOrder)
              (worldOf demoStore) eq_refl ltac:(discriminate))
    as (r & w' & hd & lastEntry & Hrun & Hhd & Htotal & _ & Havg & _).
  exists r, w', hd. split; [exact Hrun|]. split; [exact Hhd|].
  split; [exact Htotal | exact Havg].
Defined.

(** X7. The summarizer and the generator only decide the recommendation
    text. Two runs on the same world that differ in these two models agree
    on priority, sentiment, time of analysis, historical data and feedback
    samples. The text of a run is what the generator answered to the last
    call of the run, trimmed, or the fallback text when that call failed. *)
Theorem X7_text_models_only_shape_text
    cls sum gen sum' gen' fmtDate fmtNum fmtPct userId items w :
  reachable (store w) = true ->
  userHistory userId (store w) <> [] ->
  exists r r' w1 w2,
    generateChefRecommendation cls sum gen fmtDate fmtNum fmtPct userId items w
    = (Ok r, w1) /\
    generateChefRecommendation cls sum' gen' fmtDate fmtNum fmtPct userId items w
    = (Ok r', w2) /\
    priority r = priority r' /\ sentiment r = sentiment r' /\
    analyzedAt r = analyzedAt r' /\ historicalData r = historicalData r' /\
    feedbackSamples r = feedbackSamples r' /\
    exists log prompt,
      hfCalls w1 = log ++ [TextGeneration prompt] /\
      recommendation r
      = match gen log prompt with
        | Ok answer => trim answer
        | Throw _ => fallbackText
        end.
Proof.
  intros Hr Hne.
  destruct (generateChefRecommendation_steps cls sum gen fmtDate fmtNum fmtPct
              userId items w Hr Hne) as (fws & w1 & Hfws & _ & _ & _ & _ & Hrun).
  destruct (generateChefRecommendation_steps cls sum' gen' fmtDate fmtNum fmtPct
              userId items w Hr Hne) as (fws' & w1' & Hfws' & _ & _ & _ & _ & Hrun').
  rewrite Hfws in Hfws'. injection Hfws' as <- <-.
  eexists _, _, _, _. split; [exact Hrun|]. split; [exact Hrun'|]. cbn.
  do 5 (split; [done|]).
  by eexists _, _.
Qed.

Lemma X7_witness :
  reachable (store (worldOf demoStore)) = true /\
  userHistory aliceId (store (worldOf demoStore)) <> [] /\
  exists r r' w1 w2,
    generateChefRecommendation demoClassifier failingModel demoGenerator
      demoDate demoNumber demoPercent aliceId (order_items demoOrder) (worldOf demoStore)
    = (Ok r, w1) /\
    generateChefRecommendation demoClassifier demoGenerator failingModel
      demoDate demoNumber demoPercent aliceId (order_items demoOrder) (worldOf demoStore)
    = (Ok r', w2) /\
    priority r = priority r' /\ feedbackSamples r = feedbackSamples r' /\
    recommendation r = "Season lightly and plate warm." /\
    recommendation r' = fallbackText.
Proof.
  split; [reflexivity|]. split; [discriminate|].
  destruct (X7_text_models_only_shape_text demoClassifier failingModel demoGenerator
              demoGenerator failingModel demoDate demoNumber demoPercent aliceId
              (order_items demoOrder) (worldOf demoStore) eq_refl ltac:(discriminate))
    as (r & r' & w1 & w2 & Hrun & Hrun' & Hp & _ & _ & _ & Hs & log & prompt & _ & Ht).
  exists r, r', w1, w2. split; [exact Hrun|]. split; [exact Hrun'|].
  split; [exact Hp|]. split; [exact Hs|].
  split; [by rewrite Ht|].
  vm_compute in Hrun'. by injection Hrun' as <- _.
Defined.

(** * The calendar *)

Lemma allFrom_spec (f : Z -> bool) n a x :
  allFrom f a n = true -> a <= x < a + Z.of_nat n -> f x = true.
Proof.
  revert a. induction n as [|n IH]; intros a H Hx; [lia|].
  cbn [allFrom] in H. destruct (f a) eqn:Hfa; [|done].
  destruct (decide (x = a)) as [->|Hne]; [done|].
  apply (IH (a + 1)); [done | lia].
Qed.

Lemma civilFieldsInRange_all doe : 0 <= doe < 146097 -> civilFieldsInRange doe = true.
Proof.
  intros H. apply (allFrom_spec civilFieldsInRange (Z.to_nat 146097) 0).
  - by vm_compute.
  - rewrite Z2Nat.id; lia.
Qed.

Lemma monthFactsHold_all y m :
  0 <= y < 400 -> 1 <= m <= 12 -> monthFactsHold y m = true.
Proof.
  intros Hy Hm.
  assert (allFrom (fun y => allFrom (monthFactsHold y) 1 12) 0 400 = true)
    as H by by vm_compute.
  apply (allFrom_spec _ 400 0 y) in H; [|lia].
  apply (allFrom_spec _ 12 1 m) in H; [done | lia].
Qed.

Lemma days_from_civil_compose era yoe mp d :
  0 <= yoe <= 399 -> 0 <= mp <= 11 ->
  let m := if mp <? 10 then mp + 3 else mp - 9 in
  let y := yoe + era * 400 in
  days_from_civil (if m <=? 2 then y + 1 else y) m d
  = era * 146097 + (yoe * 365 + yoe / 4 - yoe / 100 + ((153 * mp + 2) / 5 + d - 1))
    - 719468.
Proof.
  intros Hyoe Hmp m y.
  assert ((yoe + era * 400) / 400 = era) as Hera.
  { rewrite Z.div_add by lia. rewrite Z.div_small; lia. }
  unfold days_from_civil. subst m y.
  destruct (mp <? 10) eqn:E.
  - apply Z.ltb_lt in E.
    assert ((mp + 3 <=? 2) = false) as -> by (apply Z.leb_gt; lia).
    assert ((2 <? mp + 3) = true) as -> by (apply Z.ltb_lt; lia).
    rewrite Hera. replace (mp + 3 - 3) with mp by lia.
    replace (yoe + era * 400 - era * 400) with yoe by lia. lia.
  - apply Z.ltb_ge in E.
    assert ((mp - 9 <=? 2) = true) as -> by (apply Z.leb_le; lia).
    assert ((2 <? mp - 9) = false) as -> by (apply Z.ltb_ge; lia).
    replace (yoe + era * 400 + 1 - 1) with (yoe + era * 400) by lia.
    rewrite Hera. replace (mp - 9 + 9) with mp by lia.
    replace (yoe + era * 400 - era * 400) with yoe by lia. lia.
Qed.

(** [civil_from_days] gives a month from 1 to 12 and a day from 1 to 31,
    and [days_from_civil] takes the date back to the day number. *)
Lemma civil_from_days_spec z :
  let '(y, m, d) := civil_from_days z in
  1 <= m <= 12 /\ 1 <= d <= 31 /\ days_from_civil y m d = z.
Proof.
  unfold civil_from_days.
  set (z' := z + 719468). set (era := z' / 146097). set (doe := z' - era * 146097).
  assert (0 <= doe < 146097) as Hdoe.
  { subst doe era. pose proof (Z.mod_pos_bound z' 146097 ltac:(lia)) as H.
    rewrite Z.mod_eq in H by lia. lia. }
  pose proof (civilFieldsInRange_all doe Hdoe) as Hc. unfold civilFieldsInRange in Hc.
  set (yoe := (doe - doe / 1460 + doe / 36524 - doe / 146096) / 365) in *.
  set (doy := doe - (365 * yoe + yoe / 4 - yoe / 100)) in *.
  set (mp := (5 * doy + 2) / 153) in *.
  set (d := doy - (153 * mp + 2) / 5 + 1) in *.
  rewrite !andb_true_iff, !Z.leb_le in Hc.
  destruct Hc as (((((Hy0 & Hy1) & Hm0) & Hm1) & Hd0) & Hd1).
  split; [destruct (mp <? 10) eqn:E; [apply Z.ltb_lt in E | apply Z.ltb_ge in E]; lia|].
  split; [done|].
  rewrite (days_from_civil_compose era yoe mp d) by lia.
  subst d doy doe z'. lia.
Qed.

Lemma days_from_civil_day y m d :
  days_from_civil y m d = days_from_civil y m 1 + d - 1.
Proof. unfold days_from_civil. lia. Qed.

(** Shifting the year by 400 years shifts the day number by an era. *)
Lemma days_from_civil_era y m d q :
  days_from_civil (y + 400 * q) m d = days_from_civil y m d + 146097 * q.
Proof.
  unfold days_from_civil.
  assert (forall a, (a + 400 * q) / 400 = a / 400 + q) as Hdiv.
  { intros a. replace (a + 400 * q) with (a + q * 400) by lia. by rewrite Z.div_add. }
  destruct (m <=? 2).
  - replace (y + 400 * q - 1) with (y - 1 + 400 * q) by lia. rewrite Hdiv.
    set (e := (y - 1) / 400).
    replace (y - 1 + 400 * q - (e + q) * 400) with (y - 1 - e * 400) by lia. lia.
  - rewrite Hdiv. set (e := y / 400).
    replace (y + 400 * q - (e + q) * 400) with (y - e * 400) by lia. lia.
Qed.

Lemma monthFacts y m :
  1 <= m <= 12 ->
  28 <= firstOfNextMonth y m - days_from_civil y m 1 <= 31 /\
  365 <= days_from_civil (y + 1) m 1 - days_from_civil y m 1 <= 366 /\
  0 <= days_from_civil y m 1 - days_from_civil y 1 1 <= 335.
Proof.
  intros Hm.
  set (q := y / 400). set (r := y mod 400).
  assert (y = r + 400 * q) as Hy by (subst q r; pose proof (Z.div_mod y 400); lia).
  assert (0 <= r < 400) as Hr by (subst r; apply Z.mod_pos_bound; lia).
  pose proof (monthFactsHold_all r m Hr Hm) as H. unfold monthFactsHold in H.
  rewrite !andb_true_iff, !Z.leb_le in H.
  assert (firstOfNextMonth y m = firstOfNextMonth r m + 146097 * q) as Hnext.
  { unfold firstOfNextMonth. destruct (m =? 12).
    - replace (y + 1) with (r + 1 + 400 * q) by lia. apply days_from_civil_era.
    - rewrite Hy. apply days_from_civil_era. }
  replace (y + 1) with (r + 1 + 400 * q) by lia.
  rewrite Hnext, Hy, !days_from_civil_era. lia.
Qed.

Lemma date_fields t :
  1 <= getMonth t + 1 <= 12 /\ 1 <= getDate t <= 31 /\
  days_from_civil (getFullYear t) (getMonth t + 1) (getDate t) = Day t.
Proof.
  unfold getMonth, getDate, getFullYear.
  pose proof (civil_from_days_spec (Day t)) as H.
  destruct (civil_from_days (Day t)) as [[y m] d]. cbn [fst snd].
  replace (m - 1 + 1) with m by lia. done.
Qed.

Lemma time_split t :
  t = Day t * msPerDay + TimeWithinDay t /\ 0 <= TimeWithinDay t < msPerDay.
Proof.
  unfold Day, TimeWithinDay, msPerDay. split.
  - pose proof (Z.div_mod t 86400000). lia.
  - apply Z.mod_pos_bound. lia.
Qed.

Lemma MakeDay_in_year y month date :
  0 <= month <= 11 -> MakeDay y month date = days_from_civil y (month + 1) 1 + date - 1.
Proof.
  intros H. unfold MakeDay.
  rewrite Z.div_small, Z.mod_small by lia. by replace (y + 0) with y by lia.
Qed.

Lemma MakeDay_december y date :
  MakeDay y 12 date = days_from_civil (y + 1) 1 1 + date - 1.
Proof. reflexivity. Qed.

Lemma setDate_shift t k : setDate t (getDate t + k) = t + k * msPerDay.
Proof.
  destruct (date_fields t) as (Hm & _ & Hday). destruct (time_split t) as [Ht _].
  unfold setDate, MakeDate. rewrite MakeDay_in_year by lia.
  rewrite days_from_civil_day in Hday. lia.
Qed.

Lemma setMonth_next t :
  28 * msPerDay <= setMonth t (getMonth t + 1) - t <= 31 * msPerDay.
Proof.
  destruct (date_fields t) as (Hm & _ & Hday). destruct (time_split t) as [Ht _].
  rewrite days_from_civil_day in Hday.
  pose proof (monthFacts (getFullYear t) (getMonth t + 1) Hm) as (Hlen & _ & _).
  unfold firstOfNextMonth in Hlen. unfold setMonth, MakeDate.
  destruct (getMonth t + 1 =? 12) eqn:E.
  - apply Z.eqb_eq in E. rewrite E, MakeDay_december in *. unfold msPerDay in *. lia.
  - apply Z.eqb_neq in E. rewrite MakeDay_in_year by lia. unfold msPerDay in *. lia.
Qed.

Lemma setFullYear_next t :
  365 * msPerDay <= setFullYear t (getFullYear t + 1) - t <= 366 * msPerDay.
Proof.
  destruct (date_fields t) as (Hm & _ & Hday). destruct (time_split t) as [Ht _].
  rewrite days_from_civil_day in Hday.
  pose proof (monthFacts (getFullYear t) (getMonth t + 1) Hm) as (_ & Hlen & _).
  unfold setFullYear, MakeDate. rewrite MakeDay_in_year by lia.
  unfold msPerDay in *. lia.
Qed.

(** X8. [getNextPeriodDate] moves every date forward by exactly one day for
    [day], exactly seven days for [week], by the length of the date's month
    (28 to 31 days) for [month] and by 365 or 366 days for [year]; for any
    other period it returns the date itself. *)
Theorem X8_next_period_date t :
  getNextPeriodDate t "day" = t + msPerDay /\
  getNextPeriodDate t "week" = t + 7 * msPerDay /\
  28 * msPerDay <= getNextPeriodDate t "month" - t <= 31 * msPerDay /\
  365 * msPerDay <= getNextPeriodDate t "year" - t <= 366 * msPerDay /\
  forall period,
    period ∈ ["day"; "week"; "month"; "year"] \/ getNextPeriodDate t period = t.
Proof.
  split; [|split; [|split; [|split]]].
  - change (getNextPeriodDate t "day") with (setDate t (getDate t + 1)).
    rewrite setDate_shift. lia.
  - change (getNextPeriodDate t "week") with (setDate t (getDate t + 7)).
    by rewrite setDate_shift.
  - apply setMonth_next.
  - apply setFullYear_next.
  - intros period. unfold getNextPeriodDate.
    destruct (String.eqb period "day") eqn:Ed;
      [apply String.eqb_eq in Ed as ->; left; set_solver|].
    destruct (String.eqb period "week") eqn:Ew;
      [apply String.eqb_eq in Ew as ->; left; set_solver|].
    destruct (String.eqb period "month") eqn:Em;
      [apply String.eqb_eq in Em as ->; left; set_solver|].
    destruct (String.eqb period "year") eqn:Ey;
      [apply String.eqb_eq in Ey as ->; left; set_solver|].
    by right.
Qed.

(** * More on the trend *)

Lemma op_month_range t : 1 <= op_month t <= 12.
Proof. unfold op_month. by destruct (date_fields t) as (? & _). Qed.

Lemma op_dayOfYear_range t : 1 <= op_dayOfYear t <= 366.
Proof.
  unfold op_dayOfYear. destruct (date_fields t) as (Hm & Hd & Hday).
  rewrite days_from_civil_day in Hday.
  pose proof (monthFacts (getFullYear t) (getMonth t + 1) Hm) as (_ & _ & Hoff). lia.
Qed.

Lemma op_week_range t : 0 <= op_week t <= 53.
Proof.
  unfold op_week, getDay. pose proof (op_dayOfYear_range t) as Hd.
  pose proof (Z.mod_pos_bound (Day t + 4) 7 ltac:(lia)) as Hw.
  split.
  - apply Z.div_pos; lia.
  - apply Z.lt_succ_r, Z.div_lt_upper_bound; lia.
Qed.

Lemma getFullYear_range t :
  0 <= t < utc 10000 1 1 0 -> 0 <= getFullYear t <= 10000.
Proof.
  intros Ht. unfold getFullYear.
  assert (0 <= Day t < 2932897) as HD.
  { unfold Day, msPerDay.
    change (utc 10000 1 1 0) with (2932897 * 86400000) in Ht.
    split; [apply Z.div_pos; lia | apply Z.div_lt_upper_bound; lia]. }
  unfold civil_from_days.
  set (z' := Day t + 719468). set (era := z' / 146097). set (doe := z' - era * 146097).
  assert (0 <= doe < 146097) as Hdoe.
  { subst doe era. pose proof (Z.mod_pos_bound z' 146097 ltac:(lia)) as H.
    rewrite Z.mod_eq in H by lia. lia. }
  assert (0 <= era <= 24) as Hera.
  { subst era z'. split; [apply Z.div_pos; lia|].
    apply Z.lt_succ_r, Z.div_lt_upper_bound; lia. }
  pose proof (civilFieldsInRange_all doe Hdoe) as Hc. unfold civilFieldsInRange in Hc.
  set (yoe := (doe - doe / 1460 + doe / 36524 - doe / 146096) / 365) in *.
  rewrite !andb_true_iff, !Z.leb_le in Hc.
  destruct Hc as (((((Hy0 & Hy1) & _) & _) & _) & _).
  cbn [fst]. match goal with |- context [if ?b then _ else _] => destruct b end; lia.
Qed.

Lemma periodKey_month period fb :
  period <> "day" -> period <> "week" -> period <> "year" ->
  periodKey period fb = op_month (createdAt fb).
Proof.
  intros Hd Hw Hy. unfold periodKey. by rewrite getDateGrouping_default.
Qed.

Lemma periodKey_cases period fb :
  periodKey period fb = op_dayOfYear (createdAt fb)
  \/ periodKey period fb = op_week (createdAt fb)
  \/ periodKey period fb = op_year (createdAt fb)
  \/ periodKey period fb = op_month (createdAt fb).
Proof.
  destruct (String.eqb period "day") eqn:Ed;
    [apply String.eqb_eq in Ed as ->; by left|].
  destruct (String.eqb period "week") eqn:Ew;
    [apply String.eqb_eq in Ew as ->; right; by left|].
  destruct (String.eqb period "year") eqn:Ey;
    [apply String.eqb_eq in Ey as ->; right; right; by left|].
  apply String.eqb_neq in Ed, Ew, Ey. right; right; right.
  by apply periodKey_month.
Qed.

(** Every bucket of the first aggregation has the key of one of the
    records. *)
Lemma trendGroups_key period s b :
  b ∈ trendGroups period s ->
  exists fb, fb ∈ unwindFeedback s /\ periodKey period fb = bucket_id b.
Proof.
  intros Hb. destruct (trendGroups_spec period s) as (_ & _ & Hstats & _).
  destruct (Hstats b Hb) as (Hne & _). unfold membersOf in Hne.
  destruct (filter _ (unwindFeedback s)) as [|fb l] eqn:E; [done|].
  assert (fb ∈ filter (fun fb => periodKey period fb = bucket_id b) (unwindFeedback s))
    as Hin by (rewrite E; by left).
  apply list_elem_of_filter in Hin as [? ?]. by exists fb.
Qed.

Lemma strictly_sorted_length lo hi l :
  StronglySorted idLt l -> Forall (fun b => lo <= bucket_id b <= hi) l ->
  Z.of_nat (length l) <= Z.max 0 (hi - lo + 1).
Proof.
  intros Hs. revert lo. induction Hs as [|b l Hs IH Hb]; intros lo Hall; [cbn; lia|].
  apply Forall_cons in Hall as [Hb0 Hall].
  assert (Forall (fun c => lo + 1 <= bucket_id c <= hi) l) as Hl.
  { rewrite Forall_forall in *. intros c Hc.
    specialize (Hb c Hc). specialize (Hall c Hc). unfold idLt in Hb. lia. }
  specialize (IH (lo + 1) Hl). cbn [length]. lia.
Qed.

Section TrendMore.

Variable cls : list HfCall -> string -> Res (list SentimentItem).
Variable sample : nat -> list Feedback -> list Feedback.

(** When no bucket's sample holds a record, the route returns the groups as
    they are, with empty sentiment, and calls nothing. *)
Lemma satisfactionTrend_quiet query_period w :
  reachable (store w) = true ->
  let period := default "month" query_period in
  (forall g, g ∈ trendGroups period (store w) ->
     sample 10%nat (sentimentWindow period g (store w)) = []) ->
  satisfactionTrend cls sample query_period w
  = (Ok {| status := 200;
           body := Trend period (map withoutSentiment (trendGroups period (store w))) |},
     w).
Proof.
  intros Hr period Hquiet. unfold satisfactionTrend. fold period.
  erewrite try_ok; [done|]. erewrite bind_ok by by apply storeQuery_ok.
  erewrite (bind_ok _ _ w (map withoutSentiment (trendGroups period (store w))) w);
    [done|].
  revert Hquiet. generalize (trendGroups period (store w)).
  induction l as [|g l IH]; intros Hquiet; [done|].
  cbn [promiseAll map].
  erewrite (bind_ok _ _ w (withoutSentiment g) w).
  - erewrite bind_ok; [done|]. apply IH. intros g' Hg'. apply Hquiet. by right.
  - erewrite bind_ok by by apply storeQuery_ok.
    fold (sentimentWindow period g (store w)). rewrite Hquiet by by left.
    reflexivity.
Qed.

End TrendMore.

Lemma periodKey_small period fb :
  0 <= createdAt fb < utc 10000 1 1 0 -> 0 <= periodKey period fb < msPerDay.
Proof.
  intros Ht. unfold msPerDay.
  pose proof (op_dayOfYear_range (createdAt fb)).
  pose proof (op_week_range (createdAt fb)).
  pose proof (op_month_range (createdAt fb)).
  pose proof (getFullYear_range (createdAt fb) Ht).
  destruct (periodKey_cases period fb) as [-> | [-> | [-> | ->]]];
    unfold op_year; lia.
Qed.

(** X9. Over a reachable store whose feedback is dated from 1972 to the year
    9999, and with a sampler that draws from the matched documents only, the
    trend route never classifies a comment: for every period it returns the
    groups of the first aggregation with all-zero sentiment counts and
    leaves the world, call log included, as it was. *)
Theorem X9_trend_never_classifies cls sample query_period w :
  sampler sample ->
  reachable (store w) = true ->
  Forall (fun fb => utc 1972 1 1 0 <= createdAt fb < utc 10000 1 1 0)
    (unwindFeedback (store w)) ->
  let period := default "month" query_period in
  satisfactionTrend cls sample query_period w
  = (Ok {| status := 200;
           body := Trend period (map withoutSentiment (trendGroups period (store w))) |},
     w).
Proof.
  intros Hsample Hr Hdates period.
  apply satisfactionTrend_quiet; [done|]. intros g Hg. fold period in Hg.
  destruct (trendGroups_key period (store w) g Hg) as (fb & Hfb & Hkey).
  rewrite Forall_forall in Hdates. pose proof (Hdates fb Hfb) as Hfbd.
  rewrite sentimentWindow_empty.
  - destruct (Hsample 10%nat []) as [_ Hnil%submseteq_nil_r]. done.
  - rewrite <- Hkey. apply periodKey_small.
    change (utc 1972 1 1 0) with 63072000000 in Hfbd. lia.
  - apply Forall_forall. intros fb' Hfb'. by apply Hdates.
Qed.

Lemma X9_witness :
  sampler take /\ reachable (store (worldOf demoStore)) = true /\
  satisfactionTrend demoClassifier take (Some "day") (worldOf demoStore)
  = (Ok {| status := 200;
           body := Trend "day"
                     (map withoutSentiment (trendGroups "day" (store (worldOf demoStore)))) |},
     worldOf demoStore).
Proof.
  split; [exact take_sampler|]. split; [reflexivity|].
  apply (X9_trend_never_classifies demoClassifier take (Some "day") (worldOf demoStore)
           take_sampler eq_refl).
  apply (bool_decide_unpack _). by vm_compute.
Defined.

(** X10. Grouping by month conflates the years: for the period [month], for
    an absent period and for any period other than [day], [week] and [year],
    the trend has at most 12 buckets and their keys are month numbers from 1
    to 12, however many years the feedback spans. The keys for [day] lie in
    1..366 and those for [week] in 0..53. *)
Theorem X10_trend_key_ranges cls sample query_period w :
  reachable (store w) = true ->
  let period := default "month" query_period in
  exists data w',
    satisfactionTrend cls sample query_period w
    = (Ok {| status := 200; body := Trend period data |}, w') /\
    (period = "day" -> Forall (fun b => 1 <= bucket_id b <= 366) data) /\
    (period = "week" -> Forall (fun b => 0 <= bucket_id b <= 53) data) /\
    (period <> "day" -> period <> "week" -> period <> "year" ->
     Forall (fun b => 1 <= bucket_id b <= 12) data /\ (length data <= 12)%nat).
Proof.
  intros Hr period.
  destruct (satisfactionTrend_run cls sample query_period w Hr)
    as (data & w' & Hrun & _ & HF).
  fold period in Hrun, HF. apply bucketOf_ids in HF.
  exists data, w'. split; [done|].
  assert (forall b, b ∈ data ->
            exists fb, periodKey period fb = bucket_id b) as Hkey.
  { intros b Hb. destruct (Forall2_elem_r _ _ _ _ HF Hb) as (g & Hg & Hid & _).
    destruct (trendGroups_key period (store w) g Hg) as (fb & _ & Hfb).
    exists fb. congruence. }
  split; [|split].
  - intros Hp. apply Forall_forall. intros b Hb. destruct (Hkey b Hb) as (fb & <-).
    rewrite Hp. apply op_dayOfYear_range.
  - intros Hp. apply Forall_forall. intros b Hb. destruct (Hkey b Hb) as (fb & <-).
    rewrite Hp. apply op_week_range.
  - intros Hd Hw Hy.
    assert (Forall (fun b => 1 <= bucket_id b <= 12) data) as Hall.
    { apply Forall_forall. intros b Hb. destruct (Hkey b Hb) as (fb & <-).
      rewrite periodKey_month by done. apply op_month_range. }
    split; [done|].
    assert (StronglySorted idLt data) as Hs.
    { eapply same_ids_sorted; [|apply trendGroups_spec].
      eapply Forall2_impl; [exact HF|]. by intros g b (? & _). }
    pose proof (strictly_sorted_length 1 12 data Hs Hall). lia.
Qed.

Lemma X10_witness :
  reachable (store (worldOf januaryStore)) = true /\
  exists data w',
    satisfactionTrend demoClassifier take None (worldOf januaryStore)
    = (Ok {| status := 200; body := Trend "month" data |}, w') /\
    Forall (fun b => 1 <= bucket_id b <= 12) data /\ (length data <= 12)%nat.
Proof.
  split; [reflexivity|].
  destruct (X10_trend_key_ranges demoClassifier take None (worldOf januaryStore) eq_refl)
    as (data & w' & Hrun & _ & _ & Hmonth).
  exists data, w'. split; [exact Hrun|].
  apply Hmonth; discriminate.
Defined.

Lemma groupInsert_total k r g :
  sum_list (map (fun p => length (snd p)) (groupInsert k r g))
  = S (sum_list (map (fun p => length (snd p)) g)).
Proof.
  induction g as [|[k0 rs] g IH]; [done|]. cbn [groupInsert].
  destruct (k =? k0); cbn [map sum_list snd].
  - rewrite length_app. cbn. lia.
  - rewrite IH. lia.
Qed.

Lemma groupByKey_total key docs :
  sum_list (map (fun p => length (snd p)) (groupByKey key docs)) = length docs.
Proof.
  induction docs as [|fb docs IH] using rev_ind; [done|].
  rewrite groupByKey_snoc, groupInsert_total, IH, length_app. cbn. lia.
Qed.

Lemma totalCount_insert b l : totalCount (insertBucket b l) = (bucket_count b + totalCount l)%nat.
Proof.
  unfold totalCount. induction l as [|c l IH]; [done|]. cbn [insertBucket].
  destruct (bucket_id b <=? bucket_id c); [done|].
  cbn [map sum_list] in *. rewrite IH. lia.
Qed.

Lemma totalCount_sort l : totalCount (sortBuckets l) = totalCount l.
Proof.
  induction l as [|b l IH]; [done|]. cbn [sortBuckets fold_right].
  fold (sortBuckets l). rewrite totalCount_insert, IH. done.
Qed.

Lemma sortedGroups_total period s :
  totalCount (sortedGroups period s) = length (unwindFeedback s).
Proof.
  unfold sortedGroups. rewrite totalCount_sort. unfold totalCount.
  rewrite map_map. cbn. apply groupByKey_total.
Qed.

Lemma totalCount_take n l : (totalCount (take n l) <= totalCount l)%nat.
Proof.
  unfold totalCount. revert n. induction l as [|b l IH]; intros [|n]; cbn; try lia.
  specialize (IH n). lia.
Qed.

Lemma totalCount_same groups data :
  Forall2 (fun g b => bucket_count b = bucket_count g) groups data ->
  totalCount data = totalCount groups.
Proof.
  unfold totalCount. induction 1 as [|g b groups data H _ IH]; [done|].
  cbn. by rewrite H, IH.
Qed.

(** X11. Every bucket of the trend counts at least one record, and the
    buckets together never count more records than the store holds; when
    fewer than 30 buckets are returned every record is counted exactly
    once. *)
Theorem X11_trend_counts cls sample query_period w :
  reachable (store w) = true ->
  exists data w',
    satisfactionTrend cls sample query_period w
    = (Ok {| status := 200; body := Trend (default "month" query_period) data |}, w') /\
    Forall (fun b => (1 <= bucket_count b)%nat) data /\
    (totalCount data <= length (unwindFeedback (store w)))%nat /\
    ((length data < 30)%nat -> totalCount data = length (unwindFeedback (store w))).
Proof.
  intros Hr. set (period := default "month" query_period).
  destruct (satisfactionTrend_run cls sample query_period w Hr)
    as (data & w' & Hrun & _ & HF).
  fold period in Hrun, HF. apply bucketOf_ids in HF.
  exists data, w'. split; [done|].
  assert (totalCount data = totalCount (trendGroups period (store w))) as Htotal.
  { apply totalCount_same. eapply Forall2_impl; [exact HF|]. by intros g b (_ & _ & ?). }
  split; [|split].
  - apply Forall_forall. intros b Hb.
    destruct (Forall2_elem_r _ _ _ _ HF Hb) as (g & Hg & _ & _ & ->).
    destruct (trendGroups_spec period (store w)) as (_ & _ & Hstats & _).
    destruct (Hstats g Hg) as (Hne & -> & _).
    destruct (membersOf _ _ _); [done | cbn; lia].
  - rewrite Htotal, trendGroups_take, <- (sortedGroups_total period (store w)).
    apply totalCount_take.
  - intros Hlen. rewrite Htotal, trendGroups_take.
    rewrite <- (Forall2_length _ _ _ HF), trendGroups_take, length_take in Hlen.
    rewrite take_ge by lia. apply sortedGroups_total.
Qed.

Lemma X11_witness :
  reachable (store (worldOf demoStore)) = true /\
  exists data w',
    satisfactionTrend demoClassifier take (Some "day") (worldOf demoStore)
    = (Ok {| status := 200; body := Trend "day" data |}, w') /\
    totalCount data = 5%nat.
Proof.
  split; [reflexivity|].
  destruct (X11_trend_counts demoClassifier take (Some "day") (worldOf demoStore) eq_refl)
    as (data & w' & Hrun & _ & _ & Hall).
  exists data, w'. split; [exact Hrun|].
  rewrite Hall; [reflexivity|].
  vm_compute in Hrun. injection Hrun as <- _. cbn. lia.
Defined.

(** * The reply route *)

Lemma find_split {A} (p : A -> bool) l x :
  List.find p l = Some x ->
  exists before after,
    l = before ++ x :: after /\ Forall (fun y => p y = false) before /\ p x = true.
Proof.
  induction l as [|y l IH]; [done|]. cbn. destruct (p y) eqn:E.
  - intros [= ->]. by exists [], l.
  - intros H. destruct (IH H) as (before & after & -> & Hb & Hx).
    exists (y :: before), after. split; [done|]. split; [by constructor | done].
Qed.

Lemma find_app_skip {A} (p : A -> bool) before x after :
  Forall (fun y => p y = false) before -> p x = true ->
  List.find p (before ++ x :: after) = Some x.
Proof.
  induction 1 as [|y l Hy _ IH]; cbn; intros Hx; [by rewrite Hx|].
  rewrite Hy. by apply IH.
Qed.

Lemma replaceItem_split doc before item after :
  Forall (fun y => String.eqb (item_id y) (item_id doc) = false) before ->
  item_id item = item_id doc ->
  replaceItem doc (before ++ item :: after) = before ++ doc :: after.
Proof.
  induction 1 as [|y l Hy _ IH]; cbn; intros Hi.
  - by rewrite Hi, String.eqb_refl.
  - rewrite Hy. by rewrite IH.
Qed.

Lemma updateFeedback_split feedbackId f before fb after :
  Forall (fun y => String.eqb (fb_id y) feedbackId = false) before ->
  fb_id fb = feedbackId ->
  updateFeedback feedbackId f (before ++ fb :: after) = before ++ f fb :: after.
Proof.
  induction 1 as [|y l Hy _ IH]; cbn; intros Hi.
  - by rewrite Hi, String.eqb_refl.
  - rewrite Hy. by rewrite IH.
Qed.

Section ReplyProperties.

Variable isValid : string -> bool.

Lemma addFeedbackReply_invalid foodItemId feedbackId r w :
  isValid foodItemId = false \/ isValid feedbackId = false ->
  addFeedbackReply isValid foodItemId feedbackId r w
  = (Ok {| reply_status := 400;
           reply_body := ReplyFailure "Invalid food item or feedback ID" |}, w).
Proof.
  intros H. unfold addFeedbackReply.
  assert (negb (isValid foodItemId) || negb (isValid feedbackId) = true) as ->; [|done].
  destruct H as [-> | ->]; [done | apply orb_true_r].
Qed.

Lemma addFeedbackReply_valid foodItemId feedbackId r w :
  isValid foodItemId = true -> isValid feedbackId = true ->
  addFeedbackReply isValid foodItemId feedbackId r w
  = if reachable (store w) then
      match List.find (fun item => String.eqb (item_id item) foodItemId)
              (foodItems (store w)) with
      | None => (Ok {| reply_status := 404;
                       reply_body := ReplyFailure "Food item not found" |}, w)
      | Some foodItem =>
          match List.find (fun fb => String.eqb (fb_id fb) feedbackId)
                  (feedback foodItem) with
          | None => (Ok {| reply_status := 404;
                           reply_body := ReplyFailure "Feedback not found" |}, w)
          | Some fb =>
              (Ok {| reply_status := 200;
                     reply_body := ReplyAdded "Reply added successfully"
                       {| rf_id := fb_id fb; rf_comment := comment fb;
                          rf_rating := rating fb; rf_reply := r;
                          rf_repliedAt := clock w |} |},
               {| store := repliedStore foodItemId feedbackId r (clock w) (store w);
                  clock := clock w; hfCalls := hfCalls w |})
          end
      end
    else (Ok {| reply_status := 500;
                reply_body := ReplyFailure "Failed to add reply to feedback" |}, w).
Proof.
  intros Hv1 Hv2. unfold addFeedbackReply. rewrite Hv1, Hv2. cbn [negb orb].
  unfold try_catch, mbind, M_bind, storeQuery, newDate, FoodItem_save, repliedStore.
  destruct (reachable (store w)) eqn:Hr; [|done].
  destruct (List.find _ (foodItems (store w))) as [foodItem|]; [|done].
  destruct (List.find _ (feedback foodItem)) as [fb|]; [|done].
  cbn. by rewrite Hr.
Qed.


End ReplyProperties.

Section ReplyEffects.

Variable isValid : string -> bool.

(** X13. A reply to an existing feedback entry, with well-formed ids and a
    reachable store, is answered with 200 and the entry's id, comment and
    rating, the reply and the current time. In the store the first feedback
    entry with that id in the first food item with that id carries the
    reply, and the current time as [repliedAt]; its id, author, rating,
    comment, creation time and [resolved] flag, every other entry, every
    other item, the orders and the users are as before, and nothing else
    changes. *)
Theorem X13_reply_effect foodItemId feedbackId r w
    itemsBefore item itemsAfter before fb after :
  isValid foodItemId = true -> isValid feedbackId = true ->
  reachable (store w) = true ->
  foodItems (store w) = itemsBefore ++ item :: itemsAfter ->
  Forall (fun i => item_id i <> foodItemId) itemsBefore -> item_id item = foodItemId ->
  feedback item = before ++ fb :: after ->
  Forall (fun f => fb_id f <> feedbackId) before -> fb_id fb = feedbackId ->
  let replied :=
    {| fb_id := fb_id fb; fb_userId := fb_userId fb; rating := rating fb;
       comment := comment fb; createdAt := createdAt fb; reply := r;
       repliedAt := Some (clock w); resolved := resolved fb |} in
  addFeedbackReply isValid foodItemId feedbackId r w
  = (Ok {| reply_status := 200;
           reply_body := ReplyAdded "Reply added successfully"
             {| rf_id := feedbackId; rf_comment := comment fb; rf_rating := rating fb;
                rf_reply := r; rf_repliedAt := clock w |} |},
     {| store :=
          {| reachable := true;
             foodItems :=
               itemsBefore
               ++ {| item_id := foodItemId; item_name := item_name item;
                     feedback := before ++ replied :: after |} :: itemsAfter;
             orders := orders (store w); users := users (store w) |};
        clock := clock w; hfCalls := hfCalls w |}).
Proof.
  intros Hv1 Hv2 Hr Hitems HiB Hi Hfbs HfB Hf replied.
  assert (Forall (fun i => String.eqb (item_id i) foodItemId = false) itemsBefore) as HiB'.
  { eapply Forall_impl; [exact HiB|]. intros i. by apply String.eqb_neq. }
  assert (Forall (fun f => String.eqb (fb_id f) feedbackId = false) before) as HfB'.
  { eapply Forall_impl; [exact HfB|]. intros f. by apply String.eqb_neq. }
  assert (repliedStore foodItemId feedbackId r (clock w) (store w)
          = {| reachable := true;
               foodItems := itemsBefore
                 ++ {| item_id := foodItemId; item_name := item_name item;
                       feedback := before ++ replied :: after |} :: itemsAfter;
               orders := orders (store w); users := users (store w) |}) as Hstore.
  { unfold repliedStore. rewrite Hitems.
    rewrite (find_app_skip _ itemsBefore item itemsAfter HiB')
      by by apply String.eqb_eq.
    rewrite replaceItem_split; [|by rewrite Hi|done].
    by rewrite Hfbs, updateFeedback_split, Hi, Hr. }
  rewrite addFeedbackReply_valid by done. rewrite Hr, Hitems.
  rewrite (find_app_skip _ itemsBefore item itemsAfter HiB')
    by by apply String.eqb_eq.
  rewrite Hfbs, (find_app_skip _ before fb after HfB') by by apply String.eqb_eq.
  by rewrite Hstore, Hf.
Qed.

End ReplyEffects.

Lemma X13_witness :
  exists w',
    addFeedbackReply demoIsValid pastaId replyTargetId (Some "Sorry to hear that")
      (worldOf replyStore)
    = (Ok {| reply_status := 200;
             reply_body := ReplyAdded "Reply added successfully"
               {| rf_id := replyTargetId; rf_comment := "bad"; rf_rating := 1;
                  rf_reply := Some "Sorry to hear that";
                  rf_repliedAt := clock (worldOf replyStore) |} |}, w') /\
    map repliedAt (flat_map feedback (foodItems (store w')))
    = [None; Some (clock (worldOf replyStore))].
Proof.
  eexists. split.
  - apply (X13_reply_effect demoIsValid pastaId replyTargetId
             (Some "Sorry to hear that") (worldOf replyStore)
             [] _ []
             [feedbackBy (Some alice) "64b0000000000000000000e1" 5 "great" (utc 2024 3 1 12)]
             (feedbackBy None replyTargetId 1 "bad" (utc 2024 3 2 12)) []
             eq_refl eq_refl eq_refl eq_refl ltac:(constructor) eq_refl eq_refl
             ltac:(repeat constructor; discriminate) eq_refl).
  - reflexivity.
Defined.

(** * What a reply leaves alone *)

Lemma sameViews_facts l l' :
  sameViews l l' ->
  length l = length l' /\ map rating l = map rating l' /\ map comment l = map comment l'
  /\ map createdAt l = map createdAt l' /\ map fb_userId l = map fb_userId l'.
Proof.
  unfold sameViews. revert l'. induction l as [|fb l IH]; intros [|fb' l'] H; try done.
  cbn in H. injection H as ? ? ? ? Hl. destruct (IH l' Hl) as (? & ? & ? & ? & ?).
  cbn. by repeat split; f_equal.
Qed.

Lemma sameViews_refl l : sameViews l l.
Proof. done. Qed.

Lemma sameViews_app l1 l1' l2 l2' :
  sameViews l1 l1' -> sameViews l2 l2' -> sameViews (l1 ++ l2) (l1' ++ l2').
Proof. unfold sameViews. intros H1 H2. by rewrite !map_app, H1, H2. Qed.

Lemma sameViews_filter_author id l l' :
  sameViews l l' ->
  sameViews (filter (fun fb => authoredBy id fb) l) (filter (fun fb => authoredBy id fb) l')
  /\ existsb (authoredBy id) l = existsb (authoredBy id) l'.
Proof.
  unfold sameViews. revert l'. induction l as [|fb l IH]; intros [|fb' l'] H; try done.
  cbn in H. injection H as Hu Hr Hc Hd Hl. destruct (IH l' Hl) as [IHf IHe].
  assert (authoredBy id fb = authoredBy id fb') as Ha.
  { unfold authoredBy. by rewrite Hu. }
  split.
  - rewrite !filter_cons, Ha. destruct (decide (authoredBy id fb')); [|done].
    cbn. unfold analyticsView at 1 3. by rewrite Hu, Hr, Hc, Hd, IHf.
  - cbn. by rewrite Ha, IHe.
Qed.

Lemma updateFeedback_views feedbackId r now l :
  sameViews l (updateFeedback feedbackId (withReply r now) l).
Proof.
  unfold sameViews. induction l as [|fb l IH]; [done|]. cbn.
  destruct (String.eqb (fb_id fb) feedbackId); cbn; [done | by rewrite IH].
Qed.

Lemma sameItem_refl a : sameItem a a.
Proof. done. Qed.

Lemma Forall2_sameItem_refl l : Forall2 sameItem l l.
Proof. induction l; by constructor. Qed.

Lemma repliedStore_same foodItemId feedbackId r now s :
  sameForAnalytics s (repliedStore foodItemId feedbackId r now s).
Proof.
  unfold repliedStore.
  destruct (List.find _ (foodItems s)) as [item|] eqn:Hf;
    [|repeat split; apply Forall2_sameItem_refl].
  apply find_split in Hf as (before & after & Hitems & Hb & Hi).
  apply String.eqb_eq in Hi.
  repeat split; cbn. rewrite Hitems, replaceItem_split; [| by cbn; rewrite Hi | done].
  apply Forall2_app; [apply Forall2_sameItem_refl|].
  constructor; [|apply Forall2_sameItem_refl].
  split; [done|]. apply updateFeedback_views.
Qed.

(** Stores that look the same to the analytics give every request a scope
    that looks the same. *)
Lemma scopeOf_same rq s s' :
  sameForAnalytics s s' -> sameViews (scopeOf rq s) (scopeOf rq s').
Proof.
  intros (_ & _ & _ & HF). destruct rq as [|id|id]; cbn [scopeOf].
  - unfold dashboardScope. induction HF as [|a b l l' [_ Hab] _ IH]; [done|].
    rewrite !filter_cons.
    destruct (sameViews_facts _ _ Hab) as (Hlen & _). rewrite Hlen.
    destruct (decide _); [|done]. cbn [flat_map]. by apply sameViews_app.
  - unfold customerScope. induction HF as [|a b l l' [_ Hab] _ IH]; [done|].
    rewrite !filter_cons.
    destruct (sameViews_filter_author id _ _ Hab) as [Hf He]. rewrite He.
    destruct (decide _); [|done]. cbn [flat_map]. by apply sameViews_app.
  - unfold itemScope. induction HF as [|a b l l' [Hid Hab] _ IH]; [done|].
    cbn [List.find]. rewrite Hid. by destruct (String.eqb (item_id b) id).
Qed.

Lemma unwindFeedback_same s s' :
  sameForAnalytics s s' -> sameViews (unwindFeedback s) (unwindFeedback s').
Proof.
  intros (_ & _ & _ & HF). unfold unwindFeedback.
  induction HF as [|a b l l' [_ Hab] _ IH]; [done|]. cbn. by apply sameViews_app.
Qed.

Lemma groupByKey_same (g : Z -> Z) docs docs' :
  sameViews docs docs' ->
  groupByKey (fun fb => g (createdAt fb)) docs = groupByKey (fun fb => g (createdAt fb)) docs'.
Proof.
  unfold groupByKey, sameViews. generalize (@nil (Z * list Z)).
  revert docs'. induction docs as [|fb docs IH]; intros [|fb' docs'] acc H; try done.
  cbn in H. injection H as _ Hr _ Hc Hl.
  cbn. rewrite Hr, Hc. by apply IH.
Qed.

Lemma trendGroups_same period s s' :
  sameForAnalytics s s' -> trendGroups period s = trendGroups period s'.
Proof.
  intros H. unfold trendGroups.
  by rewrite (groupByKey_same _ _ _ (unwindFeedback_same s s' H)).
Qed.

(** * Replies and the analytics *)

Section ReplyAndAnalytics.

Variable cls : list HfCall -> string -> Res (list SentimentItem).
Variable isValid : string -> bool.
Variable call : string -> Res string.

Lemma buildMetrics_length fbs fbs' averageRating rs :
  length fbs = length fbs' ->
  buildMetrics fbs averageRating rs = buildMetrics fbs' averageRating rs.
Proof. intros H. unfold buildMetrics. by rewrite H. Qed.

Lemma averageFor_same rq fbs fbs' :
  sameViews fbs fbs' -> averageFor rq fbs = averageFor rq fbs'.
Proof.
  intros (Hlen & Hrat & _)%sameViews_facts. unfold averageFor.
  by rewrite Hlen, Hrat.
Qed.

Lemma recentOrdersOf_same objectId s s' :
  sameForAnalytics s s' -> recentOrdersOf objectId s' = recentOrdersOf objectId s.
Proof.
  intros (_ & Husers & Horders & _). unfold recentOrdersOf, withUser.
  by rewrite Husers, Horders.
Qed.

Lemma classifies_same rq s s' :
  sameForAnalytics s s' -> classifies isValid rq s' = classifies isValid rq s.
Proof.
  intros Hs. pose proof (scopeOf_same rq _ _ Hs) as (Hlen & _)%sameViews_facts.
  destruct Hs as (Hreach & _). unfold classifies. rewrite Hreach, Hlen.
  by destruct rq.
Qed.

Lemma scores_same rq s s' :
  sameForAnalytics s s' -> scores isValid call rq s' = scores isValid call rq s.
Proof.
  intros Hs. unfold scores. rewrite (classifies_same rq s s' Hs).
  destruct rq as [|id|id]; [done..|].
  destruct (call id) as [objectId|e]; [|done].
  by rewrite (recentOrdersOf_same objectId s s' Hs).
Qed.

Lemma answerStatus_same rq s s' :
  sameForAnalytics s s' ->
  answerStatus isValid call rq s' = answerStatus isValid call rq s.
Proof.
  intros Hs. pose proof (scores_same rq s s' Hs) as Hscores.
  pose proof (scopeOf_same rq _ _ Hs) as (Hlen & _)%sameViews_facts.
  destruct Hs as (Hreach & _ & _ & HF).
  destruct rq as [|id|id]; unfold answerStatus; rewrite Hreach; [done..|].
  rewrite Hscores. cbn [scopeOf] in Hlen. unfold itemScope in Hlen.
  destruct (negb (isValid id)); [done|]. destruct (negb (reachable s)); [done|].
  assert (is_Some (List.find (fun item => String.eqb (item_id item) id) (foodItems s))
          <-> is_Some (List.find (fun item => String.eqb (item_id item) id)
                         (foodItems s'))) as Hfind.
  { clear -HF. induction HF as [|a b l l' [Hid _] _ IH]; [done|].
    cbn. rewrite Hid. by destruct (String.eqb (item_id b) id). }
  destruct (List.find _ (foodItems s)) as [a|], (List.find _ (foodItems s')) as [b|].
  - by rewrite Hlen.
  - destruct Hfind as [Hfind _]. by destruct Hfind.
  - destruct Hfind as [_ Hfind]. by destruct Hfind.
  - done.
Qed.

(** Two worlds whose stores look the same to the analytics, with the same
    log of calls, get the same status and metrics and issue the same
    calls. *)
Lemma handleAnalytics_same rq w1 w2 :
  sameForAnalytics (store w1) (store w2) -> hfCalls w2 = hfCalls w1 ->
  statusAndMetrics (fst (handleAnalytics cls isValid call rq w2))
  = statusAndMetrics (fst (handleAnalytics cls isValid call rq w1)) /\
  hfCalls (snd (handleAnalytics cls isValid call rq w2))
  = hfCalls (snd (handleAnalytics cls isValid call rq w1)).
Proof.
  intros Hs Hlog.
  destruct (handleAnalytics_closed cls isValid call rq w1) as (r1 & -> & Hs1 & Hm1).
  destruct (handleAnalytics_closed cls isValid call rq w2) as (r2 & -> & Hs2 & Hm2).
  pose proof (scopeOf_same rq _ _ Hs) as Hscope.
  destruct (sameViews_facts _ _ Hscope) as (Hlen & Hrat & Hcom & _).
  cbn [fst snd statusAndMetrics].
  rewrite Hs1, Hs2, Hm1, Hm2, (answerStatus_same rq _ _ Hs), (scores_same rq _ _ Hs),
    (classifies_same rq _ _ Hs), Hlog.
  rewrite <- (averageFor_same rq _ _ Hscope), <- Hcom.
  rewrite (buildMetrics_length _ _ _ _ (eq_sym Hlen)).
  split; [done|]. unfold classifierInputs. rewrite <- Hcom.
  destruct (classifies isValid rq (store w1)); cbn; by rewrite Hlog.
Qed.

Variable isValidReply : string -> bool.

Lemma addFeedbackReply_same foodItemId feedbackId r w :
  let w' := snd (addFeedbackReply isValidReply foodItemId feedbackId r w) in
  sameForAnalytics (store w) (store w') /\ hfCalls w' = hfCalls w /\ clock w' = clock w.
Proof.
  assert (sameForAnalytics (store w) (store w)) as Hrefl.
  { repeat split. apply Forall2_sameItem_refl. }
  destruct (isValidReply foodItemId) eqn:Hv1.
  2: { rewrite addFeedbackReply_invalid by by left. done. }
  destruct (isValidReply feedbackId) eqn:Hv2.
  2: { rewrite addFeedbackReply_invalid by by right. done. }
  rewrite addFeedbackReply_valid by done.
  destruct (reachable (store w)); [|done].
  destruct (List.find _ (foodItems (store w))) as [foodItem|]; [|done].
  destruct (List.find _ (feedback foodItem)) as [fb|]; [|done].
  cbn. split; [|done]. apply repliedStore_same.
Qed.

(** X14. A reply changes no metric. Whatever the reply route did with a
    request, each of the three satisfaction routes answers afterwards with
    the status and the metrics block it would have answered with before,
    issuing the same classifier calls, and the trend route groups the
    feedback into the same buckets with the same averages and counts. (The
    lists of recent feedback, which the model of the responses leaves out,
    are where a reply shows.) *)
Theorem X14_reply_changes_no_metric foodItemId feedbackId r w rq period :
  let w' := snd (addFeedbackReply isValidReply foodItemId feedbackId r w) in
  statusAndMetrics (fst (handleAnalytics cls isValid call rq w'))
  = statusAndMetrics (fst (handleAnalytics cls isValid call rq w)) /\
  hfCalls (snd (handleAnalytics cls isValid call rq w'))
  = hfCalls (snd (handleAnalytics cls isValid call rq w)) /\
  trendGroups period (store w') = trendGroups period (store w).
Proof.
  intros w'.
  destruct (addFeedbackReply_same foodItemId feedbackId r w) as (Hs & Hlog & _).
  fold w' in Hs, Hlog.
  destruct (handleAnalytics_same rq w w' Hs Hlog) as [Hresp Hcalls].
  split; [done|]. split; [done|]. symmetry. by apply trendGroups_same.
Qed.

End ReplyAndAnalytics.

Section ReplyTwice.

Variable isValid : string -> bool.

Lemma repliedStore_twice foodItemId feedbackId r1 r2 t1 t2 s foodItem fb :
  List.find (fun item => String.eqb (item_id item) foodItemId) (foodItems s)
  = Some foodItem ->
  List.find (fun f => String.eqb (fb_id f) feedbackId) (feedback foodItem) = Some fb ->
  let s1 := repliedStore foodItemId feedbackId r1 t1 s in
  exists foodItem1,
    List.find (fun item => String.eqb (item_id item) foodItemId) (foodItems s1)
    = Some foodItem1 /\
    List.find (fun f => String.eqb (fb_id f) feedbackId) (feedback foodItem1)
    = Some (withReply r1 t1 fb) /\
    repliedStore foodItemId feedbackId r2 t2 s1
    = repliedStore foodItemId feedbackId r2 t2 s.
Proof.
  intros Hitem Hfb s1.
  pose proof Hitem as Hitem'.
  apply find_split in Hitem' as (itemsBefore & itemsAfter & Hitems & HiB & Hi).
  pose proof Hfb as Hfb'.
  apply find_split in Hfb' as (before & after & Hfbs & HfB & Hf).
  apply String.eqb_eq in Hi. pose proof Hf as Hf'. apply String.eqb_eq in Hf'.
  set (doc r t := {| item_id := item_id foodItem; item_name := item_name foodItem;
                     feedback := before ++ withReply r t fb :: after |}).
  assert (forall r t, repliedStore foodItemId feedbackId r t s
          = {| reachable := reachable s;
               foodItems := itemsBefore ++ doc r t :: itemsAfter;
               orders := orders s; users := users s |}) as Hstore.
  { intros r t. unfold repliedStore. rewrite Hitem, Hitems.
    rewrite replaceItem_split; [| by cbn; rewrite Hi | done].
    by rewrite Hfbs, updateFeedback_split. }
  assert (List.find (fun item => String.eqb (item_id item) foodItemId) (foodItems s1)
          = Some (doc r1 t1)) as Hitem1.
  { unfold s1. rewrite Hstore. cbn [foodItems].
    apply find_app_skip; [done|]. cbn. by apply String.eqb_eq. }
  exists (doc r1 t1). split; [done|]. split.
  - cbn [doc feedback]. by apply find_app_skip.
  - rewrite (Hstore r2 t2). unfold repliedStore at 1. rewrite Hitem1.
    unfold s1. rewrite (Hstore r1 t1). cbn [foodItems reachable orders users doc feedback item_id item_name].
    rewrite replaceItem_split; [| by cbn; rewrite Hi | done].
    by rewrite updateFeedback_split.
Qed.

(** X15. The last reply wins. A second reply to the same feedback entry is
    answered, and leaves the store, exactly as if the first had never been
    sent; a request that fails a first time fails the same way again. *)
Theorem X15_last_reply_wins foodItemId feedbackId r1 r2 t w :
  addFeedbackReply isValid foodItemId feedbackId r2
    (atTime t (snd (addFeedbackReply isValid foodItemId feedbackId r1 w)))
  = addFeedbackReply isValid foodItemId feedbackId r2 (atTime t w).
Proof.
  destruct (isValid foodItemId) eqn:Hv1.
  2: { by rewrite !addFeedbackReply_invalid by by left. }
  destruct (isValid feedbackId) eqn:Hv2.
  2: { by rewrite !addFeedbackReply_invalid by by right. }
  rewrite (addFeedbackReply_valid _ _ _ r1 w) by done.
  destruct (reachable (store w)) eqn:Hr; [|done].
  destruct (List.find _ (foodItems (store w))) as [foodItem|] eqn:Hitem; [|done].
  destruct (List.find _ (feedback foodItem)) as [fb|] eqn:Hfb; [|done].
  destruct (repliedStore_twice foodItemId feedbackId r1 r2 (clock w) t (store w)
              foodItem fb Hitem Hfb)
    as (foodItem1 & Hitem1 & Hfb1 & Hstore).
  rewrite !addFeedbackReply_valid by done. cbn [snd atTime store clock hfCalls].
  rewrite Hitem1, Hfb1, Hitem, Hfb, Hstore, Hr.
  assert (reachable (repliedStore foodItemId feedbackId r1 (clock w) (store w)) = true)
    as ->.
  { unfold repliedStore. by rewrite Hitem. }
  done.
Qed.

End ReplyTwice.

(** * Properties of the chef route *)

Lemma insertOrder_perm o l : insertOrder o l ≡ₚ o :: l.
Proof.
  induction l as [|p l IH]; [done|]. cbn.
  destruct (order_createdAt o <=? order_createdAt p); [done|].
  rewrite IH. apply Permutation_swap.
Qed.

Lemma sortByCreatedAt_perm l : sortByCreatedAt l ≡ₚ l.
Proof.
  induction l as [|o l IH]; [done|]. cbn. rewrite insertOrder_perm. by f_equiv.
Qed.



Lemma toUpperCase_pending : toUpperCase "pending" = "PENDING".
Proof. reflexivity. Qed.

Lemma toUpperCase_preparing : toUpperCase "preparing" = "PREPARING".
Proof. reflexivity. Qed.

Lemma inStatusFilter_cases o :
  inStatusFilter o = true <-> order_status o = "pending" \/ order_status o = "preparing".
Proof.
  unfold inStatusFilter, statusFilter. cbn [existsb].
  rewrite !orb_true_iff, !String.eqb_eq. split; [|tauto].
  intros [H | [H | H]]; [by left | by right | discriminate].
Qed.

Section ChefProperties.

Variable cls : list HfCall -> string -> Res (list SentimentItem).
Variable sum gen : list HfCall -> string -> Res string.
Variable fmtDate fmtNum : Z -> string.
Variable fmtPct : Q -> string.

Lemma formatAll l w :
  promiseAll (formatOrder fmtNum) l w = (Ok (map (formatted fmtNum (clock w)) l), w).
Proof.
  induction l as [|p l IH]; [done|]. cbn [promiseAll map].
  erewrite (bind_ok _ _ w (formatted fmtNum (clock w) p) w) by done.
  by erewrite bind_ok by exact IH.
Qed.

Lemma chefOrders_unreachable analyze w :
  reachable (store w) = false ->
  chefOrders cls sum gen fmtDate fmtNum fmtPct analyze w
  = (Ok {| chef_status := 500; chef_body := ChefFailure "Failed to process orders" |}, w).
Proof.
  intros Hr. unfold chefOrders.
  erewrite try_throw; [done|]. erewrite bind_throw; [done|]. by apply storeQuery_fail.
Qed.

Lemma chefOrders_plain analyze w :
  reachable (store w) = true -> analyze <> Some "true" ->
  chefOrders cls sum gen fmtDate fmtNum fmtPct analyze w = (Ok {| chef_status := 200; chef_body := ChefOrders (listing fmtNum w) |}, w).
Proof.
  intros Hr Ha. unfold chefOrders.
  erewrite try_ok; [done|]. erewrite bind_ok by by apply storeQuery_ok.
  erewrite bind_ok by apply formatAll.
  by rewrite bool_decide_eq_false_2 by done.
Qed.

Lemma analyseAll l w :
  exists l' w',
    promiseAll (analyseOrder cls sum gen fmtDate fmtNum fmtPct) l w = (Ok l', w') /\ readOnly w w' /\
    Forall2 (fun order order' =>
      exists a, order' = withAnalysis (Some a) order /\
                (co_user order = None -> a = guestAnalysis)) l l' /\
    (Forall (fun order => co_user order = None) l -> w' = w).
Proof.
  revert w. induction l as [|order l IH]; intros w.
  - exists [], w. split; [done|]. split; [apply readOnly_refl|]. by split.
  - assert (exists a w1, analyseOrder cls sum gen fmtDate fmtNum fmtPct order w = (Ok (withAnalysis (Some a) order), w1) /\
              readOnly w w1 /\ (co_user order = None -> a = guestAnalysis /\ w1 = w))
      as (a & w1 & Ha & Hro1 & Hguest).
    { unfold analyseOrder. destruct (co_user order) as [user|].
      - destruct (generateChefRecommendation_total cls sum gen fmtDate fmtNum fmtPct
                    (user_id user) (order_items (co_order order)) w)
          as (r & w1 & Hr & Hro).
        exists r, w1. split; [by erewrite bind_ok by exact Hr|]. by split.
      - exists guestAnalysis, w. split; [done|]. split; [apply readOnly_refl | done]. }
    destruct (IH w1) as (l' & w' & Hl' & Hro & HF & Hsame).
    exists (withAnalysis (Some a) order :: l'), w'.
    split; [|split; [by eapply readOnly_trans|split]].
    + cbn [promiseAll]. erewrite bind_ok by exact Ha. by erewrite bind_ok by exact Hl'.
    + constructor; [|done]. exists a. split; [done|]. intros Hn. by apply Hguest.
    + intros Hall. inversion Hall as [|? ? Hn Hrest]; subst.
      destruct (Hguest Hn) as [_ ->]. by apply Hsame.
Qed.


Lemma listing_orders w : map co_order (listing fmtNum w) ≡ₚ openOrders (store w).
Proof.
  unfold listing. rewrite !map_map. cbn. rewrite map_id. apply sortByCreatedAt_perm.
Qed.



(** X17. The analysis pass. With the store reachable and [analyze=true],
    the route answers 200 whatever the models do; it lists the same orders
    in the same order with the same fields as without analysis, each with
    an analysis, and an order without a user document gets the guest
    analysis. The store and the clock are as before, and when no listed
    order has a user document no model is called. *)
Theorem X17_chef_analysis w :
  reachable (store w) = true ->
  exists l w',
    chefOrders cls sum gen fmtDate fmtNum fmtPct (Some "true") w = (Ok {| chef_status := 200; chef_body := ChefOrders l |}, w') /\
    readOnly w w' /\
    map (withAnalysis None) l = listing fmtNum w /\
    Forall (fun order =>
      is_Some (analysis order) /\
      (co_user order = None -> analysis order = Some guestAnalysis)) l /\
    (Forall (fun order => co_user order = None) (listing fmtNum w) -> w' = w).
Proof.
  intros Hr.
  destruct (analyseAll (listing fmtNum w) w) as (l & w' & Hl & Hro & HF & Hsame).
  exists l, w'. split; [|split; [done|split; [|split; [|done]]]].
  - unfold chefOrders.
    erewrite try_ok; [done|]. erewrite bind_ok by by apply storeQuery_ok.
    erewrite bind_ok by apply formatAll.
    rewrite bool_decide_eq_true_2 by done.
    by erewrite bind_ok by exact Hl.
  - assert (Forall (fun order => analysis order = None) (listing fmtNum w)) as Hnone.
    { unfold listing. rewrite map_map. by apply Forall_map, Forall_forall. }
    clear Hl Hsame. induction HF as [|p c lp lc (a & -> & _) _ IH]; [done|].
    inversion Hnone as [|? ? Hp Hrest]; subst. cbn [map]. rewrite IH by done.
    f_equal. destruct p. cbn in Hp. by subst.
  - clear Hl Hsame. induction HF as [|p c lp lc (a & -> & Hg) _ IH]; constructor; [|done].
    cbn. split; [by eexists|]. intros Hn. by rewrite Hg.
Qed.

(** X18. The chef route answers every request: with 200 when the store is
    reachable, whatever the query says and whatever the models do, and with
    500 when it is not. It writes nothing to the store. *)
Theorem X18_chef_always_answers analyze w :
  exists resp w',
    chefOrders cls sum gen fmtDate fmtNum fmtPct analyze w = (Ok resp, w') /\
    readOnly w w' /\
    chef_status resp = (if reachable (store w) then 200 else 500) /\
    (reachable (store w) = false -> w' = w).
Proof.
  destruct (reachable (store w)) eqn:Hr.
  2: { eexists _, w. rewrite chefOrders_unreachable by done.
       split; [done|]. split; [apply readOnly_refl | done]. }
  destruct (decide (analyze = Some "true")) as [-> | Ha].
  - destruct (analyseAll (listing fmtNum w) w) as (l & w' & Hl & Hro & _).
    eexists _, w'. split.
    { unfold chefOrders.
      erewrite try_ok; [done|]. erewrite bind_ok by by apply storeQuery_ok.
      erewrite bind_ok by apply formatAll.
      rewrite bool_decide_eq_true_2 by done.
      by erewrite bind_ok by exact Hl. }
    by split.
  - eexists _, w. rewrite chefOrders_plain by done.
    split; [done|]. split; [apply readOnly_refl | done].
Qed.

(** X19. The age shown for an order placed at or before the current time:
    whole hours and minutes, the minutes below 60, that add up to the whole
    minutes elapsed. *)
Theorem X19_order_time now created :
  created <= now ->
  exists h m,
    orderTimeOf fmtNum now created = fmtNum h +:+ "h " +:+ fmtNum m +:+ "m ago" /\
    0 <= h /\ 0 <= m < 60 /\
    (60 * h + m) * 60000 <= now - created < (60 * h + m + 1) * 60000.
Proof.
  intros Hle. unfold orderTimeOf.
  set (d := diffMinutesOf now created).
  assert (0 <= d /\ d * 60000 <= now - created < (d + 1) * 60000) as [Hd Hb].
  { unfold d, diffMinutesOf. change (1000 * 60) with 60000.
    pose proof (Z.div_mod (now - created) 60000 ltac:(lia)).
    pose proof (Z.mod_pos_bound (now - created) 60000 ltac:(lia)).
    split; [apply Z.div_pos; lia | lia]. }
  exists (shownHours d), (shownMinutes d). split; [done|].
  unfold shownHours, shownMinutes. rewrite Z.rem_mod_nonneg by lia.
  pose proof (Z.div_mod d 60 ltac:(lia)).
  pose proof (Z.mod_pos_bound d 60 ltac:(lia)).
  split; [apply Z.div_pos; lia|]. split; [lia|].
  replace (60 * (d / 60) + d mod 60) with d by lia. lia.
Qed.

(** X20. The age shown for an order stamped after the current time: the
    hours are negative, the minutes are zero or negative, and unless the
    minutes are zero the two add up to an hour less than the whole minutes
    elapsed. *)
Theorem X20_order_time_ahead now created :
  now < created ->
  exists h m,
    orderTimeOf fmtNum now created = fmtNum h +:+ "h " +:+ fmtNum m +:+ "m ago" /\
    h < 0 /\ -60 < m <= 0 /\
    (m <> 0 -> 60 * h + m = diffMinutesOf now created - 60) /\
    (m = 0 -> 60 * h = diffMinutesOf now created).
Proof.
  intros Hlt. unfold orderTimeOf.
  set (d := diffMinutesOf now created).
  assert (d < 0) as Hd.
  { unfold d, diffMinutesOf. change (1000 * 60) with 60000.
    apply Z.div_lt_upper_bound; lia. }
  exists (shownHours d), (shownMinutes d). split; [done|].
  unfold shownHours, shownMinutes.
  pose proof (Z.div_mod d 60 ltac:(lia)) as Hdiv.
  pose proof (Z.mod_pos_bound d 60 ltac:(lia)) as Hmod.
  assert (-60 < Z.rem d 60 <= 0) as Hrem.
  { pose proof (Z.rem_opp_l (- d) 60 ltac:(lia)) as Ho. rewrite Z.opp_involutive in Ho.
    pose proof (Z.rem_bound_pos (- d) 60 ltac:(lia) ltac:(lia)). lia. }
  pose proof (Z.quot_rem d 60 ltac:(lia)) as Hquot.
  assert (Z.rem d 60 = 0 /\ d mod 60 = 0 \/ Z.rem d 60 = d mod 60 - 60 /\ 0 < d mod 60)
    as Hcases.
  { destruct (Z.eq_dec (d mod 60) 0) as [Hz | Hnz].
    - left. split; [|done]. apply Z.rem_divide; [lia|].
      apply Z.mod_divide; [lia | done].
    - right. split; [|lia].
      assert (Z.rem d 60 <> 0) as Hr0.
      { intros Hr0. apply Hnz. apply Z.mod_divide; [lia|].
        apply Z.rem_divide; [lia | done]. }
      assert ((d mod 60 - Z.rem d 60) mod 60 = 0) as Hm.
      { replace (d mod 60 - Z.rem d 60) with ((Z.quot d 60 - d / 60) * 60) by lia.
        apply Z.mod_mul. lia. }
      apply Z.mod_divide in Hm; [|lia]. destruct Hm as [k Hk]. lia. }
  split; [apply Z.div_lt_upper_bound; lia|]. split; [lia|]. lia.
Qed.

End ChefProperties.


Lemma X17_witness :
  exists l w',
    chefOrders demoClassifier failingModel demoGenerator demoDate demoNumber demoPercent
      (Some "true") (worldOf guestStore)
    = (Ok {| chef_status := 200; chef_body := ChefOrders l |}, w') /\
    (Forall (fun order => co_user order = None) (listing demoNumber (worldOf guestStore))
     -> w' = worldOf guestStore).
Proof.
  destruct (X17_chef_analysis demoClassifier failingModel demoGenerator demoDate
              demoNumber demoPercent (worldOf guestStore) eq_refl)
    as (l & w' & Hrun & _ & _ & _ & Hsame).
  exists l, w'. split; [exact Hrun | exact Hsame].
Defined.

Lemma X19_witness :
  exists h m,
    orderTimeOf demoNumber (utc 2024 3 6 20) (utc 2024 3 6 18)
    = demoNumber h +:+ "h " +:+ demoNumber m +:+ "m ago" /\
    0 <= h /\ 0 <= m < 60 /\
    (60 * h + m) * 60000 <= utc 2024 3 6 20 - utc 2024 3 6 18
    < (60 * h + m + 1) * 60000.
Proof. apply (X19_order_time demoNumber). by vm_compute. Defined.

Lemma X20_witness :
  exists h m,
    orderTimeOf demoNumber 0 1 = demoNumber h +:+ "h " +:+ demoNumber m +:+ "m ago" /\
    h < 0 /\ -60 < m <= 0 /\
    (m <> 0 -> 60 * h + m = diffMinutesOf 0 1 - 60) /\
    (m = 0 -> 60 * h = diffMinutesOf 0 1).
Proof. apply (X20_order_time_ahead demoNumber). lia. Defined.


(** * Status updates and the chef's listing *)

Lemma updateOrderStatus_found isValid id status w before o after :
  status ∈ validStatuses -> reachable (store w) = true ->
  orders (store w) = before ++ o :: after ->
  Forall (fun o' => order_id o' <> id) before -> order_id o = id ->
  updateOrderStatus isValid id status w
  = (Ok {| status := 200; body := OrderDoc (withStatus status (clock w) o) |},
     {| store := {| reachable := true; foodItems := foodItems (store w);
                    orders := before ++ withStatus status (clock w) o :: after;
                    users := users (store w) |};
        clock := clock w; hfCalls := hfCalls w |}).
Proof.
  intros Hv Hr Horders Hbefore Hid. apply validStatuses_existsb in Hv.
  unfold updateOrderStatus. rewrite Hv. cbn [negb].
  unfold try_catch, mbind, M_bind, newDate, Order_findByIdAndUpdate.
  rewrite Hr, Horders, (existsb_order_some id before o after) by done.
  rewrite orb_true_r. cbn [negb].
  by rewrite (updateById_some _ _ before o after) by done.
Qed.

Section KitchenQueue.

Variable cls : list HfCall -> string -> Res (list SentimentItem).
Variable sum gen : list HfCall -> string -> Res string.
Variable fmtDate fmtNum : Z -> string.
Variable fmtPct : Q -> string.
Variable isValid : string -> bool.

(** X21. A status update moves an order in or out of the chef's listing.
    After the status route has set the status of an order, the chef route
    lists the orders it listed before, this one apart, and lists this one,
    with its new status and update time, exactly when the new status is
    pending or preparing. *)
Theorem X21_status_update_and_listing id status analyze w before o after :
  status ∈ validStatuses -> reachable (store w) = true ->
  orders (store w) = before ++ o :: after ->
  Forall (fun o' => order_id o' <> id) before -> order_id o = id ->
  analyze <> Some "true" ->
  let open := fun o' : Order =>
    bool_decide (order_status o' = "pending" \/ order_status o' = "preparing") in
  let w' := snd (updateOrderStatus isValid id status w) in
  exists l,
    chefOrders cls sum gen fmtDate fmtNum fmtPct analyze w'
    = (Ok {| chef_status := 200; chef_body := ChefOrders l |}, w') /\
    map co_order l ≡ₚ
      filter (fun o' => open o') before
      ++ (if bool_decide (status = "pending" \/ status = "preparing")
          then [withStatus status (clock w) o] else [])
      ++ filter (fun o' => open o') after.
Proof.
  intros Hv Hr Horders Hbefore Hid Ha open w'.
  unfold w'. rewrite (updateOrderStatus_found isValid id status w before o after) by done.
  cbn [snd]. exists (listing fmtNum
    {| store := {| reachable := true; foodItems := foodItems (store w);
                   orders := before ++ withStatus status (clock w) o :: after;
                   users := users (store w) |};
       clock := clock w; hfCalls := hfCalls w |}).
  split; [by apply chefOrders_plain|].
  rewrite listing_orders. unfold openOrders. cbn [store orders].
  assert (forall l : list Order,
            filter (fun o1 => inStatusFilter o1) l = filter (fun o1 => open o1) l)
    as Hfilter.
  { intros l. apply list_filter_iff. intros o'. unfold open.
    rewrite bool_decide_spec, Is_true_true. apply inStatusFilter_cases. }
  rewrite Hfilter, filter_app, filter_cons.
  change (open (withStatus status (clock w) o))
    with (bool_decide (status = "pending" \/ status = "preparing")).
  destruct (bool_decide (status = "pending" \/ status = "preparing"));
    [by rewrite decide_True by done | by rewrite decide_False by (by intros [])].
Qed.

End KitchenQueue.

Lemma X21_witness :
  exists l,
    let w' := snd (updateOrderStatus demoIsValid "64b0000000000000000000c1" "completed"
                     (worldOf kitchenStore)) in
    chefOrders demoClassifier failingModel demoGenerator demoDate demoNumber demoPercent
      None w'
    = (Ok {| chef_status := 200; chef_body := ChefOrders l |}, w') /\
    map co_order l ≡ₚ [guestOrder].
Proof.
  destruct (X21_status_update_and_listing demoClassifier failingModel demoGenerator
              demoDate demoNumber demoPercent demoIsValid
              "64b0000000000000000000c1" "completed" None (worldOf kitchenStore)
              [] demoOrder [guestOrder; servedOrder]
              ltac:(apply list_elem_of_In; vm_compute; tauto) eq_refl eq_refl
              ltac:(constructor) eq_refl ltac:(discriminate))
    as (l & Hrun & Hperm).
  exists l. split; [exact Hrun | exact Hperm].
Defined.

(** * Properties of the issue count *)

Lemma prefix_spec p s : String.prefix p s = true <-> exists rest, s = p +:+ rest.
Proof.
  revert s. induction p as [|c p IH]; intros [|d s]; cbn.
  - split; [by exists EmptyString | done].
  - split; [by exists (String d s) | done].
  - split; [done | by intros [? ?]].
  - destruct (Ascii.ascii_dec c d) as [-> | Hne].
    + rewrite IH. split; intros [rest H]; exists rest; [by rewrite H | by injection H].
    + split; [done|]. intros [rest H]. injection H as H _. by destruct Hne.
Qed.

Lemma occursIn_spec word s :
  occursIn word s = true <-> exists before after, s = before +:+ word +:+ after.
Proof.
  induction s as [|c s IH]; cbn [occursIn]; rewrite orb_true_iff, prefix_spec.
  - split.
    + intros [[rest H] | H]; [|done]. by exists EmptyString, rest.
    + intros (before & after & H). left. exists after.
      destruct before; [done | discriminate].
  - rewrite IH. split.
    + intros [[rest H] | (before & after & H)].
      * by exists EmptyString, rest.
      * exists (String c before), after. cbn. by rewrite H.
    + intros (before & after & H). destruct before as [|d before].
      * left. by exists after.
      * right. injection H as _ H. by exists before, after.
Qed.

Lemma mentionsIssue_spec text :
  mentionsIssue text = true <-> exists word, word ∈ issueWords /\ occursIgnoringCase word text.
Proof.
  unfold mentionsIssue, occursIgnoringCase. rewrite existsb_exists.
  setoid_rewrite occursIn_spec. by setoid_rewrite list_elem_of_In.
Qed.

Lemma countReportedIssues_run w :
  reachable (store w) = true ->
  let matched := filter (fun fb => reportsIssue fb) (unwindFeedback (store w)) in
  countReportedIssues w
  = (Ok {| issue_count := length matched;
           issue_unresolved := length (filter (fun fb => negb (resolved fb)) matched) |},
     w).
Proof.
  intros Hr matched. unfold countReportedIssues.
  erewrite bind_ok by by apply storeQuery_ok. fold matched.
  by destruct matched.
Qed.

(** X22. The count of reported issues. Over a reachable store the helper
    changes nothing and counts the feedback entries that are rated below 3
    or whose comment contains one of the eight words, letter case apart:
    also an entry rated 5. The unresolved count is the part of these whose
    [resolved] flag is false, so it never exceeds the count, which never
    exceeds the number of feedback entries. *)
Theorem X22_reported_issues w :
  reachable (store w) = true ->
  exists counts,
    countReportedIssues w = (Ok counts, w) /\
    issue_count counts
    = length (filter (fun fb => reportsIssue fb) (unwindFeedback (store w))) /\
    issue_unresolved counts
    = length (filter (fun fb => negb (resolved fb) && reportsIssue fb)
                (unwindFeedback (store w))) /\
    (forall fb, reportsIssue fb = true <->
       rating fb < 3 \/
       exists word, word ∈ issueWords /\ occursIgnoringCase word (comment fb)) /\
    (issue_unresolved counts <= issue_count counts
     <= length (unwindFeedback (store w)))%nat.
Proof.
  intros Hr. eexists. split; [by apply countReportedIssues_run|]. cbn.
  split; [done|]. split; [|split; [|split]].
  - rewrite list_filter_filter. f_equal. apply list_filter_iff. intros fb.
    by rewrite andb_True.
  - intros fb. unfold reportsIssue.
    by rewrite orb_true_iff, Z.ltb_lt, mentionsIssue_spec.
  - apply length_filter.
  - apply length_filter.
Qed.

Lemma X22_witness :
  exists counts,
    countReportedIssues (worldOf replyStore) = (Ok counts, worldOf replyStore) /\
    issue_count counts = 1%nat /\ issue_unresolved counts = 1%nat.
Proof.
  destruct (X22_reported_issues (worldOf replyStore) eq_refl)
    as (counts & Hrun & Hcount & Hunresolved & _).
  exists counts. split; [exact Hrun|]. split; [exact Hcount | exact Hunresolved].
Defined.

